(** * Cart, checkout and order administration of the perfume store backend

    A shallow embedding of [src/cart.py] (token guards, cart, checkout,
    recent orders, order status administration) and of the [dashboard]
    handler of [src/auth.py], followed by the properties of the order
    workflow.

    Conventions of the embedding.
    - JSON request values are the inductive [json]; Python's dynamic
      conversions ([int], [float], truthiness, [str] methods) are written
      out on it.  Floats are idealised as rationals.
    - Strings are ASCII text.
    - A handler is a function from the committed database to a response and
      the committed database left behind.  Inside a handler the connection
      carries the transaction's working copy; statements may raise.
    - What the language runtime and the libraries decide (parsing a number
      out of a string, decoding a signed token, coercing a driver parameter
      to text) is a field of the record [runtime]. *)

From Stdlib Require Import ZArith QArith List String Ascii Bool Lia.
From Stdlib Require Import DecimalString.
From Stdlib Require Import Permutation Sorted.
Import ListNotations.

Set Warnings "-register-all".

Local Open Scope string_scope.
Local Open Scope list_scope.
Local Open Scope Z_scope.

(* ================================================================== *)
(** ** Python values and string methods *)
(* ================================================================== *)

Inductive json : Type :=
| JNull
| JBool (b : bool)
| JInt (n : Z)
| JFloat (q : Q)
| JStr (s : string)
| JList (l : list json)
| JObj (o : list (string * json)).

(** A Python dict with string keys, in insertion order. *)
Definition dict := list (string * json).

Inductive exn : Type :=
| KeyError | ValueError | TypeError | AttributeError | DBError.

Module Py.

(** [str.isspace] on ASCII: tab to carriage return, the four separators
    and the space. *)
Definition is_space (c : ascii) : bool :=
  let n := nat_of_ascii c in
  (((9 <=? n) && (n <=? 13)) || ((28 <=? n) && (n <=? 32)))%nat.

Fixpoint lstrip (s : string) : string :=
  match s with
  | EmptyString => EmptyString
  | String c s' => if is_space c then lstrip s' else s
  end.

Fixpoint rev_onto (s acc : string) : string :=
  match s with
  | EmptyString => acc
  | String c s' => rev_onto s' (String c acc)
  end.

Definition reverse (s : string) : string := rev_onto s EmptyString.

Definition rstrip (s : string) : string := reverse (lstrip (reverse s)).

(** [s.strip()] *)
Definition strip (s : string) : string := rstrip (lstrip s).

Definition lower_char (c : ascii) : ascii :=
  let n := nat_of_ascii c in
  if ((65 <=? n) && (n <=? 90))%nat then ascii_of_nat (n + 32) else c.

(** [s.lower()] *)
Fixpoint lower (s : string) : string :=
  match s with
  | EmptyString => EmptyString
  | String c s' => String (lower_char c) (lower s')
  end.

(** [s.startswith(p)] *)
Definition startswith (p s : string) : bool := String.prefix p s.

(** [s.replace(' ', '')] *)
Fixpoint remove_spaces (s : string) : string :=
  match s with
  | EmptyString => EmptyString
  | String c s' =>
      if Ascii.eqb c " "%char then remove_spaces s'
      else String c (remove_spaces s')
  end.

(** [s[-n:]] for a positive [n] *)
Definition last_chars (n : nat) (s : string) : string :=
  substring (String.length s - n) n s.

Definition is_digit_char (c : ascii) : bool :=
  let n := nat_of_ascii c in ((48 <=? n) && (n <=? 57))%nat.

Fixpoint all_digits (s : string) : bool :=
  match s with
  | EmptyString => true
  | String c s' => is_digit_char c && all_digits s'
  end.

(** [s.isdigit()]: false on the empty string *)
Definition isdigit (s : string) : bool :=
  match s with
  | EmptyString => false
  | _ => all_digits s
  end.

(** [str(n)] for an int *)
Definition str_of_int (n : Z) : string := NilZero.string_of_int (Z.to_int n).

(** Truth value of a Python object: [if v], [not v], [v or d]. *)
Definition truthy (v : json) : bool :=
  match v with
  | JNull => false
  | JBool b => b
  | JInt n => negb (n =? 0)
  | JFloat q => negb (Qnum q =? 0)
  | JStr s => negb (s =? "")%string
  | JList l => match l with [] => false | _ => true end
  | JObj o => match o with [] => false | _ => true end
  end.

(** [d.get(k)]: the first binding of [k], [None] when there is none *)
Fixpoint get (k : string) (d : dict) : option json :=
  match d with
  | [] => None
  | (k', v) :: d' => if (k =? k')%string then Some v else get k d'
  end.

(** [d.get(k)] as a Python value: a missing key reads as [None]. *)
Definition get_or_none (k : string) (d : dict) : json :=
  match get k d with Some v => v | None => JNull end.

(** [k in d] *)
Definition has_key (k : string) (d : dict) : bool :=
  match get k d with Some _ => true | None => false end.

(** [not v or not str(v).strip()]: [str] of a truthy value that is not a
    string (a number, [True], a non-empty list or dict) is never blank. *)
Definition blank (v : json) : bool :=
  negb (truthy v) ||
  match v with
  | JStr s => (strip s =? "")%string
  | _ => false
  end.

End Py.

(* ================================================================== *)
(** ** What the runtime decides *)
(* ================================================================== *)

(** The payload of a session token: the fields the login handlers of
    [auth.py] put into every token they sign ([exp] is checked by the
    decoder). *)
Record claims : Type := mkClaims {
  cl_user_id : Z;
  cl_username : string;
  cl_role_id : Z
}.

(** [jwt.decode(token, Config.SECRET_KEY, algorithms=['HS256'])]: the
    payload, [ExpiredSignatureError] or another [InvalidTokenError]. *)
Inductive jwt_result : Type :=
| JwtOk (c : claims)
| JwtExpired
| JwtInvalid.

Record runtime : Type := mkRuntime {
  (** [jwt.decode] under the configured secret *)
  jwt_decode : string -> jwt_result;
  (** [int(s)] on a string; [None] is [ValueError] *)
  int_of_str : string -> option Z;
  (** [float(s)] on a string; [None] is [ValueError] *)
  float_of_str : string -> option Q;
  (** the text a driver parameter that is neither a string nor NULL is
      compared and stored as in a text column; [None] when the statement
      is refused *)
  text_param : json -> option string;
  (** [dt.strftime(fmt)] on a timestamp *)
  strftime : string -> Z -> string;
  (** [round(x, 2)] *)
  round2 : Q -> Q;
  (** [str(v)] of a value that is not a string *)
  repr : json -> string
}.

(** The surroundings of one request: whether a connection can be opened,
    the statement (counted from 0) at which the connection raises, if any,
    and the clock of the database. *)
Record env : Type := mkEnv {
  db_up : bool;
  fault_at : option nat;
  now : Z
}.

Record request : Type := mkRequest {
  authorization : option string;   (* request.headers.get('Authorization') *)
  json_body : option dict;         (* request.get_json(silent=True), an object *)
  args : list (string * string);   (* request.args *)
  form : list (string * string);   (* request.form *)
  host_url : string                (* request.host_url *)
}.

Record response : Type := mkResponse {
  status : Z;
  body : json
}.

(** The double quote character, as a string. *)
Definition dquote : string := String (ascii_of_nat 34) EmptyString.

(** [jsonify({"error": msg}), code] *)
Definition error_response (code : Z) (msg : string) : response :=
  mkResponse code (JObj [("error", JStr msg)]).

(** What the framework answers when a handler lets an exception escape. *)
Definition internal_server_error : response :=
  mkResponse 500 (JStr "Internal Server Error").

(* ================================================================== *)
(** ** The relational store *)
(* ================================================================== *)

Record perfume : Type := mkPerfume {
  p_id : Z;
  p_name : string;
  p_price : Q;
  p_quantity : Z;
  p_size : option string;
  p_available : bool
}.

Record cart_row : Type := mkCart {
  c_id : Z;
  c_user_id : Z;
  c_perfume_id : Z;
  c_quantity : Z;
  c_size : option string;
  c_added_at : Z
}.

Record order_row : Type := mkOrder {
  o_id : Z;
  o_user_id : Z;
  o_total_amount : Q;
  o_shipping_cost : Q;
  o_tax_amount : Q;
  o_first_name : string;
  o_last_name : string;
  o_email : string;
  o_phone : string;
  o_address : string;
  o_city : string;
  o_state : string;
  o_zip : string;
  o_payment_method : string;
  o_status : string;
  o_created_at : Z
}.

Record order_item : Type := mkOrderItem {
  oi_order_id : Z;
  oi_perfume_id : Z;
  oi_quantity : Z;
  oi_size : option string;
  oi_unit_price : Q
}.

Record payment_detail : Type := mkPayment {
  pd_order_id : Z;
  pd_payment_method : string;
  pd_card_last4 : string;
  pd_card_holder_name : option string;
  pd_expiry : option string;
  pd_created_at : Z
}.

Record db : Type := mkDb {
  perfumes : list perfume;
  carts : list cart_row;
  orders : list order_row;
  order_items : list order_item;
  payment_details : list payment_detail
}.

Definition set_perfumes (x : list perfume) (d : db) : db :=
  mkDb x (carts d) (orders d) (order_items d) (payment_details d).
Definition set_carts (x : list cart_row) (d : db) : db :=
  mkDb (perfumes d) x (orders d) (order_items d) (payment_details d).
Definition set_orders (x : list order_row) (d : db) : db :=
  mkDb (perfumes d) (carts d) x (order_items d) (payment_details d).
Definition set_order_items (x : list order_item) (d : db) : db :=
  mkDb (perfumes d) (carts d) (orders d) x (payment_details d).
Definition set_payment_details (x : list payment_detail) (d : db) : db :=
  mkDb (perfumes d) (carts d) (orders d) (order_items d) x.

Module Sql.

(** [SELECT ... FROM perfumes WHERE id = %s AND available = 1], [fetchone] *)
Definition select_available_perfume (pid : Z) (d : db) : option perfume :=
  find (fun p => (p_id p =? pid) && p_available p) (perfumes d).

(** [COALESCE(size, '')] *)
Definition coalesce_empty (s : option string) : string :=
  match s with Some x => x | None => "" end.

(** Modelled from the spec: the schema is not under src/.  A cart entry
    is keyed by (user_id, perfume_id, size), the size normalized to the
    empty string when absent; the lookup of [add_to_cart] compares the
    same three columns. *)
Definition cart_key_match (user pid : Z) (size : option string)
    (r : cart_row) : bool :=
  (c_user_id r =? user) && (c_perfume_id r =? pid)
  && (coalesce_empty (c_size r) =? coalesce_empty size)%string.

(** [SELECT quantity FROM carts WHERE user_id = %s AND perfume_id = %s
    AND COALESCE(size, '') = COALESCE(%s, '')], [fetchone] *)
Definition select_cart_quantity (user pid : Z) (size : option string)
    (d : db) : option Z :=
  option_map c_quantity (find (cart_key_match user pid size) (carts d)).

(** [INSERT INTO carts (user_id, perfume_id, quantity, size) VALUES ...
    ON DUPLICATE KEY UPDATE quantity = VALUES(quantity),
    size = COALESCE(VALUES(size), size)] *)
Fixpoint upsert_rows (fresh : cart_row) (rows : list cart_row)
    : list cart_row :=
  match rows with
  | [] => [fresh]
  | r :: rows' =>
      if cart_key_match (c_user_id fresh) (c_perfume_id fresh) (c_size fresh) r
      then mkCart (c_id r) (c_user_id r) (c_perfume_id r) (c_quantity fresh)
             (match c_size fresh with Some s => Some s | None => c_size r end)
             (c_added_at r) :: rows'
      else r :: upsert_rows fresh rows'
  end.

(** Modelled from the spec: the schema is not under src/.  A new cart row
    gets its [id] from the table; here one more than the largest id
    present. *)
Definition next_cart_id (d : db) : Z :=
  1 + fold_right Z.max 0 (map c_id (carts d)).

Definition upsert_cart (user pid qty : Z) (size : option string) (t : Z)
    (d : db) : db :=
  set_carts
    (upsert_rows (mkCart (next_cart_id d) user pid qty size t) (carts d)) d.

(** [DELETE FROM carts WHERE user_id = %s] *)
Definition delete_user_cart (user : Z) (d : db) : db :=
  set_carts (filter (fun r => negb (c_user_id r =? user)) (carts d)) d.

(** Modelled from the spec: the schema is not under src/.  An order
    gets its [id] from the table ([cursor.lastrowid]); here one more than
    the largest id present. *)
Definition next_order_id (d : db) : Z :=
  1 + fold_right Z.max 0 (map o_id (orders d)).

(** [INSERT INTO orders (...) VALUES (...)]: the row comes with every
    column but the id. *)
Definition insert_order (row : Z -> order_row) (d : db) : db :=
  set_orders (orders d ++ [row (next_order_id d)]) d.

Definition with_status (st : string) (o : order_row) : order_row :=
  mkOrder (o_id o) (o_user_id o) (o_total_amount o) (o_shipping_cost o)
    (o_tax_amount o) (o_first_name o) (o_last_name o) (o_email o)
    (o_phone o) (o_address o) (o_city o) (o_state o) (o_zip o)
    (o_payment_method o) st (o_created_at o).

(** [UPDATE orders SET status = %s WHERE id = %s] *)
Definition update_order_status (st : string) (id : Z) (d : db) : db :=
  set_orders
    (map (fun o => if o_id o =? id then with_status st o else o) (orders d))
    d.

(** [SELECT status FROM orders WHERE id = %s FOR UPDATE], [fetchone] *)
Definition select_order (id : Z) (d : db) : option order_row :=
  find (fun o => o_id o =? id) (orders d).

(** [INSERT INTO order_items (...) VALUES (...)] *)
Definition insert_order_item (it : order_item) (d : db) : db :=
  set_order_items (order_items d ++ [it]) d.

Definition with_quantity (q : Z) (p : perfume) : perfume :=
  mkPerfume (p_id p) (p_name p) (p_price p) q (p_size p) (p_available p).

(** [UPDATE perfumes SET quantity = quantity - %s WHERE id = %s] *)
Definition deduct_stock (q pid : Z) (d : db) : db :=
  set_perfumes
    (map (fun p => if p_id p =? pid then with_quantity (p_quantity p - q) p
                   else p) (perfumes d))
    d.

(** [INSERT INTO payment_details (...) VALUES (...)] *)
Definition insert_payment (pd : payment_detail) (d : db) : db :=
  set_payment_details (payment_details d ++ [pd]) d.

End Sql.

(* ================================================================== *)
(** ** Control flow inside a handler *)
(* ================================================================== *)

(** How a block of statements ends: it falls through with a value, it
    executes [return], or an exception propagates. *)
Inductive outcome (A : Type) : Type :=
| Val (a : A)
| Ret (r : response)
| Exc (e : exn).

Arguments Val {A} a.
Arguments Ret {A} r.
Arguments Exc {A} e.

(** An open connection: the committed rows, the working copy of the
    running transaction and the number of statements left before one
    raises. *)
Record conn : Type := mkConn {
  committed : db;
  working : db;
  countdown : option nat
}.

Definition M (A : Type) : Type := conn -> outcome A * conn.

Definition ret {A} (a : A) : M A := fun c => (Val a, c).

Definition bind {A B} (m : M A) (k : A -> M B) : M B :=
  fun c =>
    match m c with
    | (Val a, c') => k a c'
    | (Ret r, c') => (Ret r, c')
    | (Exc e, c') => (Exc e, c')
    end.

Definition return_ {A} (r : response) : M A := fun c => (Ret r, c).

Definition raise {A} (e : exn) : M A := fun c => (Exc e, c).

(** A block without statements on the connection. *)
Definition lift {A} (o : outcome A) : M A := fun c => (o, c).

Definition obind {A B} (o : outcome A) (k : A -> outcome B) : outcome B :=
  match o with
  | Val a => k a
  | Ret r => Ret r
  | Exc e => Exc e
  end.

Declare Scope handler_scope.
Delimit Scope handler_scope with handler.
Notation "x <- m ;; k" := (bind m (fun x => k))
  (at level 61, m at next level, right associativity) : handler_scope.
Notation "m ;; k" := (bind m (fun _ => k))
  (at level 61, right associativity) : handler_scope.
Notation "x <~ o ;; k" := (obind o (fun x => k))
  (at level 61, o at next level, right associativity) : handler_scope.

(** One statement reaches the server: [None] when it raises. *)
Definition tick (c : conn) : option conn :=
  match countdown c with
  | None => Some c
  | Some O => None
  | Some (S n) => Some (mkConn (committed c) (working c) (Some n))
  end.

Definition spent (c : conn) : conn :=
  mkConn (committed c) (working c) None.

(** [cursor.execute] of a SELECT followed by the fetch *)
Definition query {A} (q : db -> A) : M A :=
  fun c =>
    match tick c with
    | None => (Exc DBError, spent c)
    | Some c' => (Val (q (working c')), c')
    end.

(** [cursor.execute] of an INSERT followed by [cursor.lastrowid] *)
Definition insert_returning {A} (u : db -> A * db) : M A :=
  fun c =>
    match tick c with
    | None => (Exc DBError, spent c)
    | Some c' =>
        let (a, w) := u (working c') in
        (Val a, mkConn (committed c') w (countdown c'))
    end.

(** [cursor.execute] of an INSERT, UPDATE or DELETE *)
Definition execute (u : db -> db) : M unit :=
  fun c =>
    match tick c with
    | None => (Exc DBError, spent c)
    | Some c' => (Val tt, mkConn (committed c') (u (working c')) (countdown c'))
    end.

(** [conn.commit()] *)
Definition commit : M unit :=
  fun c =>
    match tick c with
    | None => (Exc DBError, spent c)
    | Some c' => (Val tt, mkConn (working c') (working c') (countdown c'))
    end.

(** [conn.rollback()] *)
Definition rollback : M unit :=
  fun c => (Val tt, mkConn (committed c) (committed c) (countdown c)).

(** [try: m except Exception as e: h e] *)
Definition try_except {A} (m : M A) (h : exn -> M A) : M A :=
  fun c =>
    match m c with
    | (Exc e, c') => h e c'
    | r => r
    end.

(** [get_db_connection()], the handler's block, and [conn.close()] in its
    [finally]: closing drops the working copy, so only what was committed
    stays.  An exception that escapes the block is answered by the
    framework. *)
Definition with_connection (e : env) (unavailable : response)
    (block : M response) (d : db) : response * db :=
  if db_up e then
    match block (mkConn d d (fault_at e)) with
    | (Val r, c) => (r, committed c)
    | (Ret r, c) => (r, committed c)
    | (Exc _, c) => (internal_server_error, committed c)
    end
  else (unavailable, d).

(* ================================================================== *)
(** ** The handlers *)
(* ================================================================== *)

Section Handlers.

Variable rt : runtime.

Local Open Scope handler_scope.

(** [int(v)] *)
Definition py_int (v : json) : outcome Z :=
  match v with
  | JInt n => Val n
  | JBool b => Val (if b then 1 else 0)
  | JFloat q => Val (Z.quot (Qnum q) (Zpos (Qden q)))
  | JStr s =>
      match int_of_str rt s with
      | Some n => Val n
      | None => Exc ValueError
      end
  | JNull | JList _ | JObj _ => Exc TypeError
  end.

(** [float(v)] *)
Definition py_float (v : json) : outcome Q :=
  match v with
  | JInt n => Val (inject_Z n)
  | JBool b => Val (inject_Z (if b then 1 else 0))
  | JFloat q => Val q
  | JStr s =>
      match float_of_str rt s with
      | Some q => Val q
      | None => Exc ValueError
      end
  | JNull | JList _ | JObj _ => Exc TypeError
  end.

(** [str(v)] *)
Definition py_str (v : json) : string :=
  match v with
  | JStr s => s
  | _ => repr rt v
  end.

(** [d[k]] *)
Definition py_index (k : string) (d : dict) : outcome json :=
  match Py.get k d with
  | Some v => Val v
  | None => Exc KeyError
  end.

(** [for x in v]: what the loop ranges over *)
Definition py_iter (v : json) : outcome (list json) :=
  match v with
  | JList l => Val l
  | JObj o => Val (map (fun kv => JStr (fst kv)) o)
  | JStr s => Val (map (fun c => JStr (String c EmptyString)) (list_ascii_of_string s))
  | JNull | JBool _ | JInt _ | JFloat _ => Exc TypeError
  end.

(** The SQL value of a parameter bound to a text column. *)
Definition sql_text (v : json) : option (option string) :=
  match v with
  | JNull => Some None
  | JStr s => Some (Some s)
  | _ => option_map Some (text_param rt v)
  end.

Definition param_text (v : json) : M (option string) :=
  match sql_text v with
  | Some t => ret t
  | None => raise DBError
  end.

Definition json_of_text (t : option string) : json :=
  match t with
  | Some s => JStr s
  | None => JNull
  end.

(** *** Token guards *)

Definition verify_customer_token (req : request) : claims + response :=
  match authorization req with
  | None => inr (error_response 401 "Token missing")
  | Some token =>
      if (token =? "")%string then inr (error_response 401 "Token missing")
      else if Py.startswith "bearer " (Py.lower token)
      then inr (error_response 401 "Use raw token, not Bearer")
      else
        match jwt_decode rt (Py.strip token) with
        | JwtOk data =>
            if negb (cl_role_id data =? 2)
            then inr (error_response 403 "Access denied — Customer only")
            else inl data
        | JwtExpired => inr (error_response 401 "Token expired")
        | JwtInvalid => inr (error_response 401 "Invalid token")
        end
  end.

(** A handler behind [@jwt_required] reads [request.user_id]. *)
Definition jwt_required (f : Z -> request -> env -> db -> response * db)
    (req : request) (e : env) (d : db) : response * db :=
  match verify_customer_token req with
  | inr err => (err, d)
  | inl payload => f (cl_user_id payload) req e d
  end.

Definition verify_admin_token (req : request) : claims + response :=
  match authorization req with
  | None => inr (error_response 401 "Token missing")
  | Some token =>
      if (token =? "")%string then inr (error_response 401 "Token missing")
      else if Py.startswith "bearer " (Py.lower token)
      then inr (error_response 401 "Use raw token, not Bearer")
      else
        match jwt_decode rt (Py.strip token) with
        | JwtOk data =>
            if negb (cl_role_id data =? 1)
            then inr (error_response 403 "Access denied — Admin only")
            else inl data
        | JwtExpired => inr (error_response 401 "Token expired")
        | JwtInvalid => inr (error_response 401 "Invalid token")
        end
  end.

Definition admin_required (f : Z -> request -> env -> db -> response * db)
    (req : request) (e : env) (d : db) : response * db :=
  match verify_admin_token req with
  | inr err => (err, d)
  | inl payload => f (cl_user_id payload) req e d
  end.

(** [dashboard] of [auth.py] *)
Definition dashboard (req : request) : response :=
  match authorization req with
  | None => error_response 401 "Token missing"
  | Some token =>
      if (token =? "")%string then error_response 401 "Token missing"
      else
        match jwt_decode rt token with
        | JwtOk decoded =>
            let role_id := cl_role_id decoded in
            let username := cl_username decoded in
            if role_id =? 1
            then mkResponse 200
                   (JObj [("message", JStr ("Welcome Admin " ++ username ++ "!"))])
            else if role_id =? 2
            then mkResponse 200
                   (JObj [("message", JStr ("Welcome Customer " ++ username ++ "!"))])
            else error_response 403 "Unknown role"
        | JwtExpired => error_response 401 "Token expired"
        | JwtInvalid => error_response 401 "Invalid token"
        end
  end.

(** *** POST /cart *)

(** The body of the inner [try] of the loop: [int(item['perfume_id'])],
    [int(item.get('quantity', 1))], [item.get('size')]. *)
Definition cart_item_fields (item : json) : outcome (Z * Z * json) :=
  match item with
  | JObj o =>
      v <~ py_index "perfume_id" o ;;
      pid <~ py_int v ;;
      qty <~ py_int (match Py.get "quantity" o with
                     | Some q => q
                     | None => JInt 1
                     end) ;;
      Val (pid, qty, Py.get_or_none "size" o)
  | _ => Exc TypeError
  end.

Definition item_error (perfume_id : json) (msg : string) : json :=
  JObj [("perfume_id", perfume_id); ("error", JStr msg)].

(** One turn of the loop over the items; [acc] is ([added], [errors]). *)
Definition add_item (e : env) (user_id : Z) (item : json)
    (acc : list json * list json) : M (list json * list json) :=
  let (added, errors) := acc in
  match cart_item_fields item with
  | Val (pid, qty, size) =>
      perfume <- query (Sql.select_available_perfume pid) ;;
      match perfume with
      | None =>
          ret (added, errors ++ [item_error (JInt pid) "Perfume not available"])
      | Some p =>
          let stock := p_quantity p in
          let db_size := p_size p in
          let use_size := if Py.truthy size then size else json_of_text db_size in
          key_size <- param_text use_size ;;
          current <- query (Sql.select_cart_quantity user_id pid key_size) ;;
          let current_qty := match current with Some q => q | None => 0 end in
          let new_total := current_qty + qty in
          if new_total >? stock
          then ret (added,
                    errors ++ [item_error (JInt pid)
                                 ("Only " ++ Py.str_of_int stock
                                  ++ " in stock (you have "
                                  ++ Py.str_of_int current_qty ++ ")")])
          else
            execute (Sql.upsert_cart user_id pid new_total key_size (now e)) ;;
            ret (added ++ [JObj [("perfume_id", JInt pid);
                                 ("total_in_cart", JInt new_total);
                                 ("size", use_size)]],
                 errors)
      end
  | Exc ValueError | Exc TypeError =>
      (* except (ValueError, TypeError): the entry reads item.get(...) *)
      match item with
      | JObj o =>
          ret (added,
               errors ++ [item_error (Py.get_or_none "perfume_id" o) "Invalid data"])
      | _ => raise AttributeError
      end
  | Exc ex => raise ex
  | Ret r => return_ r
  end.

Fixpoint add_items (e : env) (user_id : Z) (items : list json)
    (acc : list json * list json) : M (list json * list json) :=
  match items with
  | [] => ret acc
  | item :: rest =>
      acc' <- add_item e user_id item acc ;;
      add_items e user_id rest acc'
  end.

(** The three answers after the loop and the commit. *)
Definition cart_response (added errors : list json) : response :=
  match errors, added with
  | _ :: _, [] => mkResponse 400 (JObj [("errors", JList errors)])
  | _ :: _, _ :: _ =>
      mkResponse 207 (JObj [("message", JStr "Partial success");
                            ("added", JList added);
                            ("errors", JList errors)])
  | [], _ => mkResponse 201 (JObj [("message", JStr "All added");
                                   ("added", JList added)])
  end.

Definition add_to_cart (user_id : Z) (req : request) (e : env) (d : db)
    : response * db :=
  let data := match json_body req with Some o => o | None => [] end in
  let items := match Py.get "items" data with Some v => v | None => JList [] end in
  if negb (Py.truthy items)
  then (error_response 400 "No items provided", d)
  else
    with_connection e (error_response 500 "Server error")
      (try_except
         (its <- lift (py_iter items) ;;
          acc <- add_items e user_id its ([], []) ;;
          commit ;;
          ret (cart_response (fst acc) (snd acc)))
         (fun _ =>
            rollback ;;
            ret (error_response 500 "Database error")))
      d.

(** *** GET /cart *)

(** Rows in descending order of a key, as [ORDER BY ... DESC] returns them;
    rows with equal keys keep their order here, while the server is free
    to arrange them as it likes, and differently from one statement to the
    next: what is said of two statements together assumes the keys
    distinct. *)
Fixpoint insert_desc {A} (key : A -> Z) (x : A) (l : list A) : list A :=
  match l with
  | [] => [x]
  | y :: l' => if key y <? key x then x :: l else y :: insert_desc key x l'
  end.

Definition order_by_desc {A} (key : A -> Z) (l : list A) : list A :=
  fold_right (insert_desc key) [] l.

(** [s.rstrip('/')] *)
Definition rstrip_slash (s : string) : string :=
  let fix drop (r : string) : string :=
    match r with
    | String "/"%char r' => drop r'
    | _ => r
    end in
  Py.reverse (drop (Py.reverse s)).

Definition photo_url (req : request) (perfume_id : Z) : string :=
  (rstrip_slash (host_url req) ++ "/perfumes/photo/"
   ++ Py.str_of_int perfume_id)%string.

(** [SELECT ... FROM carts c JOIN perfumes p ON c.perfume_id = p.id
    WHERE c.user_id = %s ORDER BY c.added_at DESC] *)
Definition select_cart_view (user_id : Z) (d : db)
    : list (cart_row * perfume) :=
  order_by_desc (fun cp => c_added_at (fst cp))
    (flat_map
       (fun c =>
          map (fun p => (c, p))
              (filter (fun p => p_id p =? c_perfume_id c) (perfumes d)))
       (filter (fun c => c_user_id c =? user_id) (carts d))).

Definition cart_view_item (req : request) (cp : cart_row * perfume) : json :=
  let (c, p) := cp in
  JObj [("id", JInt (c_id c));
        ("perfume_id", JInt (c_perfume_id c));
        ("name", JStr (p_name p));
        ("price", JFloat (p_price p));
        ("quantity", JInt (c_quantity c));
        ("size", json_of_text (match c_size c with
                               | Some s => Some s
                               | None => p_size p
                               end));
        ("stock", JInt (p_quantity p));
        ("added_at", JInt (c_added_at c));
        ("photo_url", JStr (photo_url req (c_perfume_id c)));
        ("in_stock", JBool (c_quantity c <=? p_quantity p))].

Definition view_cart (user_id : Z) (req : request) (e : env) (d : db)
    : response * db :=
  with_connection e (error_response 500 "Server error")
    (try_except
       (items <- query (select_cart_view user_id) ;;
        ret (mkResponse 200
               (JObj [("cart_items", JList (map (cart_view_item req) items))])))
       (fun _ => ret (error_response 500 "Failed to load cart")))
    d.

(** *** POST /checkout *)

Definition required_fields : list string :=
  ["shipping"; "payment_method"; "items"; "totalPrice"; "tax"; "shippingCost"].

Fixpoint check_required (fields : list string) (data : dict) : outcome unit :=
  match fields with
  | [] => Val tt
  | field :: rest =>
      if Py.has_key field data then check_required rest data
      else Ret (error_response 400 ("Missing required field: " ++ field))
  end.

Definition ship_keys : list string :=
  ["firstName"; "lastName"; "email"; "phone"; "address"; "city"; "state"; "zip"].

(** [shipping.get(key)] needs a dict. *)
Fixpoint check_shipping (keys : list string) (shipping : json) : outcome unit :=
  match keys with
  | [] => Val tt
  | key :: rest =>
      match shipping with
      | JObj o =>
          if Py.blank (Py.get_or_none key o)
          then Ret (error_response 400
                      ("Shipping " ++ key ++ " is required and cannot be empty"))
          else check_shipping rest shipping
      | _ => Exc AttributeError
      end
  end.

Definition card_keys : list string := ["cardName"; "cardNumber"; "expiry"; "cvv"].

(** The body of the loop over [card_keys]; [value.replace] and
    [value.isdigit] need a string. *)
Definition check_card_key (key : string) (card_details : json) : outcome unit :=
  match card_details with
  | JObj o =>
      let value := Py.get_or_none key o in
      if Py.blank value
      then Ret (error_response 400 ("Card " ++ key ++ " is required"))
      else
        _ <~ (if (key =? "cardNumber")%string
              then match value with
                   | JStr s =>
                       let n := String.length (Py.remove_spaces s) in
                       if ((n <? 13) || (19 <? n))%nat
                       then Ret (error_response 400 "Invalid card number")
                       else Val tt
                   | _ => Exc AttributeError
                   end
              else Val tt) ;;
        if (key =? "cvv")%string
        then match value with
             | JStr s =>
                 if negb (Py.isdigit s
                          && ((String.length s =? 3) || (String.length s =? 4))%nat)
                 then Ret (error_response 400 "CVV must be 3 or 4 digits")
                 else Val tt
             | _ => Exc AttributeError
             end
        else Val tt
  | _ => Exc AttributeError
  end.

Fixpoint check_card (keys : list string) (card_details : json) : outcome unit :=
  match keys with
  | [] => Val tt
  | key :: rest =>
      _ <~ check_card_key key card_details ;;
      check_card rest card_details
  end.

(** What the validation hands to the transaction. *)
Record checked : Type := mkChecked {
  ck_shipping : dict;
  ck_payment_method : string;
  ck_items : list json;
  ck_card_details : json
}.

(** The statements of [checkout] before the connection is opened. *)
Definition validate_checkout (data : dict) : outcome checked :=
  _ <~ check_required required_fields data ;;
  let shipping := Py.get_or_none "shipping" data in
  payment_method <~ match Py.get_or_none "payment_method" data with
                    | JStr s => Val (Py.lower s)
                    | _ => Exc AttributeError
                    end ;;
  let items := Py.get_or_none "items" data in
  let card_details := match Py.get "card_details" data with
                      | Some v => v
                      | None => JObj []
                      end in
  if negb ((payment_method =? "card")%string || (payment_method =? "cod")%string)
  then Ret (error_response 400 "payment_method must be 'card' or 'cod'")
  else
    match items with
    | JList (i :: l) =>
        _ <~ check_shipping ship_keys shipping ;;
        _ <~ (if (payment_method =? "card")%string
              then check_card card_keys card_details
              else Val tt) ;;
        match shipping with
        | JObj o => Val (mkChecked o payment_method (i :: l) card_details)
        | _ => Exc AttributeError
        end
    | _ => Ret (error_response 400 "Items must be a non-empty list")
    end.

(** The body of the inner [try] of the loop over the items. *)
Definition order_item_fields (item : json) : outcome (Z * Z * json * Q) :=
  match item with
  | JObj o =>
      v <~ py_index "perfume_id" o ;;
      perfume_id <~ py_int v ;;
      v <~ py_index "quantity" o ;;
      quantity <~ py_int v ;;
      let selected := Py.get_or_none "selectedSize" o in
      let size := if Py.truthy selected then selected else JNull in
      v <~ py_index "price" o ;;
      unit_price <~ py_float v ;;
      Val (perfume_id, quantity, size, unit_price)
  | _ => Exc TypeError
  end.

(** One turn of the loop "Process Items & Deduct Stock"; [next] is the
    rest of the loop. *)
Definition checkout_item (order_id : Z) (item : json) (next : M unit) : M unit :=
  match order_item_fields item with
  | Val (perfume_id, quantity, size, unit_price) =>
      if quantity <=? 0
      then return_ (error_response 400 "Quantity must be positive")
      else
        (* Check availability *)
        perfume <- query (Sql.select_available_perfume perfume_id) ;;
        match perfume with
        | None =>
            rollback ;;
            return_ (error_response 404
                       ("Perfume ID " ++ Py.str_of_int perfume_id
                        ++ " not found or unavailable"))
        | Some p =>
            if p_quantity p <? quantity
            then
              rollback ;;
              return_ (error_response 400
                         ("Only " ++ Py.str_of_int (p_quantity p)
                          ++ " left of " ++ p_name p))
            else
              (* Add to order *)
              size_text <- param_text size ;;
              execute (Sql.insert_order_item
                         (mkOrderItem order_id perfume_id quantity
                            size_text unit_price)) ;;
              (* Deduct stock *)
              execute (Sql.deduct_stock quantity perfume_id) ;;
              next
        end
  | Exc KeyError | Exc ValueError | Exc TypeError =>
      rollback ;;
      return_ (error_response 400 "Invalid item data format")
  | Exc ex => raise ex
  | Ret r => return_ r
  end.

Fixpoint checkout_items (order_id : Z) (items : list json) : M unit :=
  match items with
  | [] => ret tt
  | item :: rest => checkout_item order_id item (checkout_items order_id rest)
  end.

(** [shipping[key].strip()] *)
Definition shipping_field (key : string) (shipping : dict) : outcome string :=
  v <~ py_index key shipping ;;
  match v with
  | JStr s => Val (Py.strip s)
  | _ => Exc AttributeError
  end.

Definition final_status (payment_method : string) : string :=
  if (payment_method =? "card")%string then "paid" else "cod_pending".

(** The values of the INSERT into [orders], in the order the tuple of
    parameters is evaluated: the three amounts, then the shipping fields;
    the row still waits for its id. *)
Definition order_header (e : env) (user_id : Z) (data : dict) (ck : checked)
    : outcome (Q * (Z -> order_row)) :=
  let shipping := ck_shipping ck in
  v <~ py_index "totalPrice" data ;;
  total_price <~ py_float v ;;
  v <~ py_index "shippingCost" data ;;
  shipping_cost <~ py_float v ;;
  v <~ py_index "tax" data ;;
  tax <~ py_float v ;;
  first_name <~ shipping_field "firstName" shipping ;;
  last_name <~ shipping_field "lastName" shipping ;;
  email <~ shipping_field "email" shipping ;;
  phone <~ shipping_field "phone" shipping ;;
  address <~ shipping_field "address" shipping ;;
  city <~ shipping_field "city" shipping ;;
  state <~ shipping_field "state" shipping ;;
  zip <~ shipping_field "zip" shipping ;;
  Val ((total_price + shipping_cost + tax)%Q,
       fun id =>
         mkOrder id user_id total_price shipping_cost tax
           first_name last_name (Py.lower email) phone address
           city state zip (ck_payment_method ck) "pending" (now e)).

(** Step 3, "Save Card (masked)". *)
Definition save_card (e : env) (order_id : Z) (ck : checked) : M unit :=
  if (ck_payment_method ck =? "card")%string
  then
    match ck_card_details ck with
    | JObj card =>
        number <- lift (py_index "cardNumber" card) ;;
        let last4 := Py.last_chars 4 (Py.remove_spaces (py_str number)) in
        name <- lift (py_index "cardName" card) ;;
        expiry <- lift (py_index "expiry" card) ;;
        name_text <- param_text name ;;
        expiry_text <- param_text expiry ;;
        execute (Sql.insert_payment
                   (mkPayment order_id "card" last4 name_text expiry_text
                      (now e)))
    | _ => raise TypeError
    end
  else ret tt.

(** The [try] block of [checkout]. *)
Definition checkout_block (e : env) (user_id : Z) (data : dict) (ck : checked)
    : M response :=
  (* 1. Create Order *)
  header <- lift (order_header e user_id data ck) ;;
  order_id <- insert_returning
                (fun w => (Sql.next_order_id w, Sql.insert_order (snd header) w)) ;;
  (* 2. Process Items & Deduct Stock *)
  checkout_items order_id (ck_items ck) ;;
  (* 3. Save Card (masked) *)
  save_card e order_id ck ;;
  (* 4. Clear Cart *)
  execute (Sql.delete_user_cart user_id) ;;
  (* 5. Final Status *)
  execute (Sql.update_order_status (final_status (ck_payment_method ck))
             order_id) ;;
  commit ;;
  ret (mkResponse 201
         (JObj [("message", JStr "Order placed successfully!");
                ("order_id", JInt order_id);
                ("status", JStr (final_status (ck_payment_method ck)));
                ("payment_method", JStr (ck_payment_method ck));
                ("total", JFloat (fst header))])).

Definition checkout (user_id : Z) (req : request) (e : env) (d : db)
    : response * db :=
  let data := match json_body req with Some o => o | None => [] end in
  match validate_checkout data with
  | Val ck =>
      with_connection e (error_response 500 "Database unavailable")
        (try_except (checkout_block e user_id data ck)
           (fun _ =>
              rollback ;;
              ret (error_response 500 "Order failed. Please try again later.")))
        d
  | Ret r => (r, d)
  | Exc _ => (internal_server_error, d)
  end.

(** *** GET /recent-orders *)

(** [d.get(k)] on the query string or the form *)
Fixpoint arg (k : string) (l : list (string * string)) : option string :=
  match l with
  | [] => None
  | (k', v) :: l' => if (k =? k')%string then Some v else arg k l'
  end.

(** [request.args.get('limit', 5, type=int)] followed by the two clamps *)
Definition recent_limit (req : request) : Z :=
  let limit := match arg "limit" (args req) with
               | None => 5
               | Some s =>
                   match int_of_str rt s with
                   | Some n => n
                   | None => 5
                   end
               end in
  let limit := if limit <? 1 then 1 else limit in
  if limit >? 20 then 20 else limit.

(** [SELECT ... FROM orders WHERE user_id = %s ORDER BY created_at DESC
    LIMIT %s] *)
Definition select_recent_orders (user_id limit : Z) (d : db) : list order_row :=
  firstn (Z.to_nat limit)
    (order_by_desc o_created_at
       (filter (fun o => o_user_id o =? user_id) (orders d))).

(** [SELECT p.name, oi.quantity, oi.unit_price, oi.perfume_id
    FROM order_items oi JOIN perfumes p ON oi.perfume_id = p.id
    WHERE oi.order_id = %s] *)
Definition select_order_lines (order_id : Z) (d : db)
    : list (order_item * perfume) :=
  flat_map
    (fun oi =>
       map (fun p => (oi, p))
           (filter (fun p => p_id p =? oi_perfume_id oi) (perfumes d)))
    (filter (fun oi => oi_order_id oi =? order_id) (order_items d)).

Definition recent_order_data (req : request) (order : order_row)
    (items : list (order_item * perfume)) : json :=
  JObj [("order_id", JInt (o_id order));
        ("date", JStr (strftime rt "%d %b %Y" (o_created_at order)));
        ("time", JStr (strftime rt "%I:%M %p" (o_created_at order)));
        ("city", JStr (o_city order));
        ("status", JStr (o_status order));
        ("grand_total",
         JFloat (round2 rt (o_total_amount order + o_shipping_cost order
                            + o_tax_amount order)%Q));
        ("items",
         JList (map (fun ip : order_item * perfume =>
                       JObj [("name", JStr (p_name (snd ip)));
                             ("quantity", JInt (oi_quantity (fst ip)));
                             ("photo",
                              JStr (photo_url req (oi_perfume_id (fst ip))))])
                    items));
        ("items_count", JInt (Z.of_nat (List.length items)))].

Fixpoint recent_order_loop (req : request) (orders : list order_row)
    (result : list json) : M (list json) :=
  match orders with
  | [] => ret result
  | order :: rest =>
      items <- query (select_order_lines (o_id order)) ;;
      recent_order_loop req rest (result ++ [recent_order_data req order items])
  end.

Definition recent_answer (result : list json) (message : string) : response :=
  mkResponse 200
    (JObj [("recent_orders", JList result);
           ("count", JInt (Z.of_nat (List.length result)));
           ("message", JStr message)]).

Definition recent_orders (user_id : Z) (req : request) (e : env) (d : db)
    : response * db :=
  let limit := recent_limit req in
  with_connection e (recent_answer [] "Loading...")
    (try_except
       (orders <- query (select_recent_orders user_id limit) ;;
        match orders with
        | [] => return_ (recent_answer [] "No orders yet")
        | _ :: _ =>
            result <- recent_order_loop req orders [] ;;
            ret (recent_answer result "Your latest orders")
        end)
       (fun _ => ret (recent_answer [] "Try again")))
    d.

(** *** PATCH /admin/orders/<order_id>/status *)

Definition allowed_statuses : list string :=
  ["pending"; "paid"; "cod_pending"; "shipped"; "delivered"; "cancelled"].

Definition in_strings (s : string) (l : list string) : bool :=
  existsb (String.eqb s) l.

(** [data.get('status') or request.args.get('status')], where [data] is the
    JSON body or, when that is empty, the form. *)
Definition requested_status (req : request) : json :=
  let body := match json_body req with Some o => o | None => [] end in
  let data := match body with
              | [] => map (fun kv => (fst kv, JStr (snd kv))) (form req)
              | _ :: _ => body
              end in
  let from_data := Py.get_or_none "status" data in
  if Py.truthy from_data then from_data
  else json_of_text (arg "status" (args req)).

Definition admin_update_order_status (order_id : Z) (req : request) (e : env)
    (d : db) : response * db :=
  match requested_status req with
  | JNull =>
      (error_response 400
         ("Missing 'status' (provide JSON body {" ++ dquote ++ "status" ++ dquote
          ++ ": ...}, form data, or ?status=...)"),
       d)
  | v =>
      (* normalize *)
      let new_status := Py.lower (Py.strip (py_str v)) in
      if negb (in_strings new_status allowed_statuses)
      then
        (error_response 400
           ("Invalid status '" ++ new_status
            ++ "'. Allowed: cancelled, cod_pending, delivered, paid, pending, shipped"),
         d)
      else
        with_connection e (error_response 500 "DB unavailable")
          (try_except
             (found <- query (Sql.select_order order_id) ;;
              match found with
              | None => return_ (error_response 404 "Order not found")
              | Some _ =>
                  execute (Sql.update_order_status new_status order_id) ;;
                  commit ;;
                  ret (mkResponse 200
                         (JObj [("message", JStr "Status updated");
                                ("new_status", JStr new_status)]))
              end)
             (fun _ =>
                rollback ;;
                ret (error_response 500 "Update failed")))
          d
  end.

End Handlers.

(* ================================================================== *)
(** ** Notions used in the statements *)
(* ================================================================== *)

(** The quantity the cart holds under a key; 0 when there is no row. *)
Definition cart_quantity (user pid : Z) (size : option string) (d : db) : Z :=
  match Sql.select_cart_quantity user pid size d with
  | Some q => q
  | None => 0
  end.

(** The number of cart rows under a key. *)
Definition cart_rows (user pid : Z) (size : option string) (d : db) : nat :=
  List.length (filter (Sql.cart_key_match user pid size) (carts d)).

(** An item of a POST /cart body. *)
Definition cart_line (pid qty : Z) (size : json) : json :=
  JObj [("perfume_id", JInt pid); ("quantity", JInt qty); ("size", size)].

Definition accepted_answer (pid : Z) (size : json) (new_total : Z) : response :=
  mkResponse 201
    (JObj [("message", JStr "All added");
           ("added", JList [JObj [("perfume_id", JInt pid);
                                  ("total_in_cart", JInt new_total);
                                  ("size", size)]])]).

Definition rejected_answer (pid stock existing : Z) : response :=
  mkResponse 400
    (JObj [("errors",
            JList [item_error (JInt pid)
                     ("Only " ++ Py.str_of_int stock ++ " in stock (you have "
                      ++ Py.str_of_int existing ++ ")")])]).

(** The cart ledger in the words of the spec: each addition computes
    new_total = existing + requested; it is rejected when new_total exceeds
    the stock and otherwise becomes the quantity of the entry.  The result
    is the answer to each addition and the quantity at the end. *)
Fixpoint cart_ledger (pid : Z) (size : json) (stock existing : Z)
    (qtys : list Z) : list response * Z :=
  match qtys with
  | [] => ([], existing)
  | q :: rest =>
      let new_total := existing + q in
      if new_total >? stock
      then
        let (answers, final) := cart_ledger pid size stock existing rest in
        (rejected_answer pid stock existing :: answers, final)
      else
        let (answers, final) := cart_ledger pid size stock new_total rest in
        (accepted_answer pid size new_total :: answers, final)
  end.

(** One POST /cart after the other. *)
Fixpoint add_calls (rt : runtime) (user : Z) (reqs : list request) (e : env)
    (d : db) : list response * db :=
  match reqs with
  | [] => ([], d)
  | req :: rest =>
      let (r, d1) := add_to_cart rt user req e d in
      let (rs, d2) := add_calls rt user rest e d1 in
      (r :: rs, d2)
  end.

(** [data.get('items', [])] of a POST /cart *)
Definition posted_items (req : request) : json :=
  match Py.get "items" (match json_body req with Some o => o | None => [] end) with
  | Some v => v
  | None => JList []
  end.

(** The size an item is filed under: its own when given, else the
    perfume's. *)
Definition effective_size (size : json) (p : perfume) : json :=
  if Py.truthy size then size else json_of_text (p_size p).


(** Between two states of the store no perfume became available and no
    stock rose: what [after] sells, [before] sold under the same name and
    in no smaller quantity. *)
Definition no_restock (before after : db) : Prop :=
  forall pid,
    match Sql.select_available_perfume pid after with
    | Some p1 =>
        exists p0, Sql.select_available_perfume pid before = Some p0
                   /\ p_quantity p1 <= p_quantity p0
                   /\ p_name p1 = p_name p0
    | None => Sql.select_available_perfume pid before = None
    end.

(** A line item the loop of [checkout] can take: its fields convert, the
    quantity is positive and the size is a text the driver accepts. *)
Definition sound_line (rt : runtime) (item : json) : Prop :=
  exists pid q size price t,
    order_item_fields rt item = Val (pid, q, size, price)
    /\ 0 < q /\ sql_text rt size = Some t.

(** A line item whose perfume is missing or unavailable in [w], or in
    stock for less than the requested quantity. *)
Definition lacking (rt : runtime) (w : db) (item : json) : Prop :=
  exists pid q size price,
    order_item_fields rt item = Val (pid, q, size, price)
    /\ (Sql.select_available_perfume pid w = None
        \/ exists p, Sql.select_available_perfume pid w = Some p
                     /\ p_quantity p < q).

(** The answer [r] names the line item: by its perfume id when the perfume
    is missing or unavailable (404), by the name of its perfume and what is
    left of it when the stock is short (400). *)
Definition names_line (rt : runtime) (w : db) (item : json) (r : response)
    : Prop :=
  exists pid q size price,
    order_item_fields rt item = Val (pid, q, size, price)
    /\ ((Sql.select_available_perfume pid w = None
         /\ r = error_response 404
                  ("Perfume ID " ++ Py.str_of_int pid
                   ++ " not found or unavailable"))
        \/ (exists p left,
               Sql.select_available_perfume pid w = Some p
               /\ left < q /\ left <= p_quantity p
               /\ r = error_response 400
                        ("Only " ++ Py.str_of_int left ++ " left of "
                         ++ p_name p))).

(** The body of a request, as the handlers read it. *)
Definition body_of (req : request) : dict :=
  match json_body req with Some o => o | None => [] end.


(** The last four characters of a card number without its spaces. *)
Definition card_last4 (number : string) : string :=
  Py.last_chars 4 (Py.remove_spaces number).

(** What step 3 of [checkout] does to the working copy: for a card it
    appends one payment row made of the order id, the last four
    characters of the number, the holder name and the expiry; for cash on
    delivery nothing. *)
Definition card_saved (rt : runtime) (e : env) (ck : checked) (oid : Z)
    (before after : db) : Prop :=
  (ck_payment_method ck = "card"
   /\ exists card number name expiry name_text expiry_text,
        ck_card_details ck = JObj card
        /\ Py.get "cardNumber" card = Some number
        /\ Py.get "cardName" card = Some name
        /\ Py.get "expiry" card = Some expiry
        /\ sql_text rt name = Some name_text
        /\ sql_text rt expiry = Some expiry_text
        /\ after = Sql.insert_payment
                     (mkPayment oid "card" (card_last4 (py_str rt number))
                        name_text expiry_text (now e))
                     before)
  \/ (ck_payment_method ck <> "card" /\ after = before).

(** The answer of a checkout that went through. *)
Definition order_placed (oid : Z) (payment_method : string) (total : Q)
    : response :=
  mkResponse 201
    (JObj [("message", JStr "Order placed successfully!");
           ("order_id", JInt oid);
           ("status", JStr (final_status payment_method));
           ("payment_method", JStr payment_method);
           ("total", JFloat total)]).


(** [data.get('card_details', {})] of a POST /checkout *)
Definition card_details_of (req : request) : json :=
  match Py.get "card_details" (body_of req) with
  | Some v => v
  | None => JObj []
  end.

(** The test the loop over [card_keys] makes, in the operations of the
    code: holder name, number, expiry and CVV are present and not blank,
    [len(value.replace(' ', ''))] of the number lies between 13 and 19,
    and the CVV passes [value.isdigit()] with a length of 3 or 4.  The
    characters of the number are not looked at. *)
Definition card_ok (card_details : json) : bool :=
  match card_details with
  | JObj o =>
      let number := Py.get_or_none "cardNumber" o in
      let cvv := Py.get_or_none "cvv" o in
      negb (Py.blank (Py.get_or_none "cardName" o))
      && negb (Py.blank number)
      && match number with
         | JStr s =>
             ((13 <=? String.length (Py.remove_spaces s))
              && (String.length (Py.remove_spaces s) <=? 19))%nat
         | _ => false
         end
      && negb (Py.blank (Py.get_or_none "expiry" o))
      && negb (Py.blank cvv)
      && match cvv with
         | JStr s =>
             Py.isdigit s
             && ((String.length s =? 3) || (String.length s =? 4))%nat
         | _ => false
         end
  | _ => false
  end.

(** *** Card numbers, character by character *)

(** The characters of a text other than the space, in their order. *)
Definition without_spaces (s : string) : list ascii :=
  filter (fun c => negb (Ascii.eqb c " ")) (list_ascii_of_string s).

(** One of the ten decimal digits. *)
Definition decimal_digit (c : ascii) : bool :=
  existsb (Ascii.eqb c) (list_ascii_of_string "0123456789").

(** [shown] masks [number]: it is made of the last four of the characters
    of [number] that are not spaces. *)
Definition masks (shown number : string) : Prop :=
  String.length shown = 4%nat
  /\ exists front,
       without_spaces number = front ++ list_ascii_of_string shown.

(** A card as the specification words it: holder name, number, expiry and
    CVV are present, the number is 13 to 19 digits long after stripping
    spaces and the CVV is 3 or 4 digits. *)
Definition card_as_specified (card_details : json) : bool :=
  match card_details with
  | JObj o =>
      negb (Py.blank (Py.get_or_none "cardName" o))
      && negb (Py.blank (Py.get_or_none "cardNumber" o))
      && negb (Py.blank (Py.get_or_none "expiry" o))
      && negb (Py.blank (Py.get_or_none "cvv" o))
      && match Py.get_or_none "cardNumber" o with
         | JStr number =>
             forallb decimal_digit (without_spaces number)
             && (13 <=? List.length (without_spaces number))%nat
             && (List.length (without_spaces number) <=? 19)%nat
         | _ => false
         end
      && match Py.get_or_none "cvv" o with
         | JStr cvv =>
             forallb decimal_digit (list_ascii_of_string cvv)
             && ((String.length cvv =? 3) || (String.length cvv =? 4))%nat
         | _ => false
         end
  | _ => false
  end.

(** A card as the handler asks for it: as specified, except that the
    characters of the number left after stripping spaces are counted and
    not tested to be digits. *)
Definition card_as_checked (card_details : json) : bool :=
  match card_details with
  | JObj o =>
      negb (Py.blank (Py.get_or_none "cardName" o))
      && negb (Py.blank (Py.get_or_none "cardNumber" o))
      && negb (Py.blank (Py.get_or_none "expiry" o))
      && negb (Py.blank (Py.get_or_none "cvv" o))
      && match Py.get_or_none "cardNumber" o with
         | JStr number =>
             (13 <=? List.length (without_spaces number))%nat
             && (List.length (without_spaces number) <=? 19)%nat
         | _ => false
         end
      && match Py.get_or_none "cvv" o with
         | JStr cvv =>
             forallb decimal_digit (list_ascii_of_string cvv)
             && ((String.length cvv =? 3) || (String.length cvv =? 4))%nat
         | _ => false
         end
  | _ => false
  end.

(** A value that is a string or missing. *)
Definition text_or_absent (v : json) : bool :=
  match v with
  | JStr _ | JNull => true
  | _ => false
  end.


(** A POST /checkout body: the card in front of the other fields. *)
Definition card_body (base : dict) (name expiry : json) (number cvv : string)
    : dict :=
  ("card_details",
   JObj [("cardName", name); ("cardNumber", JStr number);
         ("expiry", expiry); ("cvv", JStr cvv)]) :: base.


(** The limit a client asks for; 5 when it is absent or not a number. *)
Definition requested_limit (rt : runtime) (req : request) : Z :=
  match arg "limit" (args req) with
  | None => 5
  | Some s =>
      match int_of_str rt s with
      | Some n => n
      | None => 5
      end
  end.


(** *** Notions about blocks of statements *)

(** A block keeps the committed rows: it contains no [commit]. *)
Definition keeps {A} (m : M A) : Prop :=
  forall c, committed (snd (m c)) = committed c.

(** A block that contains no [return]. *)
Definition falls_or_raises {A} (m : M A) : Prop :=
  forall c r c', m c <> (Ret r, c').

(** A block whose [return] statements all answer within [P]. *)
Definition returns_only {A} (P : response -> Prop) (m : M A) : Prop :=
  forall c r c', m c = (Ret r, c') -> P r.

(** A conversion that does not [return]. *)
Definition converts {A} (o : outcome A) : Prop := forall r, o <> Ret r.

(** The entry of [added] for an accepted item. *)
Definition added_entry (pid new_total : Z) (size : json) : json :=
  JObj [("perfume_id", JInt pid); ("total_in_cart", JInt new_total);
        ("size", size)].

(** The entry of [errors] for an item over the stock. *)
Definition stock_error (pid stock existing : Z) : json :=
  item_error (JInt pid)
    ("Only " ++ Py.str_of_int stock ++ " in stock (you have "
     ++ Py.str_of_int existing ++ ")").

(** A block that either keeps the committed rows or falls through with
    the answer 201. *)
Definition settles (m : M response) : Prop :=
  forall c,
    committed (snd (m c)) = committed c
    \/ exists r, fst (m c) = Val r /\ status r = 201.

(* ================================================================== *)
(** ** A runtime and a store for the examples *)
(* ================================================================== *)

Module Demo.

Fixpoint digits_value (s : string) (acc : Z) : option Z :=
  match s with
  | EmptyString => Some acc
  | String c s' =>
      if Py.is_digit_char c
      then digits_value s' (10 * acc + Z.of_nat (nat_of_ascii c - 48))
      else None
  end.

(** Decimal integers with an optional minus sign. *)
Definition parse_int (s : string) : option Z :=
  match Py.strip s with
  | EmptyString => None
  | String "-"%char (String c r) => option_map Z.opp (digits_value (String c r) 0)
  | s' => digits_value s' 0
  end.

Definition decode (token : string) : jwt_result :=
  if (token =? "admin-token")%string then JwtOk (mkClaims 1 "root" 1)
  else if (token =? "alice-token")%string then JwtOk (mkClaims 7 "alice" 2)
  else if (token =? "old-token")%string then JwtExpired
  else JwtInvalid.

Definition rt : runtime :=
  mkRuntime decode parse_int
    (fun s => option_map inject_Z (parse_int s))
    (fun v => match v with JInt n => Some (Py.str_of_int n) | _ => None end)
    (fun _ t => Py.str_of_int t)
    (fun q => q)
    (fun v => match v with
              | JNull => "None"
              | JBool true => "True"
              | JBool false => "False"
              | JInt n => Py.str_of_int n
              | _ => "<object>"
              end).

(** The connection opens and no statement raises. *)
Definition calm : env := mkEnv true None 1000.

Definition rose : perfume := mkPerfume 5 "Rose" (49 # 1) 10 (Some "50ml") true.
Definition musk : perfume := mkPerfume 6 "Musk" (30 # 1) 2 None true.
Definition retired : perfume := mkPerfume 8 "Amber" (20 # 1) 4 None false.

Definition store : db := mkDb [rose; musk; retired] [] [] [] [].

Definition post (body : dict) : request :=
  mkRequest (Some "alice-token") (Some body) [] [] "http://shop.test/".

Definition with_token (token : string) : request :=
  mkRequest (Some token) None [] [] "http://shop.test/".

(** An item of a POST /cart body without a size. *)
Definition buy (pid qty : Z) : json :=
  JObj [("perfume_id", JInt pid); ("quantity", JInt qty)].

Definition cart_post (lines : list json) : request :=
  post [("items", JList lines)].

(** The store when user 7 holds two bottles of perfume 5 and user 9 one
    bottle of perfume 6 in the cart. *)
Definition store_with_cart : db :=
  mkDb [rose; musk; retired]
    [mkCart 1 7 5 2 (Some "50ml") 900; mkCart 2 9 6 1 None 950] [] [] [].

Definition shipping : json :=
  JObj [("firstName", JStr "Alice"); ("lastName", JStr "Rao");
        ("email", JStr "Alice@Example.com"); ("phone", JStr "555");
        ("address", JStr "1 Main St"); ("city", JStr "Hyderabad");
        ("state", JStr "TS"); ("zip", JStr "500001")].

Definition order_line (pid qty : Z) : json :=
  JObj [("perfume_id", JInt pid); ("quantity", JInt qty); ("price", JInt 49)].

Definition order_base (payment_method : string) (lines : list json) : dict :=
  [("shipping", shipping); ("payment_method", JStr payment_method);
   ("items", JList lines); ("totalPrice", JInt 98); ("tax", JInt 5);
   ("shippingCost", JInt 10)].

Definition cod_order (lines : list json) : request :=
  post (order_base "cod" lines).

Definition card_order (lines : list json) (number cvv : string) : request :=
  post (card_body (order_base "card" lines) (JStr "Alice Rao") (JStr "12/30")
          number cvv).

(** The store after user 7 has ordered two bottles of perfume 5, cash on
    delivery. *)
Definition store_with_order : db :=
  snd (checkout rt 7 (cod_order [order_line 5 2]) calm store_with_cart).

End Demo.

(* ================================================================== *)
(** ** The other handlers of cart.py *)
(* ================================================================== *)

(** A row of [users], the table of [auth.py]; the handlers of [cart.py]
    only read it. *)
Record user_row : Type := mkUser {
  u_id : Z;
  u_username : string;
  u_email : string;
  u_phone_number : string;
  u_password_hash : string;
  u_role_id : Z
}.

(** What the database server decides and the source does not show. *)
Record server : Type := mkServer {
  (** [column = %s] on a text column, under the collation of the column:
      the parameter first, the stored text second *)
  text_eq : string -> string -> bool;
  (** the INSERT of a row into [users]: the text of the IntegrityError
      when a constraint of the table refuses the row *)
  integrity : user_row -> list user_row -> option string;
  (** what [jsonify] makes of the value of an amount column and of a
      DATETIME column: the types of the columns are in the schema, which
      is not under src/ *)
  amount_json : Q -> json;
  datetime_json : Z -> json
}.

(** ZeroDivisionError.  The handlers catch it under [Exception] like any
    other exception; it is filed with the value errors. *)
Definition ZeroDivisionError : exn := ValueError.

(** [a // b] *)
Definition floor_div (a b : Z) : outcome Z :=
  if b =? 0 then Exc ZeroDivisionError else Val (a / b).

(** [cursor.execute] of a DELETE followed by [cursor.rowcount] *)
Definition execute_rowcount (u : db -> nat * db) : M nat := insert_returning u.

(** The rows of a user's cart for one perfume, whatever the size. *)
Definition cart_line_of (user_id perfume_id : Z) (r : cart_row) : bool :=
  (c_user_id r =? user_id) && (c_perfume_id r =? perfume_id).

(** [DELETE FROM carts WHERE user_id = %s AND perfume_id = %s], with the
    number of rows it removed *)
Definition delete_cart_lines (user_id perfume_id : Z) (d : db) : nat * db :=
  (List.length (filter (cart_line_of user_id perfume_id) (carts d)),
   set_carts (filter (fun r => negb (cart_line_of user_id perfume_id r)) (carts d))
     d).

(** [SELECT ... FROM orders WHERE user_id = %s ORDER BY created_at DESC] *)
Definition select_user_orders (user_id : Z) (d : db) : list order_row :=
  order_by_desc o_created_at
    (filter (fun o => o_user_id o =? user_id) (orders d)).

(** [SELECT payment_method, card_last4, card_holder_name, expiry
    FROM payment_details WHERE order_id = %s], [fetchone] *)
Definition select_payment (order_id : Z) (d : db) : option payment_detail :=
  find (fun pd => pd_order_id pd =? order_id) (payment_details d).

(** [(SELECT username FROM users WHERE id = orders.user_id)] *)
Definition username_of (users : list user_row) (user_id : Z) : json :=
  match find (fun u => u_id u =? user_id) users with
  | Some u => JStr (u_username u)
  | None => JNull
  end.

Section Listings.

Variable rt : runtime.
Variable sv : server.

Local Open Scope handler_scope.

(** *** DELETE /cart/<perfume_id> *)

Definition remove_from_cart (perfume_id user_id : Z) (req : request) (e : env)
    (d : db) : response * db :=
  with_connection e (error_response 500 "Server error")
    (try_except
       (rowcount <- execute_rowcount (delete_cart_lines user_id perfume_id) ;;
        if (rowcount =? 0)%nat
        then return_ (error_response 404 "Item not in your cart")
        else
          commit ;;
          ret (mkResponse 200 (JObj [("message", JStr "Item removed")])))
       (fun _ =>
          rollback ;;
          ret (error_response 500 "Database error")))
    d.

(** *** GET /orders *)

(** A row of [SELECT oi.perfume_id, p.name, oi.quantity, oi.size,
    oi.unit_price, (oi.quantity * oi.unit_price) as subtotal
    FROM order_items oi JOIN perfumes p ON oi.perfume_id = p.id] *)
Definition order_line_json (ip : order_item * perfume) : json :=
  let (oi, p) := ip in
  JObj [("perfume_id", JInt (oi_perfume_id oi));
        ("name", JStr (p_name p));
        ("quantity", JInt (oi_quantity oi));
        ("size", json_of_text (oi_size oi));
        ("unit_price", amount_json sv (oi_unit_price oi));
        ("subtotal",
         amount_json sv (inject_Z (oi_quantity oi) * oi_unit_price oi)%Q)].

(** A row of the listing, after [order['items'] = cursor.fetchall()]. *)
Definition user_order_json (o : order_row) (items : list (order_item * perfume))
    : json :=
  JObj [("id", JInt (o_id o));
        ("total_amount", amount_json sv (o_total_amount o));
        ("status", JStr (o_status o));
        ("payment_method", JStr (o_payment_method o));
        ("created_at", datetime_json sv (o_created_at o));
        ("shipping_first_name", JStr (o_first_name o));
        ("shipping_last_name", JStr (o_last_name o));
        ("shipping_city", JStr (o_city o));
        ("shipping_address", JStr (o_address o));
        ("shipping_zip", JStr (o_zip o));
        ("items", JList (map order_line_json items))].

Fixpoint get_orders_loop (orders : list order_row) : M (list json) :=
  match orders with
  | [] => ret []
  | order :: rest =>
      items <- query (select_order_lines (o_id order)) ;;
      listing <- get_orders_loop rest ;;
      ret (user_order_json order items :: listing)
  end.

Definition get_orders (user_id : Z) (req : request) (e : env) (d : db)
    : response * db :=
  with_connection e (error_response 500 "Server error")
    (try_except
       (orders <- query (select_user_orders user_id) ;;
        listing <- get_orders_loop orders ;;
        ret (mkResponse 200 (JObj [("orders", JList listing)])))
       (fun _ => ret (error_response 500 "Failed to load orders")))
    d.

(** *** GET /admin/orders *)

(** [request.args.get(k, type=int)] *)
Definition int_arg (k : string) (req : request) : option Z :=
  match arg k (args req) with
  | Some s => int_of_str rt s
  | None => None
  end.

(** [max(1, request.args.get('page', 1, type=int))] *)
Definition list_page (req : request) : Z :=
  Z.max 1 (match int_arg "page" req with Some n => n | None => 1 end).

(** [min(50, request.args.get('per_page', 20, type=int))] *)
Definition list_per_page (req : request) : Z :=
  Z.min 50 (match int_arg "per_page" req with Some n => n | None => 20 end).

(** [WHERE 1=1], [AND status = %s] under [if status], [AND user_id = %s]
    under [if user_id] *)
Definition order_filter (status : option string) (user_id : option Z)
    (o : order_row) : bool :=
  match status with
  | Some s => if (s =? "")%string then true else text_eq sv s (o_status o)
  | None => true
  end
  && match user_id with
     | Some u => if u =? 0 then true else o_user_id o =? u
     | None => true
     end.

(** [... ORDER BY created_at DESC LIMIT %s OFFSET %s] *)
Definition select_orders_page (status : option string) (user_id : option Z)
    (per_page offset : Z) (d : db) : list order_row :=
  firstn (Z.to_nat per_page)
    (skipn (Z.to_nat offset)
       (order_by_desc o_created_at
          (filter (order_filter status user_id) (orders d)))).

(** The orders a listing ranges over, the newest first. *)
Definition listing_orders (req : request) (d : db) : list order_row :=
  order_by_desc o_created_at
    (filter (order_filter (arg "status" (args req)) (int_arg "user_id" req))
       (orders d)).

(** [SELECT COUNT( * ) AS total FROM orders WHERE ...] *)
Definition count_orders (status : option string) (user_id : option Z) (d : db)
    : Z :=
  Z.of_nat (List.length (filter (order_filter status user_id) (orders d))).

Definition admin_order_json (users : list user_row) (o : order_row) : json :=
  JObj [("id", JInt (o_id o));
        ("user_id", JInt (o_user_id o));
        ("(SELECT username FROM users WHERE id = orders.user_id)",
         username_of users (o_user_id o));
        ("total_amount", amount_json sv (o_total_amount o));
        ("shipping_cost", amount_json sv (o_shipping_cost o));
        ("tax_amount", amount_json sv (o_tax_amount o));
        ("status", JStr (o_status o));
        ("payment_method", JStr (o_payment_method o));
        ("created_at", datetime_json sv (o_created_at o))].

(** The server refuses a negative LIMIT: the statement raises. *)
Definition admin_list_orders (users : list user_row) (admin_id : Z)
    (req : request) (e : env) (d : db) : response * db :=
  with_connection e (error_response 500 "DB unavailable")
    (try_except
       (let page := list_page req in
        let per_page := list_per_page req in
        let status := arg "status" (args req) in
        let user_id := int_arg "user_id" req in
        let offset := (page - 1) * per_page in
        orders <- (if per_page <? 0 then raise DBError
                   else query (select_orders_page status user_id per_page
                                 offset)) ;;
        total <- query (count_orders status user_id) ;;
        pages <- lift (floor_div (total + per_page - 1) per_page) ;;
        ret (mkResponse 200
               (JObj [("orders", JList (map (admin_order_json users) orders));
                      ("pagination",
                       JObj [("page", JInt page);
                             ("per_page", JInt per_page);
                             ("total", JInt total);
                             ("pages", JInt pages)])])))
       (fun _ => ret (error_response 500 "Failed to fetch orders")))
    d.

(** *** GET /admin/orders/<order_id> *)

Definition payment_json (payment : option payment_detail) : json :=
  match payment with
  | Some pd =>
      JObj [("payment_method", JStr (pd_payment_method pd));
            ("card_last4", JStr (pd_card_last4 pd));
            ("card_holder_name", json_of_text (pd_card_holder_name pd));
            ("expiry", json_of_text (pd_expiry pd))]
  | None => JNull
  end.

(** [SELECT *, (SELECT username ...) FROM orders WHERE id = %s] with the
    two keys the handler adds.  The columns of [orders] are those the
    INSERT of [checkout] names, the id and [created_at]. *)
Definition full_order_json (users : list user_row) (o : order_row)
    (items : list (order_item * perfume)) (payment : option payment_detail)
    : json :=
  JObj [("id", JInt (o_id o));
        ("user_id", JInt (o_user_id o));
        ("total_amount", amount_json sv (o_total_amount o));
        ("shipping_cost", amount_json sv (o_shipping_cost o));
        ("tax_amount", amount_json sv (o_tax_amount o));
        ("shipping_first_name", JStr (o_first_name o));
        ("shipping_last_name", JStr (o_last_name o));
        ("shipping_email", JStr (o_email o));
        ("shipping_phone", JStr (o_phone o));
        ("shipping_address", JStr (o_address o));
        ("shipping_city", JStr (o_city o));
        ("shipping_state", JStr (o_state o));
        ("shipping_zip", JStr (o_zip o));
        ("payment_method", JStr (o_payment_method o));
        ("status", JStr (o_status o));
        ("created_at", datetime_json sv (o_created_at o));
        ("(SELECT username FROM users WHERE id = orders.user_id)",
         username_of users (o_user_id o));
        ("items", JList (map order_line_json items));
        ("payment", payment_json payment)].

Definition admin_get_order (users : list user_row) (order_id admin_id : Z)
    (req : request) (e : env) (d : db) : response * db :=
  with_connection e (error_response 500 "DB unavailable")
    (try_except
       (order <- query (Sql.select_order order_id) ;;
        match order with
        | None => return_ (error_response 404 "Order not found")
        | Some o =>
            items <- query (select_order_lines order_id) ;;
            payment <- query (select_payment order_id) ;;
            ret (mkResponse 200
                   (JObj [("order", full_order_json users o items payment)]))
        end)
       (fun _ => ret (error_response 500 "Failed to load order")))
    d.

End Listings.

(** *** Reading an answer *)

(** [v[k]] of a JSON object; null when there is none. *)
Definition json_field (k : string) (v : json) : json :=
  match v with
  | JObj o => Py.get_or_none k o
  | _ => JNull
  end.

(** The elements of a JSON array. *)
Definition json_elements (v : json) : list json :=
  match v with
  | JList l => l
  | _ => []
  end.

(** The values under key [k] of the objects listed under key [list_key] of
    an answer. *)
Definition listed (list_key k : string) (r : response) : list json :=
  map (json_field k) (json_elements (json_field list_key (body r))).


(* ================================================================== *)
(** ** The handlers of auth.py *)
(* ================================================================== *)

(** What the password and token libraries compute. *)
Record crypto : Type := mkCrypto {
  (** [generate_password_hash(password)], under the salt it draws *)
  generate_password_hash : string -> string -> string;
  (** [check_password_hash(pwhash, password)]; [None] when it raises, as
      it may for a password that is not a string *)
  check_password_hash : string -> json -> option bool;
  (** [jwt.encode(payload, Config.SECRET_KEY, algorithm='HS256')] of the
      three claims and [exp] *)
  jwt_encode : claims -> Z -> string
}.

(** [needle in s] on strings *)
Fixpoint str_contains (needle s : string) : bool :=
  String.prefix needle s
  || match s with
     | EmptyString => false
     | String _ s' => str_contains needle s'
     end.

(** The number a value compares as: [True == 1] and [1 == 1.0]. *)
Definition number_of (v : json) : option Q :=
  match v with
  | JBool b => Some (inject_Z (if b then 1 else 0))
  | JInt n => Some (inject_Z n)
  | JFloat q => Some q
  | _ => None
  end.

(** [a == b] *)
Fixpoint py_equal (a b : json) {struct a} : bool :=
  match a, b with
  | JNull, JNull => true
  | JStr s, JStr t => (s =? t)%string
  | JList l, JList m =>
      (fix each (l m : list json) {struct l} : bool :=
         match l, m with
         | [], [] => true
         | x :: l', y :: m' => py_equal x y && each l' m'
         | _, _ => false
         end) l m
  | JObj o, JObj p =>
      (List.length o =? List.length p)%nat
      && (fix each (o : list (string * json)) : bool :=
            match o with
            | [] => true
            | (k, v) :: o' =>
                match Py.get k p with
                | Some w => py_equal v w
                | None => false
                end && each o'
            end) o
  | _, _ =>
      match number_of a, number_of b with
      | Some x, Some y => Qeq_bool x y
      | _, _ => false
      end
  end.

(** [len(v)] *)
Definition py_len (v : json) : outcome nat :=
  match v with
  | JStr s => Val (String.length s)
  | JList l => Val (List.length l)
  | JObj o => Val (List.length o)
  | JNull | JBool _ | JInt _ | JFloat _ => Exc TypeError
  end.

(** [needle in v] for a string [needle] *)
Definition py_in (needle : string) (v : json) : outcome bool :=
  match v with
  | JStr s => Val (str_contains needle s)
  | JList l => Val (existsb (py_equal (JStr needle)) l)
  | JObj o => Val (Py.has_key needle o)
  | JNull | JBool _ | JInt _ | JFloat _ => Exc TypeError
  end.

(** Statement number [k] of the call, counted from 0, is the one that
    raises. *)
Definition raises_at (e : env) (k : nat) : bool :=
  match fault_at e with
  | Some n => (n =? k)%nat
  | None => false
  end.

(** The schema is not under src/: a new row of [users] gets its [id] from
    the table; here one more than the largest id present. *)
Definition next_user_id (users : list user_row) : Z :=
  1 + fold_right Z.max 0 (map u_id users).

(** The list [missing_fields] of the signup handlers. *)
Definition missing_fields
    (username email phone_number password confirm_password : json)
    : list string :=
  (if Py.truthy username then [] else ["username"])
  ++ (if Py.truthy email then [] else ["email"])
  ++ (if Py.truthy phone_number then [] else ["phone_number"])
  ++ (if Py.truthy password then [] else ["password"])
  ++ (if Py.truthy confirm_password then [] else ["confirm_password"]).

(** The validation of the signup handlers, up to the connection. *)
Definition signup_checks
    (username email phone_number password confirm_password : json)
    : outcome unit :=
  (* Validate all required fields *)
  if negb (forallb Py.truthy
             [username; email; phone_number; password; confirm_password])
  then Ret (error_response 400
              ("Missing required fields: "
               ++ String.concat ", "
                    (missing_fields username email phone_number password
                       confirm_password)))
  else if negb (py_equal password confirm_password)
  then Ret (error_response 400 "Passwords do not match")
  else
    (* Basic validation *)
    (n <~ py_len password ;;
     if (n <? 6)%nat
     then Ret (error_response 400 "Password must be at least 6 characters long")
     else
       has_at <~ py_in "@" email ;;
       if negb has_at
       then Ret (error_response 400 "Invalid email format")
       else Val tt)%handler.

(** The answer to an IntegrityError, from its text. *)
Definition integrity_answer (error_msg : string) : response :=
  if str_contains "Duplicate entry" error_msg
     && (str_contains "email" error_msg || str_contains "users.email" error_msg)
  then error_response 400 "Email already exists"
  else if str_contains "Duplicate entry" error_msg
          && (str_contains "phone_number" error_msg
              || str_contains "users.phone_number" error_msg)
  then error_response 400 "Phone number already exists"
  else if str_contains "Duplicate entry" error_msg
          && (str_contains "username" error_msg
              || str_contains "users.username" error_msg)
  then error_response 400 "Username already exists"
  else error_response 400 "User already exists".

Definition role_name (role_id : Z) : string :=
  if role_id =? 1 then "Admin"
  else if role_id =? 2 then "Customer"
  else "Unknown".

Section Accounts.

Variable rt : runtime.
Variable sv : server.
Variable cr : crypto.

(** The inner [try] of the signup handlers: the INSERT and the commit.
    The connection is closed in the [finally]; without the commit nothing
    stays. *)
Definition signup_insert (role_id : Z) (message : string) (e : env)
    (username email phone_number : json) (password_hash : string)
    (users : list user_row) : response * list user_row :=
  let database_error := error_response 500 "Database error occurred" in
  match sql_text rt username, sql_text rt email, sql_text rt phone_number with
  | Some (Some username_text), Some (Some email_text), Some (Some phone_text) =>
      if raises_at e 0 then (database_error, users)
      else
        let row := mkUser (next_user_id users) username_text email_text
                     phone_text password_hash role_id in
        match integrity sv row users with
        | Some error_msg => (integrity_answer error_msg, users)
        | None =>
            if raises_at e 1 then (database_error, users)
            else (mkResponse 201 (JObj [("message", JStr message)]),
                  users ++ [row])
        end
  | _, _, _ => (database_error, users)
  end.

(** [admin_signup] and [customer_signup] are the same text but for the
    role they store and the message of the answer.  [request.get_json()]
    that gives no object, a check that raises, a connection that cannot be
    opened and a password that cannot be hashed all end in the outer
    [except]. *)
Definition signup (role_id : Z) (message : string) (salt : string)
    (req : request) (e : env) (users : list user_row)
    : response * list user_row :=
  let server_error := error_response 500 "Server error during signup" in
  match json_body req with
  | None => (server_error, users)
  | Some data =>
      let username := Py.get_or_none "username" data in
      let email := Py.get_or_none "email" data in
      let phone_number := Py.get_or_none "phone_number" data in
      let password := Py.get_or_none "password" data in
      let confirm_password := Py.get_or_none "confirm_password" data in
      match signup_checks username email phone_number password
              confirm_password with
      | Ret r => (r, users)
      | Exc _ => (server_error, users)
      | Val _ =>
          if negb (db_up e) then (server_error, users)
          else
            match password with
            | JStr pw =>
                signup_insert role_id message e username email phone_number
                  (generate_password_hash cr salt pw) users
            | _ => (server_error, users)
            end
      end
  end.

(** role_id 1 = admin *)
Definition admin_signup : string -> request -> env -> list user_row ->
                          response * list user_row :=
  signup 1 "Admin registered successfully!".

(** role_id 2 = customer *)
Definition customer_signup : string -> request -> env -> list user_row ->
                             response * list user_row :=
  signup 2 "Customer registered successfully!".

(** [SELECT * FROM users WHERE username = %s AND role_id = <role>],
    [fetchone] *)
Definition select_login (name : string) (role_id : Z) (users : list user_row)
    : option user_row :=
  find (fun u => text_eq sv name (u_username u) && (u_role_id u =? role_id))
    users.

(** [admin_login] and [customer_login] are the same text but for the role
    they select and the message of the answer; [utcnow] is the clock of
    the application, in seconds. *)
Definition login (role_id : Z) (message : string) (utcnow : Z) (req : request)
    (e : env) (users : list user_row) : response :=
  let server_error := error_response 500 "Server error" in
  match json_body req with
  | None => server_error
  | Some data =>
      let username := Py.get_or_none "username" data in
      let password := Py.get_or_none "password" data in
      if negb (Py.truthy username) || negb (Py.truthy password)
      then error_response 400 "Username and password required"
      else if negb (db_up e) then server_error
      else
        match sql_text rt username with
        | Some (Some name) =>
            if raises_at e 0 then server_error
            else
              match select_login name role_id users with
              | None => error_response 401 "Invalid username or password"
              | Some user =>
                  match check_password_hash cr (u_password_hash user)
                          password with
                  | Some accepted =>
                      if negb accepted
                      then error_response 401 "Invalid username or password"
                      else
                        mkResponse 200
                          (JObj [("message", JStr message);
                                 ("token",
                                  JStr (jwt_encode cr
                                          (mkClaims (u_id user) (u_username user)
                                             (u_role_id user))
                                          (utcnow + 3600)))])
                  | None => server_error
                  end
              end
        | _ => server_error
        end
  end.

Definition admin_login : Z -> request -> env -> list user_row -> response :=
  login 1 "Admin login successful".

Definition customer_login : Z -> request -> env -> list user_row -> response :=
  login 2 "Customer login successful".

(** [SELECT username, email, phone_number, role_id FROM users
    WHERE id = %s], [fetchone] *)
Definition select_user (user_id : Z) (users : list user_row) : option user_row :=
  find (fun u => u_id u =? user_id) users.

Definition user_details (req : request) (e : env) (users : list user_row)
    : response :=
  match authorization req with
  | None => error_response 401 "Valid Authorization header required"
  | Some token =>
      if (token =? "")%string
      then error_response 401 "Valid Authorization header required"
      else
        match jwt_decode rt token with
        | JwtOk decoded =>
            let user_id := cl_user_id decoded in
            if negb (db_up e) || raises_at e 0
            then error_response 500 "Server error while fetching user details"
            else
              match select_user user_id users with
              | None => error_response 404 "User not found"
              | Some user =>
                  mkResponse 200
                    (JObj [("username", JStr (u_username user));
                           ("email", JStr (u_email user));
                           ("phone_number", JStr (u_phone_number user));
                           ("role", JStr (role_name (u_role_id user)))])
              end
        | JwtExpired => error_response 401 "Token expired"
        | JwtInvalid => error_response 401 "Invalid token"
        end
  end.

End Accounts.

(* ================================================================== *)
(** ** A server, accounts and orders for the examples *)
(* ================================================================== *)

Module Sample.

(** The text of the IntegrityError for a duplicate under a unique key. *)
Definition duplicate (key value : string) : string :=
  "(1062, " ++ dquote ++ "Duplicate entry '" ++ value ++ "' for key 'users."
  ++ key ++ "'" ++ dquote ++ ")".

(** A table whose user names, emails and phone numbers are unique. *)
Definition unique_keys (row : user_row) (users : list user_row) : option string :=
  if existsb (fun u => (u_username u =? u_username row)%string) users
  then Some (duplicate "username" (u_username row))
  else if existsb (fun u => (u_email u =? u_email row)%string) users
  then Some (duplicate "email" (u_email row))
  else if existsb (fun u => (u_phone_number u =? u_phone_number row)%string) users
  then Some (duplicate "phone_number" (u_phone_number row))
  else None.

Definition sv : server :=
  mkServer String.eqb unique_keys (fun q => JFloat q) (fun t => JInt t).

Definition hash (salt password : string) : string := salt ++ "$" ++ password.

Definition check (pwhash : string) (password : json) : option bool :=
  match password with
  | JStr pw => Some (Py.startswith (Py.reverse ("$" ++ pw)) (Py.reverse pwhash))
  | _ => None
  end.

(** Tokens of the two users the decoder of [Demo] knows. *)
Definition encode (payload : claims) (exp : Z) : string :=
  if (cl_user_id payload =? 1) && (cl_username payload =? "root")%string
     && (cl_role_id payload =? 1)
  then "admin-token"
  else if (cl_user_id payload =? 7) && (cl_username payload =? "alice")%string
          && (cl_role_id payload =? 2)
  then "alice-token"
  else "unsigned".

Definition cr : crypto := mkCrypto hash check encode.

Definition root : user_row :=
  mkUser 1 "root" "root@shop.test" "100" (hash "s1" "rootpass") 1.

Definition users : list user_row := [root].

(** A JSON request without a token. *)
Definition anonymous (body : dict) : request :=
  mkRequest None (Some body) [] [] "http://shop.test/".

Definition alice_signup : request :=
  anonymous [("username", JStr "alice"); ("email", JStr "alice@shop.test");
             ("phone_number", JStr "555"); ("password", JStr "alicepass");
             ("confirm_password", JStr "alicepass")].

Definition credentials (username password : string) : request :=
  anonymous [("username", JStr username); ("password", JStr password)].

(** The accounts after six customers signed up, alice last. *)
Definition users_with_alice : list user_row :=
  [root;
   mkUser 2 "u2" "u2@shop.test" "2" (hash "s" "secret2") 2;
   mkUser 3 "u3" "u3@shop.test" "3" (hash "s" "secret3") 2;
   mkUser 4 "u4" "u4@shop.test" "4" (hash "s" "secret4") 2;
   mkUser 5 "u5" "u5@shop.test" "5" (hash "s" "secret5") 2;
   mkUser 6 "u6" "u6@shop.test" "6" (hash "s" "secret6") 2;
   mkUser 7 "alice" "alice@shop.test" "555" (hash "s7" "alicepass") 2].

(** A request of the administrator with a query string. *)
Definition admin_query (args : list (string * string)) : request :=
  mkRequest (Some "admin-token") None args [] "http://shop.test/".

(** The store after user 7 has placed three orders: cash on delivery at
    time 1000, by card at time 2000, cash on delivery at time 3000. *)
Definition store_with_orders : db :=
  snd (checkout Demo.rt 7 (Demo.cod_order [Demo.order_line 5 1])
         (mkEnv true None 3000)
         (snd (checkout Demo.rt 7
                 (Demo.card_order [Demo.order_line 5 1]
                    "4111 1111 1111 1111" "123")
                 (mkEnv true None 2000)
                 Demo.store_with_order))).

End Sample.


(* ================================================================== *)
(** * Properties *)
(* ================================================================== *)

(** ** Rules for blocks of statements *)

Arguments add_item : simpl never.
Arguments Py.str_of_int : simpl never.

Lemma bind_val {A B} (m : M A) (k : A -> M B) c b c' :
  bind m k c = (Val b, c') ->
  exists a c1, m c = (Val a, c1) /\ k a c1 = (Val b, c').
Proof.
  unfold bind. destruct (m c) as [[a | r | ex] c1]; intros H.
  - exists a, c1. split; [reflexivity | exact H].
  - discriminate H.
  - discriminate H.
Qed.

Create HintDb keeps.

Lemma keeps_ret {A} (a : A) : keeps (ret a).
Proof. intro c. reflexivity. Qed.

Lemma keeps_return {A} r : keeps (@return_ A r).
Proof. intro c. reflexivity. Qed.

Lemma keeps_raise {A} ex : keeps (@raise A ex).
Proof. intro c. reflexivity. Qed.

Lemma keeps_lift {A} (o : outcome A) : keeps (lift o).
Proof. intro c. reflexivity. Qed.

Lemma keeps_rollback : keeps rollback.
Proof. intro c. reflexivity. Qed.

Lemma keeps_query {A} (q : db -> A) : keeps (query q).
Proof.
  intro c. unfold query, tick, spent.
  destruct (countdown c) as [[| n] |]; reflexivity.
Qed.

Lemma keeps_execute u : keeps (execute u).
Proof.
  intro c. unfold execute, tick, spent.
  destruct (countdown c) as [[| n] |]; reflexivity.
Qed.

Lemma keeps_insert_returning {A} (u : db -> A * db) : keeps (insert_returning u).
Proof.
  intro c. unfold insert_returning, tick, spent.
  destruct (countdown c) as [[| n] |]; simpl;
    try destruct (u (working c)); reflexivity.
Qed.

Lemma keeps_bind {A B} (m : M A) (k : A -> M B) :
  keeps m -> (forall a, keeps (k a)) -> keeps (bind m k).
Proof.
  intros Hm Hk c. unfold bind. specialize (Hm c).
  destruct (m c) as [[a | r | ex] c1]; simpl in *.
  - rewrite Hk. exact Hm.
  - exact Hm.
  - exact Hm.
Qed.

Lemma keeps_try_except {A} (m : M A) h :
  keeps m -> (forall ex, keeps (h ex)) -> keeps (try_except m h).
Proof.
  intros Hm Hh c. unfold try_except. specialize (Hm c).
  destruct (m c) as [[a | r | ex] c1]; simpl in *.
  - exact Hm.
  - exact Hm.
  - rewrite Hh. exact Hm.
Qed.

#[local] Hint Resolve keeps_ret keeps_return keeps_raise keeps_lift
  keeps_rollback keeps_query keeps_execute keeps_insert_returning : keeps.

Ltac keeps_steps :=
  repeat first
    [ apply keeps_bind; [ | intro ]
    | apply keeps_try_except; [ | intro ]
    | solve [ auto with keeps ] ].

(** What a statement that falls through has done. *)
Lemma query_val {A} (q : db -> A) c a c1 :
  query q c = (Val a, c1) ->
  a = q (working c) /\ working c1 = working c /\ committed c1 = committed c.
Proof.
  unfold query, tick. destruct (countdown c) as [[| n] |]; simpl; intros H;
    try discriminate H; injection H as <- <-; auto.
Qed.

Lemma execute_val u c x c1 :
  execute u c = (Val x, c1) ->
  working c1 = u (working c) /\ committed c1 = committed c.
Proof.
  unfold execute, tick. destruct (countdown c) as [[| n] |]; simpl; intros H;
    try discriminate H; injection H as _ <-; auto.
Qed.

Lemma commit_val c x c1 :
  commit c = (Val x, c1) ->
  working c1 = working c /\ committed c1 = working c.
Proof.
  unfold commit, tick. destruct (countdown c) as [[| n] |]; simpl; intros H;
    try discriminate H; injection H as _ <-; auto.
Qed.

(** Statements on a connection that never raises. *)
Lemma query_calm {A} (q : db -> A) c :
  countdown c = None -> query q c = (Val (q (working c)), c).
Proof. intros H. unfold query, tick. rewrite H. reflexivity. Qed.

Lemma execute_calm u c :
  countdown c = None ->
  execute u c = (Val tt, mkConn (committed c) (u (working c)) None).
Proof. intros H. unfold execute, tick. rewrite H. simpl. rewrite H. reflexivity. Qed.

Lemma commit_calm c :
  countdown c = None ->
  commit c = (Val tt, mkConn (working c) (working c) None).
Proof. intros H. unfold commit, tick. rewrite H. simpl. rewrite H. reflexivity. Qed.

Lemma for_ret {A} (a : A) : falls_or_raises (ret a).
Proof. intros c r c' H. discriminate H. Qed.

Lemma for_raise {A} ex : falls_or_raises (@raise A ex).
Proof. intros c r c' H. discriminate H. Qed.

Lemma for_rollback : falls_or_raises rollback.
Proof. intros c r c' H. discriminate H. Qed.

Lemma for_query {A} (q : db -> A) : falls_or_raises (query q).
Proof.
  intros c r c'. unfold query, tick.
  destruct (countdown c) as [[| n] |]; discriminate.
Qed.

Lemma for_execute u : falls_or_raises (execute u).
Proof.
  intros c r c'. unfold execute, tick.
  destruct (countdown c) as [[| n] |]; discriminate.
Qed.

Lemma for_commit : falls_or_raises commit.
Proof.
  intros c r c'. unfold commit, tick.
  destruct (countdown c) as [[| n] |]; discriminate.
Qed.

Lemma for_bind {A B} (m : M A) (k : A -> M B) :
  falls_or_raises m -> (forall a, falls_or_raises (k a)) ->
  falls_or_raises (bind m k).
Proof.
  intros Hm Hk c r c'. unfold bind.
  destruct (m c) as [[a | r1 | ex] c1] eqn:E.
  - apply Hk.
  - exfalso. exact (Hm _ _ _ E).
  - discriminate.
Qed.

#[local] Hint Resolve for_ret for_raise for_rollback for_query for_execute
  for_commit : keeps.

Lemma for_lift {A} (o : outcome A) :
  (forall r, o <> Ret r) -> falls_or_raises (lift o).
Proof. intros H c r c' E. injection E as E _. exact (H _ E). Qed.

Lemma bind_exc {A B} (m : M A) (k : A -> M B) c ex c' :
  bind m k c = (Exc ex, c') ->
  m c = (Exc ex, c')
  \/ exists a c1, m c = (Val a, c1) /\ k a c1 = (Exc ex, c').
Proof.
  unfold bind. destruct (m c) as [[a | r | ex1] c1]; intros H.
  - right. exists a, c1. split; [reflexivity | exact H].
  - discriminate H.
  - left. injection H as -> ->. reflexivity.
Qed.

Lemma commit_exc c ex c1 :
  commit c = (Exc ex, c1) -> committed c1 = committed c.
Proof.
  unfold commit, tick, spent. destruct (countdown c) as [[| n] |]; simpl;
    intros H; try discriminate H; injection H as _ <-; reflexivity.
Qed.

Ltac inv_bind H :=
  let a := fresh "a" in
  let c := fresh "c" in
  let H1 := fresh H "_head" in
  apply bind_val in H; destruct H as (a & c & H1 & H).

Tactic Notation "step_in" hyp(H) "as" ident(a) ident(c) ident(H1) :=
  apply bind_val in H; destruct H as (a & c & H1 & H).

Lemma returns_only_falls {A} P (m : M A) :
  falls_or_raises m -> returns_only P m.
Proof. intros H c r c' E. exfalso. exact (H _ _ _ E). Qed.

Lemma returns_only_return {A} (P : response -> Prop) r :
  P r -> returns_only P (@return_ A r).
Proof. intros H c r' c' E. injection E as <- _. exact H. Qed.

Lemma returns_only_bind {A B} P (m : M A) (k : A -> M B) :
  returns_only P m -> (forall a, returns_only P (k a)) ->
  returns_only P (bind m k).
Proof.
  intros Hm Hk c r c'. unfold bind.
  destruct (m c) as [[a | r1 | ex] c1] eqn:E.
  - apply Hk.
  - intros H. injection H as <- _. exact (Hm _ _ _ E).
  - discriminate.
Qed.

Lemma insert_returning_val {A} (u : db -> A * db) c a c1 :
  insert_returning u c = (Val a, c1) ->
  a = fst (u (working c)) /\ working c1 = snd (u (working c))
  /\ committed c1 = committed c.
Proof.
  unfold insert_returning, tick.
  destruct (countdown c) as [[| n] |]; simpl; intros H; try discriminate H;
    destruct (u (working c)); injection H as <- <-; auto.
Qed.

Lemma for_insert_returning {A} (u : db -> A * db) :
  falls_or_raises (insert_returning u).
Proof.
  intros c r c'. unfold insert_returning, tick.
  destruct (countdown c) as [[| n] |]; simpl;
    try destruct (u (working c)); discriminate.
Qed.

#[local] Hint Resolve for_insert_returning : keeps.

Lemma converts_obind {A B} (o : outcome A) (k : A -> outcome B) :
  converts o -> (forall a, converts (k a)) -> converts (obind o k).
Proof.
  intros Ho Hk r. destruct o as [a | r' | ex]; simpl.
  - apply Hk.
  - intros _. exact (Ho r' eq_refl).
  - discriminate.
Qed.

Lemma obind_val {A B} (o : outcome A) (k : A -> outcome B) b :
  obind o k = Val b -> exists a, o = Val a /\ k a = Val b.
Proof.
  destruct o as [a | r | ex]; simpl; intros H; try discriminate H.
  exists a. auto.
Qed.

Lemma insert_returning_calm {A} (u : db -> A * db) c :
  countdown c = None ->
  insert_returning u c =
    (Val (fst (u (working c))),
     mkConn (committed c) (snd (u (working c))) None).
Proof.
  intros H. unfold insert_returning, tick. rewrite H. simpl.
  destruct (u (working c)). rewrite H. reflexivity.
Qed.

Lemma bind_ext {A B} (m1 m2 : M A) (k1 k2 : A -> M B) c :
  m1 c = m2 c -> (forall a c1, k1 a c1 = k2 a c1) ->
  bind m1 k1 c = bind m2 k2 c.
Proof.
  intros Hm Hk. unfold bind. rewrite Hm.
  destruct (m2 c) as [[a | r | ex] c1]; auto.
Qed.

Lemma bind_val_or_ret {A B} (m : M A) (k : A -> M B) c r c' :
  falls_or_raises m ->
  bind m k c = (Ret r, c') ->
  exists a c1, m c = (Val a, c1) /\ k a c1 = (Ret r, c').
Proof.
  intros Hm. unfold bind.
  destruct (m c) as [[a | r1 | ex] c1] eqn:E; intros H.
  - exists a, c1. split; [reflexivity | exact H].
  - exfalso. exact (Hm _ _ _ E).
  - discriminate H.
Qed.

Section Parameters.

Variable rt : runtime.

Lemma keeps_param_text v : keeps (param_text rt v).
Proof. unfold param_text. destruct (sql_text rt v); auto with keeps. Qed.

Lemma for_param_text v : falls_or_raises (param_text rt v).
Proof. unfold param_text. destruct (sql_text rt v); auto with keeps. Qed.

Lemma param_text_val v c t c1 :
  param_text rt v c = (Val t, c1) -> sql_text rt v = Some t /\ c1 = c.
Proof.
  unfold param_text. destruct (sql_text rt v); intros H.
  - injection H as <- <-. auto.
  - discriminate H.
Qed.

End Parameters.

#[local] Hint Resolve keeps_param_text for_param_text : keeps.

Ltac block_steps :=
  repeat first
    [ apply keeps_bind; [ | intro ]
    | apply for_bind; [ | intro ]
    | apply keeps_try_except; [ | intro ]
    | solve [ auto with keeps ]
    | match goal with
      | |- context [match ?x with _ => _ end] => destruct x
      | |- context [if ?x then _ else _] => destruct x
      end ].

(** ** Token guards *)

Section Guards.

Variable rt : runtime.

(** A header value that carries the prefix is not empty. *)
Lemma bearer_not_empty token :
  Py.startswith "bearer " (Py.lower token) = true -> (token =? "")%string = false.
Proof. destruct token; [discriminate | reflexivity]. Qed.

Lemma customer_guard_bearer req token :
  authorization req = Some token ->
  Py.startswith "bearer " (Py.lower token) = true ->
  verify_customer_token rt req = inr (error_response 401 "Use raw token, not Bearer").
Proof.
  intros Ha Hb. unfold verify_customer_token.
  rewrite Ha, (bearer_not_empty _ Hb), Hb. reflexivity.
Qed.

Lemma admin_guard_bearer req token :
  authorization req = Some token ->
  Py.startswith "bearer " (Py.lower token) = true ->
  verify_admin_token rt req = inr (error_response 401 "Use raw token, not Bearer").
Proof.
  intros Ha Hb. unfold verify_admin_token.
  rewrite Ha, (bearer_not_empty _ Hb), Hb. reflexivity.
Qed.

(** What the guards answer to a raw token the decoder accepts. *)
Lemma customer_guard_decoded req token data :
  authorization req = Some token ->
  (token =? "")%string = false ->
  Py.startswith "bearer " (Py.lower token) = false ->
  jwt_decode rt (Py.strip token) = JwtOk data ->
  verify_customer_token rt req =
    if cl_role_id data =? 2 then inl data
    else inr (error_response 403 "Access denied — Customer only").
Proof.
  intros Ha He Hb Hd. unfold verify_customer_token.
  rewrite Ha, He, Hb, Hd. destruct (cl_role_id data =? 2); reflexivity.
Qed.

Lemma admin_guard_decoded req token data :
  authorization req = Some token ->
  (token =? "")%string = false ->
  Py.startswith "bearer " (Py.lower token) = false ->
  jwt_decode rt (Py.strip token) = JwtOk data ->
  verify_admin_token rt req =
    if cl_role_id data =? 1 then inl data
    else inr (error_response 403 "Access denied — Admin only").
Proof.
  intros Ha He Hb Hd. unfold verify_admin_token.
  rewrite Ha, He, Hb, Hd. destruct (cl_role_id data =? 1); reflexivity.
Qed.

(** C4.  Role enforcement by the token guards.  Every Customer-only
    endpoint is a handler behind [jwt_required] and every Admin-only
    endpoint a handler behind [admin_required]; the statement holds for
    every handler [f] and every decoder.
    - A raw token that decodes to the Customer role (role_id 2) is answered
      403 by every Admin-only endpoint, and a raw token that decodes to
      the Admin role (role_id 1) is answered 403 by every Customer-only
      endpoint; the handler does not run and the store is untouched.
    - A header value that starts, in any letter case, with "bearer " is
      answered 401 by both guards whatever the decoder would say of it or
      of the rest of it.
    - [dashboard] has no test of its own for the prefix: it hands the
      header value to the decoder as it is and answers 401 whenever the
      decoder does not accept that value. *)
Theorem token_role_enforcement :
  forall (req : request) (token : string)
         (f : Z -> request -> env -> db -> response * db) (e : env) (d : db),
    authorization req = Some token ->
    (forall data,
        (token =? "")%string = false ->
        Py.startswith "bearer " (Py.lower token) = false ->
        jwt_decode rt (Py.strip token) = JwtOk data ->
        (cl_role_id data = 2 ->
         admin_required rt f req e d =
           (error_response 403 "Access denied — Admin only", d))
        /\
        (cl_role_id data = 1 ->
         jwt_required rt f req e d =
           (error_response 403 "Access denied — Customer only", d)))
    /\
    (Py.startswith "bearer " (Py.lower token) = true ->
     jwt_required rt f req e d =
       (error_response 401 "Use raw token, not Bearer", d)
     /\
     admin_required rt f req e d =
       (error_response 401 "Use raw token, not Bearer", d))
    /\
    ((forall data, jwt_decode rt token <> JwtOk data) ->
     status (dashboard rt req) = 401).
Proof.
  intros req token f e d Ha. split; [| split].
  - intros data He Hb Hd. split; intros Hr.
    + unfold admin_required.
      rewrite (admin_guard_decoded _ _ _ Ha He Hb Hd), Hr. reflexivity.
    + unfold jwt_required.
      rewrite (customer_guard_decoded _ _ _ Ha He Hb Hd), Hr. reflexivity.
  - intros Hb. split.
    + unfold jwt_required. rewrite (customer_guard_bearer _ _ Ha Hb). reflexivity.
    + unfold admin_required. rewrite (admin_guard_bearer _ _ Ha Hb). reflexivity.
  - intros Hno. unfold dashboard. rewrite Ha.
    destruct (token =? "")%string; [reflexivity |].
    destruct (jwt_decode rt token) as [data | |] eqn:Hd.
    + exfalso. apply (Hno data). reflexivity.
    + reflexivity.
    + reflexivity.
Qed.

End Guards.

(** ** Cart *)

Section Cart.

Variable rt : runtime.

Lemma py_int_cases v :
  (exists n, py_int rt v = Val n)
  \/ py_int rt v = Exc ValueError \/ py_int rt v = Exc TypeError.
Proof.
  destruct v as [| b | n | q | s | l | o]; simpl; eauto.
  destruct (int_of_str rt s); eauto.
Qed.

Lemma py_float_cases v :
  (exists q, py_float rt v = Val q)
  \/ py_float rt v = Exc ValueError \/ py_float rt v = Exc TypeError.
Proof.
  destruct v as [| b | n | q | s | l | o]; simpl; eauto.
  destruct (float_of_str rt s); eauto.
Qed.

(** The inner [try] of the cart loop ends with the three fields or with
    one of three exceptions. *)
Lemma cart_item_fields_cases item :
  (exists pid qty size, cart_item_fields rt item = Val (pid, qty, size))
  \/ cart_item_fields rt item = Exc KeyError
  \/ cart_item_fields rt item = Exc ValueError
  \/ cart_item_fields rt item = Exc TypeError.
Proof.
  destruct item as [| b | n | q | s | l | o]; simpl; auto.
  unfold py_index. destruct (Py.get "perfume_id" o) as [v |]; simpl; auto.
  destruct (py_int_cases v) as [[pid ->] | [-> | ->]]; simpl; auto.
  match goal with
  | |- context [py_int rt ?w] =>
      destruct (py_int_cases w) as [[qty ->] | [-> | ->]]; simpl; eauto 6
  end.
Qed.

Lemma cart_line_fields pid qty size :
  cart_item_fields rt (cart_line pid qty size) = Val (pid, qty, size).
Proof. reflexivity. Qed.

(** Rows and stock seen through an upsert of the cart. *)
Lemma upsert_rows_quantity fresh rows :
  option_map c_quantity
    (find (Sql.cart_key_match (c_user_id fresh) (c_perfume_id fresh) (c_size fresh))
       (Sql.upsert_rows fresh rows)) = Some (c_quantity fresh).
Proof.
  induction rows as [| r rows IH]; simpl.
  - unfold Sql.cart_key_match. simpl.
    rewrite !Z.eqb_refl, String.eqb_refl. reflexivity.
  - destruct (Sql.cart_key_match _ _ _ r) eqn:Hk; simpl.
    + assert (Hk' : Sql.cart_key_match (c_user_id fresh) (c_perfume_id fresh)
                      (c_size fresh)
                      (mkCart (c_id r) (c_user_id r) (c_perfume_id r)
                         (c_quantity fresh)
                         (match c_size fresh with
                          | Some s => Some s
                          | None => c_size r
                          end) (c_added_at r)) = true).
      { unfold Sql.cart_key_match in *. simpl.
        apply andb_prop in Hk. destruct Hk as [Hk Hs].
        rewrite Hk. simpl.
        destruct (c_size fresh); [apply String.eqb_refl | exact Hs]. }
      rewrite Hk'. reflexivity.
    + rewrite Hk. exact IH.
Qed.

Lemma upsert_rows_count fresh rows :
  let k := Sql.cart_key_match (c_user_id fresh) (c_perfume_id fresh) (c_size fresh) in
  List.length (filter k (Sql.upsert_rows fresh rows)) =
    Nat.max 1 (List.length (filter k rows)).
Proof.
  intro k. induction rows as [| r rows IH]; simpl.
  - assert (Hk : k fresh = true).
    { unfold k, Sql.cart_key_match. rewrite !Z.eqb_refl, String.eqb_refl. reflexivity. }
    rewrite Hk. reflexivity.
  - fold k. destruct (k r) eqn:Hk; simpl.
    + assert (Hk' : k (mkCart (c_id r) (c_user_id r) (c_perfume_id r)
                         (c_quantity fresh)
                         (match c_size fresh with
                          | Some s => Some s
                          | None => c_size r
                          end) (c_added_at r)) = true).
      { unfold k, Sql.cart_key_match in *. simpl.
        apply andb_prop in Hk. destruct Hk as [Hk Hs].
        rewrite Hk. simpl.
        destruct (c_size fresh); [apply String.eqb_refl | exact Hs]. }
      rewrite Hk'. simpl. reflexivity.
    + rewrite Hk. exact IH.
Qed.

Lemma upsert_cart_quantity user pid qty size t d :
  Sql.select_cart_quantity user pid size (Sql.upsert_cart user pid qty size t d)
  = Some qty.
Proof.
  unfold Sql.select_cart_quantity, Sql.upsert_cart. simpl.
  exact (upsert_rows_quantity (mkCart (Sql.next_cart_id d) user pid qty size t)
           (carts d)).
Qed.

Lemma upsert_cart_rows user pid qty size t d :
  cart_rows user pid size (Sql.upsert_cart user pid qty size t d)
  = Nat.max 1 (cart_rows user pid size d).
Proof.
  unfold cart_rows, Sql.upsert_cart. simpl.
  exact (upsert_rows_count (mkCart (Sql.next_cart_id d) user pid qty size t)
           (carts d)).
Qed.

Lemma upsert_cart_perfumes user pid qty size t d pid' :
  Sql.select_available_perfume pid' (Sql.upsert_cart user pid qty size t d)
  = Sql.select_available_perfume pid' d.
Proof. reflexivity. Qed.

(** One turn of the loop on a connection without faults, for an item whose
    fields convert and whose perfume is available. *)
Lemma add_item_available e user item pid qty size p ks added errors cm w :
  cart_item_fields rt item = Val (pid, qty, size) ->
  Sql.select_available_perfume pid w = Some p ->
  sql_text rt (effective_size size p) = Some ks ->
  add_item rt e user item (added, errors) (mkConn cm w None) =
    if cart_quantity user pid ks w + qty >? p_quantity p
    then (Val (added,
               errors ++ [stock_error pid (p_quantity p)
                            (cart_quantity user pid ks w)]),
          mkConn cm w None)
    else (Val (added
               ++ [added_entry pid (cart_quantity user pid ks w + qty)
                     (effective_size size p)],
               errors),
          mkConn cm
            (Sql.upsert_cart user pid (cart_quantity user pid ks w + qty) ks
               (now e) w)
            None).
Proof.
  intros Hf Hp Hs. unfold add_item. rewrite Hf.
  unfold bind, query, tick. simpl. rewrite Hp.
  unfold param_text. fold (effective_size size p). rewrite Hs. simpl.
  unfold cart_quantity.
  destruct (Sql.select_cart_quantity user pid ks w) as [q |]; simpl;
    match goal with
    | |- context [?a >? ?b] => destruct (a >? b)
    end; reflexivity.
Qed.

Lemma add_items_nil e user acc : add_items rt e user [] acc = ret acc.
Proof. reflexivity. Qed.

Lemma add_items_cons e user item rest acc :
  add_items rt e user (item :: rest) acc =
    bind (add_item rt e user item acc)
      (fun acc' => add_items rt e user rest acc').
Proof. reflexivity. Qed.

(** A POST /cart with one item, when nothing fails underneath. *)
Lemma add_to_cart_single e user req item pid qty size p ks d :
  db_up e = true -> fault_at e = None ->
  posted_items req = JList [item] ->
  cart_item_fields rt item = Val (pid, qty, size) ->
  Sql.select_available_perfume pid d = Some p ->
  sql_text rt (effective_size size p) = Some ks ->
  add_to_cart rt user req e d =
    if cart_quantity user pid ks d + qty >? p_quantity p
    then (rejected_answer pid (p_quantity p) (cart_quantity user pid ks d), d)
    else (accepted_answer pid (effective_size size p)
            (cart_quantity user pid ks d + qty),
          Sql.upsert_cart user pid (cart_quantity user pid ks d + qty) ks
            (now e) d).
Proof.
  intros Hup Hfault Hbody Hf Hp Hs.
  unfold add_to_cart. fold (posted_items req). rewrite Hbody. simpl.
  unfold with_connection. rewrite Hup, Hfault.
  unfold try_except, lift. simpl. unfold bind.
  rewrite add_items_cons. unfold bind.
  rewrite (add_item_available e user item pid qty size p ks [] [] d d Hf Hp Hs).
  destruct (cart_quantity user pid ks d + qty >? p_quantity p); reflexivity.
Qed.

Lemma keeps_add_item e user item acc : keeps (add_item rt e user item acc).
Proof.
  unfold add_item. destruct acc as [added errors].
  destruct (cart_item_fields rt item) as [[[pid qty] size] | r | ex].
  - block_steps.
  - auto with keeps.
  - destruct ex; try auto with keeps; destruct item; auto with keeps.
Qed.

Lemma for_add_item e user item acc : falls_or_raises (add_item rt e user item acc).
Proof.
  unfold add_item. destruct acc as [added errors].
  destruct (cart_item_fields_cases item)
    as [(pid & qty & size & ->) | [-> | [-> | ->]]].
  - block_steps.
  - auto with keeps.
  - destruct item; auto with keeps.
  - destruct item; auto with keeps.
Qed.

Lemma keeps_add_items e user items :
  forall acc, keeps (add_items rt e user items acc).
Proof.
  induction items as [| item rest IH]; intro acc.
  - rewrite add_items_nil. auto with keeps.
  - rewrite add_items_cons. apply keeps_bind.
    + apply keeps_add_item.
    + intro. apply IH.
Qed.

Lemma for_add_items e user items :
  forall acc, falls_or_raises (add_items rt e user items acc).
Proof.
  induction items as [| item rest IH]; intro acc.
  - rewrite add_items_nil. auto with keeps.
  - rewrite add_items_cons. apply for_bind.
    + apply for_add_item.
    + intro. apply IH.
Qed.

(** A turn that falls through has appended one entry to one of the two
    lists; when the entry is an error, the rows are as before. *)
Lemma add_item_val e user item added errors c added' errors' c' :
  add_item rt e user item (added, errors) c = (Val (added', errors'), c') ->
  (exists x, added' = added ++ [x] /\ errors' = errors)
  \/ (exists x, added' = added /\ errors' = errors ++ [x]
                /\ working c' = working c).
Proof.
  unfold add_item.
  destruct (cart_item_fields_cases item)
    as [(pid & qty & size & ->) | [-> | [-> | ->]]]; intros H.
  - inv_bind H. apply query_val in H_head. destruct H_head as (-> & Hw & _).
    destruct (Sql.select_available_perfume pid (working c)) as [p |].
    + inv_bind H. apply param_text_val in H_head. destruct H_head as (_ & ->).
      inv_bind H. apply query_val in H_head. destruct H_head as (_ & Hw1 & _).
      match type of H with
      | (if ?b then _ else _) _ = _ => destruct b
      end.
      * injection H as <- <- <-. right. eexists. repeat split. congruence.
      * inv_bind H. injection H as <- <- <-. left. eexists. split; reflexivity.
    + injection H as <- <- <-. right. eexists. repeat split. exact Hw.
  - discriminate H.
  - destruct item; try discriminate H.
    injection H as <- <- <-. right. eexists. repeat split.
  - destruct item; try discriminate H.
    injection H as <- <- <-. right. eexists. repeat split.
Qed.

Lemma add_items_val e user items :
  forall added errors c added' errors' c',
    add_items rt e user items (added, errors) c = (Val (added', errors'), c') ->
    (List.length added' + List.length errors'
     = List.length added + List.length errors + List.length items)%nat.
Proof.
  induction items as [| item rest IH]; intros added errors c added' errors' c' H.
  - rewrite add_items_nil in H. injection H as <- <- <-. simpl. lia.
  - rewrite add_items_cons in H. inv_bind H. destruct a as [added1 errors1].
    apply IH in H. apply add_item_val in H_head.
    destruct H_head as [(x & -> & ->) | (x & -> & -> & _)];
      rewrite length_app in H; simpl in *; lia.
Qed.

(** On a connection that never raises, a turn that records an error
    leaves the connection as it found it. *)
Lemma add_item_failed_calm e user item added errors c errors' c' :
  countdown c = None ->
  add_item rt e user item (added, errors) c = (Val (added, errors'), c') ->
  c' = c /\ exists x, errors' = errors ++ [x].
Proof.
  intros Hc. unfold add_item.
  destruct (cart_item_fields_cases item)
    as [(pid & qty & size & ->) | [-> | [-> | ->]]]; intros H.
  - unfold bind in H. rewrite (query_calm _ _ Hc) in H.
    destruct (Sql.select_available_perfume pid (working c)) as [p |].
    + unfold param_text in H. destruct (sql_text rt _) as [t |]; [| discriminate H].
      unfold ret at 1 in H. rewrite (query_calm _ _ Hc) in H.
      match type of H with
      | (if ?b then _ else _) _ = _ => destruct b
      end.
      * injection H as <- <-. split; [reflexivity | eexists; reflexivity].
      * rewrite (execute_calm _ _ Hc) in H. injection H as Ha _ _.
        exfalso. apply (f_equal (@List.length json)) in Ha.
        rewrite length_app in Ha. simpl in Ha. lia.
    + injection H as <- <-. split; [reflexivity | eexists; reflexivity].
  - discriminate H.
  - destruct item; try discriminate H.
    injection H as <- <-. split; [reflexivity | eexists; reflexivity].
  - destruct item; try discriminate H.
    injection H as <- <-. split; [reflexivity | eexists; reflexivity].
Qed.

Lemma py_iter_no_return v r : py_iter v <> Ret r.
Proof. destruct v; discriminate. Qed.

Lemma py_iter_truthy v its :
  Py.truthy v = true -> py_iter v = Val its -> its <> [].
Proof.
  destruct v as [| b | n | q | s | l | o]; simpl; intros Ht Hi;
    try discriminate Hi; injection Hi as <-.
  - destruct s; [discriminate Ht | discriminate].
  - destruct l; [discriminate Ht | discriminate].
  - destruct o; [discriminate Ht | discriminate].
Qed.

(** C2.  Repeated POST /cart calls of one user for one perfume and size,
    each with a single item (whose fields read as that perfume, the
    quantity of the call and that size), when the perfume is available
    and nothing fails underneath: the answers and the quantity of the cart entry are
    those of the ledger of the spec (new_total = existing + requested;
    an addition over the stock is answered "Only <stock> in stock (you
    have <existing>)" and changes nothing; an accepted addition sets the
    quantity to new_total), and the key never has more than one row: it
    has exactly one as soon as an addition was accepted. *)
Theorem cart_additions_accumulate :
  forall (e : env) (user pid : Z) (size : json) (p : perfume)
         (ks : option string) (qtys : list Z) (reqs : list request) (d : db),
    db_up e = true -> fault_at e = None ->
    Sql.select_available_perfume pid d = Some p ->
    sql_text rt (effective_size size p) = Some ks ->
    (cart_rows user pid ks d <= 1)%nat ->
    Forall2 (fun req q =>
               exists item,
                 posted_items req = JList [item]
                 /\ cart_item_fields rt item = Val (pid, q, size))
            reqs qtys ->
    let run := add_calls rt user reqs e d in
    let ledger := cart_ledger pid (effective_size size p) (p_quantity p)
                    (cart_quantity user pid ks d) qtys in
    fst run = fst ledger
    /\ cart_quantity user pid ks (snd run) = snd ledger
    /\ (cart_rows user pid ks (snd run) <= 1)%nat
    /\ (cart_rows user pid ks d = 1%nat
         \/ (exists a, In a (fst run) /\ status a = 201) ->
        cart_rows user pid ks (snd run) = 1%nat).
Proof.
  intros e user pid size p ks qtys reqs d Hup Hfault Hp Hs Hrows Hreqs.
  revert d Hp Hrows.
  induction Hreqs as [| req q reqs qtys (item & Hreq & Hfields) Hrest IH];
    intros d Hp Hrows.
  - simpl. repeat split.
    + exact Hrows.
    + intros [H | (a & [] & _)]. exact H.
  - simpl.
    rewrite (add_to_cart_single e user req item pid q size p ks d
               Hup Hfault Hreq Hfields Hp Hs).
    destruct (cart_quantity user pid ks d + q >? p_quantity p) eqn:Hover.
    + (* rejected: the store is the same *)
      specialize (IH d Hp Hrows). simpl in IH.
      destruct (add_calls rt user reqs e d) as [rs d2].
      destruct (cart_ledger pid (effective_size size p) (p_quantity p)
                  (cart_quantity user pid ks d) qtys) as [answers final].
      simpl in *. destruct IH as (IH1 & IH2 & IH3 & IH4).
      repeat split.
      * rewrite IH1. reflexivity.
      * exact IH2.
      * exact IH3.
      * intros [H | (a & [Ha | Ha] & Hst)].
        -- apply IH4. left. exact H.
        -- subst a. discriminate Hst.
        -- apply IH4. right. exists a. split; assumption.
    + (* accepted: the entry holds the new total *)
      set (d1 := Sql.upsert_cart user pid (cart_quantity user pid ks d + q) ks
                   (now e) d).
      assert (Hq1 : cart_quantity user pid ks d1
                    = cart_quantity user pid ks d + q).
      { unfold cart_quantity at 1, d1. rewrite upsert_cart_quantity. reflexivity. }
      assert (Hr1 : cart_rows user pid ks d1 = 1%nat).
      { unfold d1. rewrite upsert_cart_rows. lia. }
      assert (Hp1 : Sql.select_available_perfume pid d1 = Some p) by exact Hp.
      assert (Hle1 : (cart_rows user pid ks d1 <= 1)%nat) by lia.
      specialize (IH d1 Hp1 Hle1). simpl in IH. rewrite Hq1 in IH.
      destruct (add_calls rt user reqs e d1) as [rs d2].
      destruct (cart_ledger pid (effective_size size p) (p_quantity p)
                  (cart_quantity user pid ks d + q) qtys) as [answers final].
      simpl in *. destruct IH as (IH1 & IH2 & IH3 & IH4).
      repeat split.
      * rewrite IH1. reflexivity.
      * exact IH2.
      * exact IH3.
      * intros _. apply IH4. left. exact Hr1.
Qed.


End Cart.

(** ** Checkout: what is persisted *)

Lemma settles_bind {A} (m : M A) (k : A -> M response) :
  keeps m -> (forall a, settles (k a)) -> settles (bind m k).
Proof.
  intros Hm Hk c. unfold bind. specialize (Hm c).
  destruct (m c) as [[a | r | ex] c1]; simpl in *.
  - destruct (Hk a c1) as [H | H].
    + left. congruence.
    + right. exact H.
  - left. exact Hm.
  - left. exact Hm.
Qed.

Lemma settles_commit r :
  status r = 201 -> settles (bind commit (fun _ => ret r)).
Proof.
  intros Hr c. unfold bind, commit, tick, spent.
  destruct (countdown c) as [[| n] |]; simpl.
  - left. reflexivity.
  - right. exists r. auto.
  - right. exists r. auto.
Qed.

Section Checkout.

Variable rt : runtime.

Lemma checkout_items_nil oid : checkout_items rt oid [] = ret tt.
Proof. reflexivity. Qed.

Lemma checkout_items_cons oid item rest :
  checkout_items rt oid (item :: rest) =
    checkout_item rt oid item (checkout_items rt oid rest).
Proof. reflexivity. Qed.

Lemma order_item_fields_cases item :
  (exists pid q size price,
      order_item_fields rt item = Val (pid, q, size, price))
  \/ order_item_fields rt item = Exc KeyError
  \/ order_item_fields rt item = Exc ValueError
  \/ order_item_fields rt item = Exc TypeError.
Proof.
  destruct item as [| b | n | q | s | l | o]; simpl; auto.
  unfold py_index.
  destruct (Py.get "perfume_id" o) as [v |]; simpl; auto.
  destruct (py_int_cases rt v) as [[pid ->] | [-> | ->]]; simpl; auto.
  destruct (Py.get "quantity" o) as [v' |]; simpl; auto.
  destruct (py_int_cases rt v') as [[qty ->] | [-> | ->]]; simpl; auto.
  destruct (Py.get "price" o) as [v'' |]; simpl; auto.
  destruct (py_float_cases rt v'') as [[price ->] | [-> | ->]]; simpl; eauto 7.
Qed.

Lemma keeps_checkout_item oid item next :
  keeps next -> keeps (checkout_item rt oid item next).
Proof.
  intros Hn. unfold checkout_item.
  destruct (order_item_fields rt item) as [[[[pid q] size] price] | r | ex].
  - block_steps.
  - auto with keeps.
  - destruct ex; block_steps.
Qed.

Lemma keeps_checkout_items oid items : keeps (checkout_items rt oid items).
Proof.
  induction items as [| item rest IH].
  - rewrite checkout_items_nil. auto with keeps.
  - rewrite checkout_items_cons. apply keeps_checkout_item. exact IH.
Qed.

Lemma keeps_save_card e oid ck : keeps (save_card rt e oid ck).
Proof. unfold save_card. block_steps. Qed.

Lemma settles_checkout_block e user data ck :
  settles (checkout_block rt e user data ck).
Proof.
  unfold checkout_block.
  apply settles_bind; [auto with keeps | intro header].
  apply settles_bind; [auto with keeps | intro oid].
  apply settles_bind; [apply keeps_checkout_items | intros _].
  apply settles_bind; [apply keeps_save_card | intros _].
  apply settles_bind; [auto with keeps | intros _].
  apply settles_bind; [auto with keeps | intros _].
  apply settles_commit. reflexivity.
Qed.

(** Only a checkout answered 201 changes the store. *)
Lemma checkout_persists_only_on_success user req e d :
  status (fst (checkout rt user req e d)) <> 201 ->
  snd (checkout rt user req e d) = d.
Proof.
  unfold checkout.
  destruct (validate_checkout _) as [ck | r | ex]; try reflexivity.
  unfold with_connection. destruct (db_up e); [| reflexivity].
  unfold try_except.
  pose proof (settles_checkout_block e user (body_of req) ck
                (mkConn d d (fault_at e))) as S.
  unfold body_of in S.
  destruct (checkout_block rt e user _ ck _) as [[r | r | ex] c1]; simpl in *.
  - destruct S as [S | (r' & Hr & Hs)]; [intros _; exact S |].
    injection Hr as <-. intros H. contradiction.
  - destruct S as [S | (r' & Hr & Hs)]; [intros _; exact S | discriminate Hr].
  - intros _. destruct S as [S | (r' & Hr & Hs)]; [exact S | discriminate Hr].
Qed.

(** *** The loop over the line items *)

Lemma no_restock_refl w : no_restock w w.
Proof.
  intro pid. destruct (Sql.select_available_perfume pid w) as [p |] eqn:E.
  - exists p. repeat split. lia.
  - reflexivity.
Qed.

Lemma no_restock_trans w1 w2 w3 :
  no_restock w1 w2 -> no_restock w2 w3 -> no_restock w1 w3.
Proof.
  intros H12 H23 pid. specialize (H12 pid). specialize (H23 pid).
  destruct (Sql.select_available_perfume pid w3) as [p3 |].
  - destruct H23 as (p2 & E2 & Hq & Hn). rewrite E2 in H12.
    destruct H12 as (p1 & E1 & Hq1 & Hn1).
    exists p1. repeat split; [exact E1 | lia | congruence].
  - rewrite H23 in H12. exact H12.
Qed.

Lemma find_map_perfume pid (g : perfume -> perfume) l :
  (forall p, p_id (g p) = p_id p /\ p_available (g p) = p_available p) ->
  find (fun p => (p_id p =? pid) && p_available p) (map g l)
  = option_map g (find (fun p => (p_id p =? pid) && p_available p) l).
Proof.
  intros Hg. induction l as [| p l IH]; simpl; [reflexivity |].
  destruct (Hg p) as [-> ->].
  destruct ((p_id p =? pid) && p_available p); [reflexivity | exact IH].
Qed.

Lemma deduct_stock_no_restock q pid w :
  0 <= q -> no_restock w (Sql.deduct_stock q pid w).
Proof.
  intros Hq pid'. unfold Sql.select_available_perfume, Sql.deduct_stock. simpl.
  rewrite find_map_perfume.
  - destruct (find _ (perfumes w)) as [p |]; simpl; [| reflexivity].
    exists p. split; [reflexivity |].
    destruct (p_id p =? pid); simpl; split; try reflexivity; lia.
  - intro p. destruct (p_id p =? pid); split; reflexivity.
Qed.

Lemma insert_order_item_no_restock it w :
  no_restock w (Sql.insert_order_item it w).
Proof. exact (no_restock_refl w). Qed.

(** A turn of the loop that reaches the next turn has found the perfume
    available with enough stock, filed the line and deducted the stock. *)
Lemma checkout_item_val oid item next c x c' :
  checkout_item rt oid item next c = (Val x, c') ->
  exists pid q size price p t c1,
    order_item_fields rt item = Val (pid, q, size, price)
    /\ 0 < q
    /\ Sql.select_available_perfume pid (working c) = Some p
    /\ q <= p_quantity p
    /\ sql_text rt size = Some t
    /\ working c1 =
         Sql.deduct_stock q pid
           (Sql.insert_order_item (mkOrderItem oid pid q t price) (working c))
    /\ committed c1 = committed c
    /\ next c1 = (Val x, c').
Proof.
  unfold checkout_item.
  destruct (order_item_fields_cases item)
    as [(pid & q & size & price & ->) | [-> | [-> | ->]]]; intros H;
    try discriminate H.
  destruct (q <=? 0) eqn:Hq; [discriminate H |].
  inv_bind H. apply query_val in H_head. destruct H_head as (-> & Hw & Hc).
  destruct (Sql.select_available_perfume pid (working c)) as [p |] eqn:Hp;
    [| discriminate H].
  destruct (p_quantity p <? q) eqn:Hs; [discriminate H |].
  inv_bind H. apply param_text_val in H_head. destruct H_head as (Ht & ->).
  inv_bind H. apply execute_val in H_head. destruct H_head as (Hw1 & Hc1).
  inv_bind H. apply execute_val in H_head. destruct H_head as (Hw2 & Hc2).
  exists pid, q, size, price, p, a, c2.
  repeat split; try assumption; try lia; congruence.
Qed.

Lemma checkout_items_val oid items :
  forall c x c',
    checkout_items rt oid items c = (Val x, c') ->
    no_restock (working c) (working c')
    /\ orders (working c') = orders (working c)
    /\ carts (working c') = carts (working c)
    /\ payment_details (working c') = payment_details (working c)
    /\ committed c' = committed c
    /\ Forall (fun item =>
                 exists pid q size price p,
                   order_item_fields rt item = Val (pid, q, size, price)
                   /\ 0 < q
                   /\ Sql.select_available_perfume pid (working c) = Some p
                   /\ q <= p_quantity p)
              items.
Proof.
  induction items as [| item rest IH]; intros c x c' H.
  - rewrite checkout_items_nil in H. injection H as _ <-.
    repeat split; auto using no_restock_refl.
  - rewrite checkout_items_cons in H. apply checkout_item_val in H.
    destruct H as (pid & q & size & price & p & t & c1
                   & Hf & Hq & Hp & Hle & Ht & Hw & Hc & Hnext).
    apply IH in Hnext.
    destruct Hnext as (Hr & Ho & Hca & Hpd & Hcm & Hall).
    assert (Hstep : no_restock (working c) (working c1)).
    { rewrite Hw.
      eapply no_restock_trans;
        [apply insert_order_item_no_restock
        | apply deduct_stock_no_restock; lia]. }
    repeat split.
    + eapply no_restock_trans; eassumption.
    + rewrite Ho, Hw. reflexivity.
    + rewrite Hca, Hw. reflexivity.
    + rewrite Hpd, Hw. reflexivity.
    + congruence.
    + constructor.
      * exists pid, q, size, price, p. auto.
      * eapply Forall_impl; [| exact Hall].
        intros it (pid' & q' & size' & price' & p' & Hf' & Hq' & Hp' & Hle').
        specialize (Hstep pid'). rewrite Hp' in Hstep.
        destruct Hstep as (p0 & Hp0 & Hq0 & _).
        exists pid', q', size', price', p0. repeat split; auto. lia.
Qed.

(** *** The validation *)

Lemma check_required_ret fields data r :
  check_required fields data = Ret r -> status r = 400.
Proof.
  induction fields as [| f fields IH]; simpl; [discriminate |].
  destruct (Py.has_key f data); [exact IH |].
  intros H. injection H as <-. reflexivity.
Qed.

Lemma check_shipping_ret keys shipping r :
  check_shipping keys shipping = Ret r -> status r = 400.
Proof.
  induction keys as [| k keys IH]; simpl; [discriminate |].
  destruct shipping; try discriminate.
  destruct (Py.blank _); [| exact IH].
  intros H. injection H as <-. reflexivity.
Qed.

Lemma check_card_key_ret key cd r :
  check_card_key key cd = Ret r -> status r = 400.
Proof.
  unfold check_card_key. destruct cd; try discriminate.
  destruct (Py.blank _).
  - intros H. injection H as <-. reflexivity.
  - destruct (key =? "cardNumber")%string; simpl.
    + destruct (Py.get_or_none key o); simpl; try discriminate.
      destruct (_ || _)%bool; simpl.
      * intros H. injection H as <-. reflexivity.
      * destruct (key =? "cvv")%string; [| discriminate].
        destruct (negb _); [| discriminate].
        intros H. injection H as <-. reflexivity.
    + destruct (key =? "cvv")%string; [| discriminate].
      destruct (Py.get_or_none key o); try discriminate.
      destruct (negb _); [| discriminate].
      intros H. injection H as <-. reflexivity.
Qed.

Lemma check_card_ret keys cd r :
  check_card keys cd = Ret r -> status r = 400.
Proof.
  induction keys as [| k keys IH]; simpl; [discriminate |].
  destruct (check_card_key k cd) as [[] | r' | ex] eqn:E; simpl.
  - exact IH.
  - intros H. injection H as <-. exact (check_card_key_ret _ _ _ E).
  - discriminate.
Qed.

(** The loop over [card_keys], key by key. *)
Lemma check_card_unfold o :
  check_card card_keys (JObj o) =
    let name := Py.get_or_none "cardName" o in
    let number := Py.get_or_none "cardNumber" o in
    let expiry := Py.get_or_none "expiry" o in
    let cvv := Py.get_or_none "cvv" o in
    if Py.blank name
    then Ret (error_response 400 "Card cardName is required")
    else if Py.blank number
    then Ret (error_response 400 "Card cardNumber is required")
    else
      match number with
      | JStr s =>
          if ((String.length (Py.remove_spaces s) <? 13)
              || (19 <? String.length (Py.remove_spaces s)))%nat
          then Ret (error_response 400 "Invalid card number")
          else if Py.blank expiry
          then Ret (error_response 400 "Card expiry is required")
          else if Py.blank cvv
          then Ret (error_response 400 "Card cvv is required")
          else
            match cvv with
            | JStr c =>
                if negb (Py.isdigit c
                         && ((String.length c =? 3)
                             || (String.length c =? 4))%nat)
                then Ret (error_response 400 "CVV must be 3 or 4 digits")
                else Val tt
            | _ => Exc AttributeError
            end
      | _ => Exc AttributeError
      end.
Proof.
  unfold check_card, card_keys, check_card_key. simpl.
  destruct (Py.blank (Py.get_or_none "cardName" o)); simpl; [reflexivity |].
  destruct (Py.blank (Py.get_or_none "cardNumber" o)); simpl; [reflexivity |].
  destruct (Py.get_or_none "cardNumber" o); simpl; try reflexivity.
  destruct (_ || _)%bool; simpl; [reflexivity |].
  destruct (Py.blank (Py.get_or_none "expiry" o)); simpl; [reflexivity |].
  destruct (Py.blank (Py.get_or_none "cvv" o)); simpl; [reflexivity |].
  destruct (Py.get_or_none "cvv" o); simpl; try reflexivity.
  destruct (negb _); reflexivity.
Qed.

(** The card validation lets a card through exactly when it is present
    and well-formed. *)
Lemma check_card_ok cd :
  check_card card_keys cd = Val tt <-> card_ok cd = true.
Proof.
  destruct cd as [| b | n | q | s | l | o];
    try (split; discriminate).
  rewrite check_card_unfold. unfold card_ok. cbv zeta.
  destruct (Py.blank (Py.get_or_none "cardName" o)); cbn [negb andb];
    [split; discriminate |].
  destruct (Py.blank (Py.get_or_none "cardNumber" o)); cbn [negb andb];
    [split; discriminate |].
  destruct (Py.get_or_none "cardNumber" o) as [| | | | s | |];
    cbn [negb andb]; try (split; discriminate).
  rewrite !Nat.ltb_antisym.
  destruct (13 <=? String.length (Py.remove_spaces s))%nat;
    cbn [negb andb orb]; [| split; discriminate].
  destruct (String.length (Py.remove_spaces s) <=? 19)%nat;
    cbn [negb andb orb]; [| split; discriminate].
  destruct (Py.blank (Py.get_or_none "expiry" o)); cbn [negb andb];
    [split; discriminate |].
  destruct (Py.blank (Py.get_or_none "cvv" o)); cbn [negb andb];
    [split; discriminate |].
  destruct (Py.get_or_none "cvv" o) as [| | | | c | |];
    try (split; discriminate).
  destruct (Py.isdigit c && _)%bool; cbn [negb]; split; auto; discriminate.
Qed.

(** On a card whose number and CVV are strings or missing, the validation
    does not raise. *)
Lemma check_card_textual o :
  text_or_absent (Py.get_or_none "cardNumber" o) = true ->
  text_or_absent (Py.get_or_none "cvv" o) = true ->
  card_ok (JObj o) = false ->
  exists r, check_card card_keys (JObj o) = Ret r /\ status r = 400.
Proof.
  intros Hn Hc Hok.
  destruct (check_card card_keys (JObj o)) as [[] | r | ex] eqn:E.
  - apply check_card_ok in E. congruence.
  - exists r. split; [reflexivity | exact (check_card_ret _ _ _ E)].
  - exfalso. rewrite check_card_unfold in E. simpl in E.
    destruct (Py.blank (Py.get_or_none "cardName" o)); [discriminate E |].
    destruct (Py.blank (Py.get_or_none "cardNumber" o)) eqn:Hb;
      [discriminate E |].
    destruct (Py.get_or_none "cardNumber" o) as [| | | | s | |];
      try discriminate Hn; try discriminate Hb.
    destruct (_ || _)%bool; [discriminate E |].
    destruct (Py.blank (Py.get_or_none "expiry" o)); [discriminate E |].
    destruct (Py.blank (Py.get_or_none "cvv" o)) eqn:Hb'; [discriminate E |].
    destruct (Py.get_or_none "cvv" o) as [| | | | c | |];
      try discriminate Hc; try discriminate Hb'.
    destruct (negb _); discriminate E.
Qed.

Arguments check_required : simpl never.
Arguments check_shipping : simpl never.
Arguments check_card : simpl never.

(** A request the validation turns down with a [return] is answered 400. *)
Lemma validate_checkout_ret data r :
  validate_checkout data = Ret r -> status r = 400.
Proof.
  unfold validate_checkout.
  destruct (check_required required_fields data) as [[] | r' | ex] eqn:E1;
    simpl; try discriminate.
  2: { intros H. injection H as <-. exact (check_required_ret _ _ _ E1). }
  destruct (Py.get_or_none "payment_method" data); simpl; try discriminate.
  destruct (negb _).
  { intros H. injection H as <-. reflexivity. }
  destruct (Py.get_or_none "items" data) as [| | | | | [| i l] |];
    try (intros H; injection H as <-; reflexivity).
  destruct (check_shipping ship_keys _) as [[] | r' | ex] eqn:E2;
    simpl; try discriminate.
  2: { intros H. injection H as <-. exact (check_shipping_ret _ _ _ E2). }
  destruct (Py.lower s =? "card")%string.
  - destruct (check_card card_keys _) as [[] | r' | ex] eqn:E3;
      simpl; try discriminate.
    + destruct (Py.get_or_none "shipping" data); discriminate.
    + intros H. injection H as <-. exact (check_card_ret _ _ _ E3).
  - simpl. destruct (Py.get_or_none "shipping" data); discriminate.
Qed.

(** What a request that passes the validation looks like. *)
Lemma validate_checkout_val data ck :
  validate_checkout data = Val ck ->
  exists s,
    Py.get_or_none "payment_method" data = JStr s
    /\ ck_payment_method ck = Py.lower s
    /\ (Py.lower s = "card" \/ Py.lower s = "cod")
    /\ Py.get_or_none "items" data = JList (ck_items ck)
    /\ ck_items ck <> []
    /\ Py.get_or_none "shipping" data = JObj (ck_shipping ck)
    /\ ck_card_details ck = match Py.get "card_details" data with
                            | Some v => v
                            | None => JObj []
                            end
    /\ (Py.lower s = "card" ->
        check_card card_keys (ck_card_details ck) = Val tt).
Proof.
  unfold validate_checkout.
  destruct (check_required required_fields data) as [[] | r' | ex];
    simpl; try discriminate.
  destruct (Py.get_or_none "payment_method" data) as [| | | | s | |];
    simpl; try discriminate.
  destruct ((Py.lower s =? "card")%string || (Py.lower s =? "cod")%string)
    eqn:Hpm; simpl; [| discriminate].
  destruct (Py.get_or_none "items" data) as [| | | | | [| i l] |];
    try discriminate.
  destruct (check_shipping ship_keys _) as [[] | r' | ex];
    simpl; try discriminate.
  destruct (Py.lower s =? "card")%string eqn:Hcard.
  - destruct (check_card card_keys _) as [[] | r' | ex] eqn:E3;
      simpl; try discriminate.
    destruct (Py.get_or_none "shipping" data); try discriminate.
    intros H. injection H as <-. simpl. exists s.
    apply String.eqb_eq in Hcard.
    repeat split; auto. discriminate.
  - simpl. destruct (Py.get_or_none "shipping" data); try discriminate.
    intros H. injection H as <-. simpl. exists s.
    simpl in Hpm. apply String.eqb_eq in Hpm.
    repeat split; auto; try discriminate.
    intros Hc. rewrite Hc in Hcard. discriminate Hcard.
Qed.

Lemma check_required_no_exc fields data ex :
  check_required fields data <> Exc ex.
Proof.
  induction fields as [| f fields IH]; [discriminate |].
  unfold check_required. fold check_required.
  destruct (Py.has_key f data); [exact IH | discriminate].
Qed.

Lemma check_shipping_no_exc keys o ex :
  check_shipping keys (JObj o) <> Exc ex.
Proof.
  induction keys as [| k keys IH]; [discriminate |].
  unfold check_shipping. fold check_shipping.
  destruct (Py.blank _); [discriminate | exact IH].
Qed.

(** The validation raises only on a payment method that is not a string,
    a shipping block that is not an object, or inside the card check. *)
Lemma validate_checkout_exc data ex :
  validate_checkout data = Exc ex ->
  (forall s, Py.get_or_none "payment_method" data <> JStr s)
  \/ (forall o, Py.get_or_none "shipping" data <> JObj o)
  \/ (check_card card_keys (match Py.get "card_details" data with
                             | Some v => v
                             | None => JObj []
                             end) = Exc ex).
Proof.
  unfold validate_checkout.
  destruct (check_required required_fields data) as [[] | r' | ex'] eqn:E1;
    simpl; try discriminate.
  2: { intros _. exfalso. exact (check_required_no_exc _ _ _ E1). }
  destruct (Py.get_or_none "payment_method" data) as [| | | | s | |];
    simpl; try (intros _; left; intros s'; discriminate).
  destruct (negb _); [discriminate |].
  destruct (Py.get_or_none "items" data) as [| | | | | [| i l] |];
    try discriminate.
  destruct (Py.get_or_none "shipping" data) as [| | | | | | o] eqn:Hs;
    try (intros _; right; left; intros o'; discriminate).
  destruct (check_shipping ship_keys (JObj o)) as [[] | r' | ex'] eqn:E2;
    simpl; try discriminate.
  2: { intros _. exfalso. exact (check_shipping_no_exc _ _ _ E2). }
  destruct (Py.lower s =? "card")%string; simpl; [| discriminate].
  destruct (check_card card_keys _) as [[] | r' | ex'] eqn:E3;
    simpl; try discriminate.
  intros H. injection H as <-. right. right. reflexivity.
Qed.

(** *** A checkout that went through *)

Lemma converts_py_index k d : converts (py_index k d).
Proof. intro r. unfold py_index. destruct (Py.get k d); discriminate. Qed.

Lemma converts_py_float v : converts (py_float rt v).
Proof.
  intro r. destruct (py_float_cases rt v) as [[q ->] | [-> | ->]]; discriminate.
Qed.

Lemma converts_shipping_field k d : converts (shipping_field k d).
Proof.
  intro r. unfold shipping_field, py_index.
  destruct (Py.get k d) as [[] |]; discriminate.
Qed.

Lemma converts_order_header e user data ck :
  converts (order_header rt e user data ck).
Proof.
  unfold order_header.
  repeat (apply converts_obind;
          [ first [ apply converts_py_index | apply converts_py_float
                  | apply converts_shipping_field ]
          | intro ]).
  discriminate.
Qed.

(** The row of the INSERT into [orders]. *)
Lemma order_header_val e user data ck header :
  order_header rt e user data ck = Val header ->
  forall id,
    o_id (snd header id) = id
    /\ o_user_id (snd header id) = user
    /\ o_payment_method (snd header id) = ck_payment_method ck
    /\ o_status (snd header id) = "pending".
Proof.
  unfold order_header. intros H.
  repeat (apply obind_val in H; destruct H as (? & _ & H)).
  injection H as <-. intro id. repeat split.
Qed.

Lemma save_card_val e oid ck c x c' :
  save_card rt e oid ck c = (Val x, c') ->
  committed c' = committed c
  /\ card_saved rt e ck oid (working c) (working c').
Proof.
  unfold save_card, card_saved.
  destruct (ck_payment_method ck =? "card")%string eqn:Hpm.
  - apply String.eqb_eq in Hpm.
    destruct (ck_card_details ck) as [| | | | | | card]; try discriminate.
    intros H.
    inv_bind H. unfold lift, py_index in H_head.
    destruct (Py.get "cardNumber" card) as [number |] eqn:Hn;
      [| discriminate H_head].
    injection H_head as <- <-.
    inv_bind H. unfold lift, py_index in H_head.
    destruct (Py.get "cardName" card) as [name |] eqn:Hna;
      [| discriminate H_head].
    injection H_head as <- <-.
    inv_bind H. unfold lift, py_index in H_head.
    destruct (Py.get "expiry" card) as [expiry |] eqn:He;
      [| discriminate H_head].
    injection H_head as <- <-.
    step_in H as nt c4 Hnt. apply (param_text_val rt) in Hnt.
    destruct Hnt as (Hnt & ->).
    step_in H as et c5 Het. apply (param_text_val rt) in Het.
    destruct Het as (Het & ->).
    apply execute_val in H. destruct H as (Hw & Hc).
    split; [exact Hc |]. left. split; [exact Hpm |].
    exists card, number, name, expiry, nt, et.
    repeat split; auto.
  - intros H. injection H as _ <-. split; [reflexivity |].
    right. split; [| reflexivity].
    intros Hc. rewrite Hc in Hpm. discriminate Hpm.
Qed.

Lemma for_save_card e oid ck : falls_or_raises (save_card rt e oid ck).
Proof.
  unfold save_card.
  destruct (ck_payment_method ck =? "card")%string; [| auto with keeps].
  destruct (ck_card_details ck); auto with keeps.
  repeat (apply for_bind;
          [ first [ apply for_lift; apply converts_py_index
                  | auto with keeps ]
          | intro ]).
  auto with keeps.
Qed.

(** The loop [return]s 400 or 404 only. *)
Lemma returns_checkout_item oid item next :
  returns_only (fun r => status r = 400 \/ status r = 404) next ->
  returns_only (fun r => status r = 400 \/ status r = 404)
    (checkout_item rt oid item next).
Proof.
  intros Hn. unfold checkout_item.
  destruct (order_item_fields_cases item)
    as [(pid & q & size & price & ->) | [-> | [-> | ->]]].
  - destruct (q <=? 0).
    + apply returns_only_return. left. reflexivity.
    + apply returns_only_bind; [apply returns_only_falls; auto with keeps |].
      intros [p |].
      * destruct (p_quantity p <? q).
        -- apply returns_only_bind;
             [apply returns_only_falls; auto with keeps | intro].
           apply returns_only_return. left. reflexivity.
        -- repeat (apply returns_only_bind;
                   [apply returns_only_falls; auto with keeps | intro]).
           exact Hn.
      * apply returns_only_bind;
          [apply returns_only_falls; auto with keeps | intro].
        apply returns_only_return. right. reflexivity.
  - apply returns_only_bind;
      [apply returns_only_falls; auto with keeps | intro].
    apply returns_only_return. left. reflexivity.
  - apply returns_only_bind;
      [apply returns_only_falls; auto with keeps | intro].
    apply returns_only_return. left. reflexivity.
  - apply returns_only_bind;
      [apply returns_only_falls; auto with keeps | intro].
    apply returns_only_return. left. reflexivity.
Qed.

Lemma returns_checkout_items oid items :
  returns_only (fun r => status r = 400 \/ status r = 404)
    (checkout_items rt oid items).
Proof.
  induction items as [| item rest IH].
  - rewrite checkout_items_nil. apply returns_only_falls. auto with keeps.
  - rewrite checkout_items_cons. apply returns_checkout_item. exact IH.
Qed.

Lemma returns_checkout_block e user data ck :
  returns_only (fun r => status r = 400 \/ status r = 404)
    (checkout_block rt e user data ck).
Proof.
  unfold checkout_block.
  apply returns_only_bind.
  { apply returns_only_falls. apply for_lift. apply converts_order_header. }
  intro header.
  apply returns_only_bind; [apply returns_only_falls; auto with keeps |].
  intro oid.
  apply returns_only_bind; [apply returns_checkout_items | intro].
  apply returns_only_bind;
    [apply returns_only_falls; apply for_save_card | intro].
  repeat (apply returns_only_bind;
          [apply returns_only_falls; auto with keeps | intro]).
  apply returns_only_falls. auto with keeps.
Qed.

(** A checkout answered 201 has passed the validation, filed the order
    under a fresh id, taken every line item from sufficient stock, saved
    the masked card if there is one, cleared the cart, set the final
    status and committed. *)
Lemma checkout_success user req e d :
  status (fst (checkout rt user req e d)) = 201 ->
  exists ck header w2 w3,
    validate_checkout (body_of req) = Val ck
    /\ order_header rt e user (body_of req) ck = Val header
    /\ orders w2 = orders d ++ [snd header (Sql.next_order_id d)]
    /\ carts w2 = carts d
    /\ payment_details w2 = payment_details d
    /\ no_restock d w2
    /\ Forall (fun item =>
                 exists pid q size price p,
                   order_item_fields rt item = Val (pid, q, size, price)
                   /\ 0 < q
                   /\ Sql.select_available_perfume pid d = Some p
                   /\ q <= p_quantity p)
              (ck_items ck)
    /\ card_saved rt e ck (Sql.next_order_id d) w2 w3
    /\ checkout rt user req e d =
         (order_placed (Sql.next_order_id d) (ck_payment_method ck)
            (fst header),
          Sql.update_order_status (final_status (ck_payment_method ck))
            (Sql.next_order_id d) (Sql.delete_user_cart user w3)).
Proof.
  unfold checkout. fold (body_of req).
  destruct (validate_checkout (body_of req)) as [ck | r | ex] eqn:Hv; simpl.
  2: { intros H. rewrite (validate_checkout_ret _ _ Hv) in H. discriminate H. }
  2: { discriminate. }
  unfold with_connection. destruct (db_up e); [| discriminate].
  unfold try_except.
  destruct (checkout_block rt e user (body_of req) ck (mkConn d d (fault_at e)))
    as [[r | r | ex] c9] eqn:E; simpl.
  - intros _. unfold checkout_block in E.
    step_in E as header c1 Hh. unfold lift in Hh. injection Hh as Hh <-.
    step_in E as oid c2 Hi. apply insert_returning_val in Hi. simpl in Hi.
    destruct Hi as (-> & Hw2 & Hc2).
    step_in E as u3 c3 Hl. apply checkout_items_val in Hl.
    destruct Hl as (Hr3 & Ho3 & Hca3 & Hpd3 & Hc3 & Hall).
    step_in E as u4 c4 Hs. apply save_card_val in Hs. destruct Hs as (Hc4 & Hs).
    step_in E as u5 c5 Hd. apply execute_val in Hd. destruct Hd as (Hw5 & Hc5).
    step_in E as u6 c6 Hu. apply execute_val in Hu. destruct Hu as (Hw6 & Hc6).
    step_in E as u7 c7 Hk. apply commit_val in Hk. destruct Hk as (Hw7 & Hc7).
    injection E as <- <-.
    exists ck, header, (working c3), (working c4).
    rewrite Hw2 in *.
    repeat split; try assumption.
    + rewrite Hc7, Hw6, Hw5. reflexivity.
  - intros H. apply returns_checkout_block in E. lia.
  - discriminate.
Qed.

(** *** The line item that stops the loop *)

(** One turn on a connection that does not raise, for a line item whose
    fields convert and whose quantity is positive. *)
Lemma checkout_item_calm oid item next pid q size price c :
  countdown c = None ->
  order_item_fields rt item = Val (pid, q, size, price) ->
  0 < q ->
  checkout_item rt oid item next c =
    match Sql.select_available_perfume pid (working c) with
    | None =>
        (Ret (error_response 404
                ("Perfume ID " ++ Py.str_of_int pid
                 ++ " not found or unavailable")),
         mkConn (committed c) (committed c) None)
    | Some p =>
        if p_quantity p <? q
        then (Ret (error_response 400
                     ("Only " ++ Py.str_of_int (p_quantity p)
                      ++ " left of " ++ p_name p)),
              mkConn (committed c) (committed c) None)
        else
          match sql_text rt size with
          | None => (Exc DBError, c)
          | Some t =>
              next (mkConn (committed c)
                      (Sql.deduct_stock q pid
                         (Sql.insert_order_item
                            (mkOrderItem oid pid q t price) (working c)))
                      None)
          end
    end.
Proof.
  intros Hc Hf Hq. unfold checkout_item. rewrite Hf.
  assert (Hq' : (q <=? 0) = false) by (apply Z.leb_gt; exact Hq).
  rewrite Hq'. unfold bind at 1. rewrite (query_calm _ _ Hc).
  destruct (Sql.select_available_perfume pid (working c)) as [p |].
  - destruct (p_quantity p <? q).
    + unfold bind, rollback, return_. rewrite Hc. reflexivity.
    + unfold bind at 1, param_text.
      destruct (sql_text rt size) as [t |]; [| reflexivity].
      unfold ret. unfold bind at 1. rewrite (execute_calm _ _ Hc).
      unfold bind. rewrite execute_calm by reflexivity. reflexivity.
  - unfold bind, rollback, return_. rewrite Hc. reflexivity.
Qed.

Lemma checkout_items_names oid w0 pre :
  forall it post c pid q size price,
    countdown c = None ->
    no_restock w0 (working c) ->
    Forall (sound_line rt) pre ->
    order_item_fields rt it = Val (pid, q, size, price) ->
    0 < q ->
    (Sql.select_available_perfume pid w0 = None
     \/ exists p, Sql.select_available_perfume pid w0 = Some p
                  /\ p_quantity p < q) ->
    exists x r c',
      In x (pre ++ [it])
      /\ checkout_items rt oid (pre ++ it :: post) c = (Ret r, c')
      /\ names_line rt w0 x r
      /\ committed c' = committed c.
Proof.
  induction pre as [| x pre IH];
    intros it post c pid q size price Hc Hr Hsound Hf Hq Hlack.
  - simpl app. rewrite checkout_items_cons.
    rewrite (checkout_item_calm oid it _ pid q size price c Hc Hf Hq).
    specialize (Hr pid).
    destruct (Sql.select_available_perfume pid (working c)) as [p1 |].
    + destruct Hr as (p0 & Hp0 & Hle & Hname).
      destruct Hlack as [Hnone | (p & Hp & Hshort)]; [congruence |].
      assert (p = p0) by congruence. subst p.
      assert (Hlt : (p_quantity p1 <? q) = true) by (apply Z.ltb_lt; lia).
      rewrite Hlt.
      eexists it, _, _. split; [left; reflexivity |].
      split; [reflexivity |]. split; [| reflexivity].
      exists pid, q, size, price. split; [exact Hf |]. right.
      exists p0, (p_quantity p1). rewrite Hname.
      repeat split; auto. lia.
    + eexists it, _, _. split; [left; reflexivity |].
      split; [reflexivity |]. split; [| reflexivity].
      exists pid, q, size, price. split; [exact Hf |]. left.
      split; [exact Hr | reflexivity].
  - inversion Hsound as [| x' pre' Hx Hpre]; subst.
    destruct Hx as (pid' & q' & size' & price' & t & Hf' & Hq' & Ht).
    simpl app. rewrite checkout_items_cons.
    rewrite (checkout_item_calm oid x _ pid' q' size' price' c Hc Hf' Hq').
    pose proof (Hr pid') as Hr'.
    destruct (Sql.select_available_perfume pid' (working c)) as [p1 |].
    + destruct Hr' as (p0 & Hp0 & Hle & Hname).
      destruct (p_quantity p1 <? q') eqn:Hlt.
      * apply Z.ltb_lt in Hlt.
        eexists x, _, _. split; [left; reflexivity |].
        split; [reflexivity |]. split; [| reflexivity].
        exists pid', q', size', price'. split; [exact Hf' |]. right.
        exists p0, (p_quantity p1). rewrite Hname.
        repeat split; auto.
      * rewrite Ht.
        edestruct (IH it post
                     (mkConn (committed c)
                        (Sql.deduct_stock q' pid'
                           (Sql.insert_order_item
                              (mkOrderItem oid pid' q' t price') (working c)))
                        None)
                     pid q size price)
          as (y & r & c' & Hin & Hrun & Hnames & Hcm); auto.
        { simpl. eapply no_restock_trans; [exact Hr |].
          eapply no_restock_trans;
            [apply insert_order_item_no_restock
            | apply deduct_stock_no_restock; lia]. }
        exists y, r, c'. split; [right; exact Hin |].
        split; [exact Hrun |]. split; [exact Hnames | exact Hcm].
    + eexists x, _, _. split; [left; reflexivity |].
      split; [reflexivity |]. split; [| reflexivity].
      exists pid', q', size', price'. split; [exact Hf' |]. left.
      split; [exact Hr' | reflexivity].
Qed.

(** C1.  Checkout is all or nothing across the line items.
    - Whenever some line item of the call refers to a perfume that is
      missing or unavailable in the store, or in stock for less than the
      requested quantity, the call is not answered 201 and the store it
      leaves is the store it found: no order, no order item and no stock
      decrement of the call is kept, whatever was done for earlier items.
    - When the connection opens, no statement raises, the request passes
      the validation, and the items before such a line item are sound
      (fields convert, positive quantity, size accepted), the answer names
      a line item up to and including that one, the one at which the loop
      stopped: 404 with its perfume id when its perfume is missing or
      unavailable, 400 with what is left and the name of its perfume when
      the stock left, after the earlier items, is short. *)
Theorem checkout_all_or_nothing :
  forall (user : Z) (req : request) (e : env) (d : db),
    (forall items it,
        Py.get_or_none "items" (body_of req) = JList items ->
        In it items ->
        lacking rt d it ->
        status (fst (checkout rt user req e d)) <> 201
        /\ snd (checkout rt user req e d) = d)
    /\
    (forall ck header pre it post pid q size price,
        db_up e = true -> fault_at e = None ->
        validate_checkout (body_of req) = Val ck ->
        order_header rt e user (body_of req) ck = Val header ->
        ck_items ck = pre ++ it :: post ->
        Forall (sound_line rt) pre ->
        order_item_fields rt it = Val (pid, q, size, price) ->
        0 < q ->
        (Sql.select_available_perfume pid d = None
         \/ exists p, Sql.select_available_perfume pid d = Some p
                      /\ p_quantity p < q) ->
        exists x,
          In x (pre ++ [it])
          /\ names_line rt d x (fst (checkout rt user req e d))
          /\ snd (checkout rt user req e d) = d).
Proof.
  intros user req e d. split.
  - intros items it Hitems Hin (pid & q & size & price & Hf & Hlack).
    assert (Hno : status (fst (checkout rt user req e d)) <> 201).
    { intros Hok. apply checkout_success in Hok.
      destruct Hok as (ck & header & w2 & w3 & Hv & _ & _ & _ & _ & _ & Hall & _).
      apply validate_checkout_val in Hv.
      destruct Hv as (s & _ & _ & _ & Hi & _).
      rewrite Hitems in Hi. injection Hi as ->.
      rewrite Forall_forall in Hall. specialize (Hall it Hin).
      destruct Hall as (pid' & q' & size' & price' & p & Hf' & _ & Hp & Hle).
      rewrite Hf in Hf'. injection Hf' as <- <- <- <-.
      destruct Hlack as [Hnone | (p' & Hp' & Hshort)].
      - congruence.
      - assert (p' = p) by congruence. subst p'. lia. }
    split; [exact Hno |].
    apply checkout_persists_only_on_success. exact Hno.
  - intros ck header pre it post pid q size price
           Hup Hfault Hv Hh Hitems Hsound Hf Hq Hlack.
    destruct (checkout_items_names
                (Sql.next_order_id d) d pre it post
                (mkConn d (Sql.insert_order (snd header) d) None)
                pid q size price)
      as (x & r & c' & Hin & Hrun & Hnames & Hcm); auto.
    { simpl. exact (no_restock_refl d). }
    assert (Hout : checkout rt user req e d = (r, d)).
    { unfold checkout. fold (body_of req). rewrite Hv.
      unfold with_connection. rewrite Hup, Hfault.
      unfold try_except, checkout_block.
      unfold bind at 1. unfold lift. rewrite Hh.
      unfold bind at 1. rewrite insert_returning_calm by reflexivity. simpl.
      rewrite Hitems. unfold bind at 1. rewrite Hrun. simpl.
      rewrite Hcm. reflexivity. }
    rewrite Hout. simpl.
    exists x. split; [exact Hin |]. split; [exact Hnames | reflexivity].
Qed.

(** *** The rows of a placed order *)

Lemma max_id_bound (l : list Z) :
  Forall (fun x => x <= fold_right Z.max 0 l) l.
Proof.
  induction l as [| x l IH]; constructor; simpl.
  - lia.
  - eapply Forall_impl; [| exact IH]. simpl. intros y Hy. lia.
Qed.

(** The id of a new order is not the id of an order on file. *)
Lemma next_order_id_fresh d o :
  In o (orders d) -> (o_id o =? Sql.next_order_id d) = false.
Proof.
  intros Hin. apply Z.eqb_neq. unfold Sql.next_order_id.
  pose proof (max_id_bound (map o_id (orders d))) as Hb.
  rewrite Forall_forall in Hb.
  specialize (Hb (o_id o) (in_map o_id _ _ Hin)). lia.
Qed.

Lemma update_new_order_status st d (row : Z -> order_row) w :
  o_id (row (Sql.next_order_id d)) = Sql.next_order_id d ->
  orders w = orders d ++ [row (Sql.next_order_id d)] ->
  orders (Sql.update_order_status st (Sql.next_order_id d) w)
  = orders d ++ [Sql.with_status st (row (Sql.next_order_id d))].
Proof.
  intros Hid Hw. unfold Sql.update_order_status. simpl.
  rewrite Hw, map_app. simpl. rewrite Hid, Z.eqb_refl. f_equal.
  rewrite <- (map_id (orders d)) at 2. apply map_ext_in.
  intros o Hin. rewrite (next_order_id_fresh d o Hin). reflexivity.
Qed.

Lemma filter_out_then_in {A} (f : A -> bool) l :
  filter f (filter (fun x => negb (f x)) l) = [].
Proof.
  induction l as [| x l IH]; simpl; [reflexivity |].
  destruct (f x) eqn:E; simpl; [exact IH |].
  rewrite E. exact IH.
Qed.

Lemma substring_length s :
  forall i n, (i + n <= String.length s)%nat ->
              String.length (substring i n s) = n.
Proof.
  induction s as [| ch s IH]; intros i n H; simpl in H.
  - assert (i = 0%nat) by lia. assert (n = 0%nat) by lia. subst. reflexivity.
  - destruct i as [| i]; destruct n as [| n]; simpl.
    + reflexivity.
    + rewrite IH by lia. reflexivity.
    + apply IH. lia.
    + apply IH. lia.
Qed.

(** Of a number that passed the validation four characters are kept. *)
Lemma card_last4_length number :
  (13 <= String.length (Py.remove_spaces number))%nat ->
  String.length (card_last4 number) = 4%nat.
Proof.
  intros H. unfold card_last4, Py.last_chars. apply substring_length. lia.
Qed.

Lemma card_ok_number o :
  card_ok (JObj o) = true ->
  exists number,
    Py.get_or_none "cardNumber" o = JStr number
    /\ (13 <= String.length (Py.remove_spaces number) <= 19)%nat.
Proof.
  unfold card_ok. intros H.
  repeat (apply andb_prop in H; destruct H as [H ?]).
  destruct (Py.get_or_none "cardNumber" o) as [| | | | number | |];
    try discriminate.
  exists number. split; [reflexivity |].
  match goal with
  | H1 : (_ && _)%bool = true |- _ =>
      apply andb_prop in H1; destruct H1 as [Ha Hb]
  end.
  apply Nat.leb_le in Ha. apply Nat.leb_le in Hb. lia.
Qed.

(** The handler's [replace] and [[-4:]] read character by character. *)
Lemma chars_length s :
  List.length (list_ascii_of_string s) = String.length s.
Proof. induction s as [| c s IH]; simpl; [reflexivity | rewrite IH; reflexivity]. Qed.

Lemma chars_remove_spaces s :
  list_ascii_of_string (Py.remove_spaces s) = without_spaces s.
Proof.
  unfold without_spaces. induction s as [| c s IH]; simpl; [reflexivity |].
  destruct (Ascii.eqb c " "); simpl; rewrite IH; reflexivity.
Qed.

Lemma length_remove_spaces s :
  String.length (Py.remove_spaces s) = List.length (without_spaces s).
Proof. rewrite <- chars_remove_spaces, chars_length. reflexivity. Qed.

Lemma chars_substring n m s :
  list_ascii_of_string (substring n m s)
  = firstn m (skipn n (list_ascii_of_string s)).
Proof.
  revert n m. induction s as [| c s IH]; intros n m.
  - destruct n, m; reflexivity.
  - destruct n as [| n]; simpl.
    + destruct m as [| m]; simpl; [reflexivity |].
      rewrite (IH 0%nat m). reflexivity.
    + apply IH.
Qed.

Lemma chars_last_chars n s :
  list_ascii_of_string (Py.last_chars n s)
  = skipn (String.length s - n) (list_ascii_of_string s).
Proof.
  unfold Py.last_chars. rewrite chars_substring.
  apply firstn_all2. rewrite length_skipn, chars_length. lia.
Qed.

Lemma card_last4_masks number :
  (4 <= List.length (without_spaces number))%nat ->
  masks (card_last4 number) number.
Proof.
  intros H. unfold masks, card_last4. split.
  - rewrite <- chars_length, chars_last_chars, length_skipn, chars_length,
      length_remove_spaces. lia.
  - exists (firstn (String.length (Py.remove_spaces number) - 4)
              (without_spaces number)).
    rewrite chars_last_chars, chars_remove_spaces.
    symmetry. apply firstn_skipn.
Qed.

Lemma masks_no_space shown number :
  masks shown number -> ~ In " "%char (list_ascii_of_string shown).
Proof.
  intros (_ & front & Hfront) Hin.
  assert (Hin' : In " "%char (without_spaces number)).
  { rewrite Hfront. apply in_or_app. right. exact Hin. }
  unfold without_spaces in Hin'. apply filter_In in Hin'.
  destruct Hin' as [_ Hb]. discriminate Hb.
Qed.

Lemma masks_digits shown number :
  masks shown number ->
  forallb decimal_digit (without_spaces number) = true ->
  forallb decimal_digit (list_ascii_of_string shown) = true.
Proof.
  intros (_ & front & Hfront) Hd. rewrite Hfront, forallb_app in Hd.
  apply andb_prop in Hd. exact (proj2 Hd).
Qed.

Lemma is_digit_char_decimal c : Py.is_digit_char c = decimal_digit c.
Proof.
  destruct c as [[] [] [] [] [] [] [] []]; reflexivity.
Qed.

Lemma all_digits_decimal s :
  Py.all_digits s = forallb decimal_digit (list_ascii_of_string s).
Proof.
  induction s as [| c s IH]; simpl; [reflexivity |].
  rewrite is_digit_char_decimal, IH. reflexivity.
Qed.

Lemma isdigit_decimal s :
  (Py.isdigit s && ((String.length s =? 3) || (String.length s =? 4))%nat)%bool
  = (forallb decimal_digit (list_ascii_of_string s)
     && ((String.length s =? 3) || (String.length s =? 4))%nat)%bool.
Proof.
  destruct s as [| c s].
  - reflexivity.
  - unfold Py.isdigit. rewrite all_digits_decimal. reflexivity.
Qed.

Lemma card_ok_as_checked cd : card_ok cd = card_as_checked cd.
Proof.
  destruct cd as [| | | | | | o]; try reflexivity.
  unfold card_ok, card_as_checked. cbv zeta.
  destruct (Py.get_or_none "cvv" o) as [| | | | cvv | |];
    destruct (Py.get_or_none "cardNumber" o) as [| | | | number | |];
    rewrite ?isdigit_decimal, ?length_remove_spaces, ?andb_false_r;
    try reflexivity.
  destruct (negb (Py.blank (Py.get_or_none "cardName" o)));
    destruct (negb (Py.blank (JStr number)));
    destruct (negb (Py.blank (Py.get_or_none "expiry" o)));
    destruct (negb (Py.blank (JStr cvv)));
    destruct ((13 <=? List.length (without_spaces number))%nat
              && (List.length (without_spaces number) <=? 19)%nat)%bool;
    reflexivity.
Qed.

Lemma card_as_specified_checked cd :
  card_as_specified cd = true -> card_as_checked cd = true.
Proof.
  destruct cd as [| | | | | | o]; try discriminate.
  unfold card_as_specified, card_as_checked.
  destruct (Py.get_or_none "cardNumber" o) as [| | | | number | |];
    rewrite ?andb_false_r; try discriminate.
  destruct (forallb decimal_digit (without_spaces number));
    [exact (fun H => H) |].
  simpl. rewrite ?andb_false_r. simpl. discriminate.
Qed.

Lemma chars_inj a b :
  list_ascii_of_string a = list_ascii_of_string b -> a = b.
Proof.
  intros H. rewrite <- (string_of_list_ascii_of_string a),
              <- (string_of_list_ascii_of_string b), H. reflexivity.
Qed.

Lemma masks_unique a b number : masks a number -> masks b number -> a = b.
Proof.
  intros (Ha & fa & Hfa) (Hb & fb & Hfb). rewrite Hfa in Hfb.
  assert (Hl : List.length fa = List.length fb).
  { apply (f_equal (@List.length ascii)) in Hfb.
    rewrite !length_app, !chars_length in Hfb. lia. }
  apply (f_equal (skipn (List.length fa))) in Hfb.
  rewrite skipn_app, skipn_all, Nat.sub_diag in Hfb.
  rewrite Hl, skipn_app, skipn_all, Nat.sub_diag in Hfb.
  apply chars_inj. exact Hfb.
Qed.

Lemma masks_card_last4 shown number :
  masks shown number -> card_last4 number = shown.
Proof.
  intros H. apply (masks_unique _ _ number); [| exact H].
  apply card_last4_masks. destruct H as (Hs & front & Hfront).
  rewrite Hfront, length_app, chars_length. lia.
Qed.

(** C6.  A checkout that went through has deleted every cart row of the
    user, whatever perfume the row is for, in the transaction it
    committed; the rows of other users are as before.  A view of the
    user's cart after it selects no row: it answers 200 with an empty list
    (or 500 when the view itself fails). *)
Theorem checkout_clears_cart :
  forall (user : Z) (req : request) (e : env) (d : db),
    status (fst (checkout rt user req e d)) = 201 ->
    carts (snd (checkout rt user req e d))
    = filter (fun r => negb (c_user_id r =? user)) (carts d)
    /\ (forall row, In row (carts (snd (checkout rt user req e d))) ->
                    c_user_id row <> user)
    /\ select_cart_view user (snd (checkout rt user req e d)) = []
    /\ (forall req' e',
           let answer := fst (view_cart user req' e'
                                (snd (checkout rt user req e d))) in
           answer = mkResponse 200 (JObj [("cart_items", JList [])])
           \/ status answer = 500).
Proof.
  intros user req e d Hok.
  destruct (checkout_success user req e d Hok)
    as (ck & header & w2 & w3 & _ & _ & _ & Hcarts & _ & _ & _ & Hsaved & Hout).
  rewrite Hout. simpl.
  assert (Hc3 : carts w3 = carts d).
  { destruct Hsaved as [(_ & card & number & name & expiry & nt & et
                          & _ & _ & _ & _ & _ & _ & ->) | (_ & ->)];
      exact Hcarts. }
  rewrite Hc3.
  assert (Hview : forall w,
             carts w = filter (fun r => negb (c_user_id r =? user)) (carts d) ->
             select_cart_view user w = []).
  { intros w Hw. unfold select_cart_view. rewrite Hw.
    rewrite (filter_out_then_in (fun c => c_user_id c =? user)). reflexivity. }
  split; [reflexivity |]. split; [| split].
  - intros row Hin. apply filter_In in Hin. destruct Hin as [_ Hne].
    apply negb_true_iff in Hne. apply Z.eqb_neq in Hne. exact Hne.
  - apply Hview. simpl. rewrite Hc3. reflexivity.
  - intros req' e'. unfold view_cart, with_connection.
    destruct (db_up e'); [| right; reflexivity].
    unfold try_except, bind, query, tick. simpl.
    destruct (fault_at e') as [[| n] |]; simpl.
    + right. reflexivity.
    + left. rewrite Hview; [reflexivity |]. simpl. rewrite Hc3. reflexivity.
    + left. rewrite Hview; [reflexivity |]. simpl. rewrite Hc3. reflexivity.
Qed.

(** Two requests that pass the validation and differ only in the CVV
    and in the card number before its last four characters run the same
    transaction. *)
Lemma checkout_block_card_secret e user base name expiry n1 n2 cvv1 cvv2
      sh pm items c :
  card_last4 n1 = card_last4 n2 ->
  checkout_block rt e user (card_body base name expiry n1 cvv1)
    (mkChecked sh pm items
       (JObj [("cardName", name); ("cardNumber", JStr n1);
              ("expiry", expiry); ("cvv", JStr cvv1)])) c
  = checkout_block rt e user (card_body base name expiry n2 cvv2)
      (mkChecked sh pm items
         (JObj [("cardName", name); ("cardNumber", JStr n2);
                ("expiry", expiry); ("cvv", JStr cvv2)])) c.
Proof.
  intros Hlast. unfold checkout_block.
  apply bind_ext; [reflexivity |]. intros header c1.
  apply bind_ext; [reflexivity |]. intros oid c2.
  apply bind_ext; [reflexivity |]. intros u3 c3.
  apply bind_ext; [| reflexivity].
  unfold save_card. simpl.
  destruct (pm =? "card")%string; [| reflexivity].
  unfold bind, lift. simpl.
  change (Py.last_chars 4 (Py.remove_spaces n1)) with (card_last4 n1).
  change (Py.last_chars 4 (Py.remove_spaces n2)) with (card_last4 n2).
  rewrite Hlast. reflexivity.
Qed.

(** C3.  The rows of a placed order.  A checkout answered 201 has filed
    exactly one new order, under a fresh id, for the user, with the
    payment method in lower case and the final status: "cod_pending" for
    "cod", with no payment row added; "paid" for "card", with exactly one
    payment row added, made of the order id, the holder name, the expiry
    and, of the card number, the text [shown] that masks it: exactly four
    characters, the last four of the characters of the number that are not
    spaces.  [shown] holds no space, and it is made of digits whenever the
    number is made of digits and spaces; the handler accepts numbers with
    other characters, and then stores the last four of those.
    Neither the CVV nor the rest of the number reaches the store or the
    answer: two accepted checkouts that differ only in them end in the
    same store with the same answer. *)
Theorem checkout_final_status_and_masked_card :
  (forall (user : Z) (req : request) (e : env) (d : db),
      status (fst (checkout rt user req e d)) = 201 ->
      exists ck header order,
        validate_checkout (body_of req) = Val ck
        /\ order_header rt e user (body_of req) ck = Val header
        /\ fst (checkout rt user req e d)
           = order_placed (Sql.next_order_id d) (ck_payment_method ck)
               (fst header)
        /\ orders (snd (checkout rt user req e d)) = orders d ++ [order]
        /\ o_id order = Sql.next_order_id d
        /\ o_user_id order = user
        /\ o_payment_method order = ck_payment_method ck
        /\ ((ck_payment_method ck = "cod"
             /\ o_status order = "cod_pending"
             /\ payment_details (snd (checkout rt user req e d))
                = payment_details d)
            \/ (ck_payment_method ck = "card"
                /\ o_status order = "paid"
                /\ exists card number name_text expiry_text shown,
                     card_details_of req = JObj card
                     /\ Py.get_or_none "cardNumber" card = JStr number
                     /\ sql_text rt (Py.get_or_none "cardName" card)
                        = Some name_text
                     /\ sql_text rt (Py.get_or_none "expiry" card)
                        = Some expiry_text
                     /\ masks shown number
                     /\ ~ In " "%char (list_ascii_of_string shown)
                     /\ (forallb decimal_digit (without_spaces number) = true ->
                         forallb decimal_digit (list_ascii_of_string shown)
                         = true)
                     /\ payment_details (snd (checkout rt user req e d))
                        = payment_details d
                          ++ [mkPayment (Sql.next_order_id d) "card"
                                shown name_text expiry_text (now e)])))
  /\
  (forall (user : Z) (e : env) (d : db) (req1 req2 : request) (base : dict)
          (name expiry : json) (n1 n2 cvv1 cvv2 shown : string),
      json_body req1 = Some (card_body base name expiry n1 cvv1) ->
      json_body req2 = Some (card_body base name expiry n2 cvv2) ->
      masks shown n1 ->
      masks shown n2 ->
      status (fst (checkout rt user req1 e d)) = 201 ->
      status (fst (checkout rt user req2 e d)) = 201 ->
      checkout rt user req1 e d = checkout rt user req2 e d).
Proof.
  split.
  - intros user req e d Hok.
    destruct (checkout_success user req e d Hok)
      as (ck & header & w2 & w3 & Hv & Hh & Horders & Hcarts & Hpd & _ & _
          & Hsaved & Hout).
    pose proof (validate_checkout_val _ _ Hv)
      as (s & _ & Hpm & Hcases & _ & _ & _ & Hcd & Hcheck).
    destruct (order_header_val _ _ _ _ _ Hh (Sql.next_order_id d))
      as (Hid & Huser & Hmethod & _).
    exists ck, header,
      (Sql.with_status (final_status (ck_payment_method ck))
         (snd header (Sql.next_order_id d))).
    rewrite Hout. simpl fst. simpl snd.
    assert (Ho3 : orders w3 = orders w2 /\
                  (ck_payment_method ck <> "card" ->
                   payment_details w3 = payment_details w2)).
    { destruct Hsaved as [(Hc & card & number & name & expiry & nt & et
                            & _ & _ & _ & _ & _ & _ & Hw) | (_ & Hw)];
        rewrite Hw.
      - split; [reflexivity |]. intros Hne. contradiction.
      - split; reflexivity. }
    split; [exact Hv |]. split; [exact Hh |]. split; [reflexivity |].
    split.
    { apply update_new_order_status; [exact Hid |].
      simpl. rewrite (proj1 Ho3). exact Horders. }
    split; [exact Hid |]. split; [exact Huser |]. split; [exact Hmethod |].
    rewrite Hpm in *. destruct Hcases as [Hcard | Hcod].
    + right. rewrite Hcard in *. split; [reflexivity |].
      split; [reflexivity |].
      destruct Hsaved as [(_ & card & number & name & expiry & nt & et
                            & Hcard_details & Hnum & Hname & Hexp & Hnt & Het
                            & ->) | (Hne & _)]; [| contradiction].
      assert (Hok' : card_ok (JObj card) = true).
      { apply check_card_ok. rewrite <- Hcard_details. apply Hcheck.
        reflexivity. }
      destruct (card_ok_number card Hok') as (digits & Hdigits & Hlen).
      assert (Hnumber : number = JStr digits).
      { unfold Py.get_or_none in Hdigits. rewrite Hnum in Hdigits.
        exact Hdigits. }
      subst number.
      assert (Hmasks : masks (card_last4 digits) digits).
      { apply card_last4_masks. rewrite <- length_remove_spaces. lia. }
      exists card, digits, nt, et, (card_last4 digits).
      split. { unfold card_details_of. rewrite <- Hcd. exact Hcard_details. }
      split. { unfold Py.get_or_none. rewrite Hnum. reflexivity. }
      split. { unfold Py.get_or_none. rewrite Hname. exact Hnt. }
      split. { unfold Py.get_or_none. rewrite Hexp. exact Het. }
      split; [exact Hmasks |].
      split; [exact (masks_no_space _ _ Hmasks) |].
      split; [exact (masks_digits _ _ Hmasks) |].
      simpl. rewrite Hpd. reflexivity.
    + left. rewrite Hcod in *. split; [reflexivity |].
      split; [reflexivity |].
      simpl. rewrite (proj2 Ho3) by discriminate. exact Hpd.
  - intros user e d req1 req2 base name expiry n1 n2 cvv1 cvv2 shown
           Hb1 Hb2 Hm1 Hm2 Hok1 Hok2.
    assert (Hlast : card_last4 n1 = card_last4 n2).
    { rewrite (masks_card_last4 _ _ Hm1), (masks_card_last4 _ _ Hm2).
      reflexivity. }
    destruct (checkout_success user req1 e d Hok1)
      as (ck1 & _ & _ & _ & Hv1 & _).
    destruct (checkout_success user req2 e d Hok2)
      as (ck2 & _ & _ & _ & Hv2 & _).
    unfold body_of in Hv1, Hv2. rewrite Hb1 in Hv1. rewrite Hb2 in Hv2.
    pose proof (validate_checkout_val _ _ Hv1)
      as (s1 & Hs1 & Hpm1 & _ & Hi1 & _ & Hsh1 & Hcd1 & _).
    pose proof (validate_checkout_val _ _ Hv2)
      as (s2 & Hs2 & Hpm2 & _ & Hi2 & _ & Hsh2 & Hcd2 & _).
    unfold card_body in Hs1, Hs2, Hi1, Hi2, Hsh1, Hsh2, Hcd1, Hcd2.
    unfold Py.get_or_none in Hs1, Hs2, Hi1, Hi2, Hsh1, Hsh2.
    simpl in Hs1, Hs2, Hi1, Hi2, Hsh1, Hsh2, Hcd1, Hcd2.
    destruct ck1 as [sh1 pm1 items1 cd1]. destruct ck2 as [sh2 pm2 items2 cd2].
    simpl in *.
    rewrite Hs1 in Hs2. injection Hs2 as <-.
    rewrite Hi1 in Hi2. injection Hi2 as <-.
    rewrite Hsh1 in Hsh2. injection Hsh2 as <-.
    subst pm1 pm2 cd1 cd2.
    unfold checkout. rewrite Hb1, Hb2, Hv1, Hv2.
    unfold with_connection. destruct (db_up e); [| reflexivity].
    unfold try_except.
    rewrite (checkout_block_card_secret e user base name expiry n1 n2 cvv1 cvv2
               sh1 (Py.lower s1) items1 _ Hlast).
    reflexivity.
Qed.

(** A turn of the checkout loop for a line item whose quantity is not
    positive. *)
Lemma checkout_item_not_positive oid it next c pid q size price :
  order_item_fields rt it = Val (pid, q, size, price) ->
  q <= 0 ->
  checkout_item rt oid it next c
  = (Ret (error_response 400 "Quantity must be positive"), c).
Proof.
  intros Hf Hq. unfold checkout_item. rewrite Hf.
  assert (Hle : (q <=? 0) = true) by (apply Z.leb_le; exact Hq).
  rewrite Hle. reflexivity.
Qed.

(** C10.  POST /cart does not check the sign of a quantity.
    - An addition is accepted whenever existing + requested does not
      exceed the stock, whatever the sign of the requested quantity, and
      the entry then holds that total.
    - So a cart whose quantities are all positive can be left with an
      entry that is zero or negative: an addition of -5 to an entry of 2.
    - Checkout, by contrast, never goes through with a line item whose
      quantity is zero or negative: the turn of such an item returns
      "Quantity must be positive" and the store stays as it was. *)
Theorem cart_quantity_sign_unchecked :
  (forall (e : env) (user : Z) (req : request) (item : json) (pid qty : Z)
          (size : json) (p : perfume) (ks : option string) (d : db),
      db_up e = true -> fault_at e = None ->
      posted_items req = JList [item] ->
      cart_item_fields rt item = Val (pid, qty, size) ->
      Sql.select_available_perfume pid d = Some p ->
      sql_text rt (effective_size size p) = Some ks ->
      cart_quantity user pid ks d + qty <= p_quantity p ->
      status (fst (add_to_cart rt user req e d)) = 201
      /\ Sql.select_cart_quantity user pid ks (snd (add_to_cart rt user req e d))
         = Some (cart_quantity user pid ks d + qty))
  /\
  (exists (user : Z) (req : request) (e : env) (d : db),
      Forall (fun row => 0 < c_quantity row) (carts d)
      /\ status (fst (add_to_cart rt user req e d)) = 201
      /\ exists row,
           In row (carts (snd (add_to_cart rt user req e d)))
           /\ c_quantity row <= 0)
  /\
  (forall (user : Z) (req : request) (e : env) (d : db) (items : list json)
          (it : json) (pid q : Z) (size : json) (price : Q),
      Py.get_or_none "items" (body_of req) = JList items ->
      In it items ->
      order_item_fields rt it = Val (pid, q, size, price) ->
      q <= 0 ->
      status (fst (checkout rt user req e d)) <> 201
      /\ snd (checkout rt user req e d) = d)
  /\
  (forall (oid : Z) (it : json) (next : M unit) (c : conn) (pid q : Z)
          (size : json) (price : Q),
      order_item_fields rt it = Val (pid, q, size, price) ->
      q <= 0 ->
      checkout_item rt oid it next c
      = (Ret (error_response 400 "Quantity must be positive"), c)).
Proof.
  assert (Hone : forall e user req item pid qty size p ks d,
             db_up e = true -> fault_at e = None ->
             posted_items req = JList [item] ->
             cart_item_fields rt item = Val (pid, qty, size) ->
             Sql.select_available_perfume pid d = Some p ->
             sql_text rt (effective_size size p) = Some ks ->
             cart_quantity user pid ks d + qty <= p_quantity p ->
             add_to_cart rt user req e d
             = (accepted_answer pid (effective_size size p)
                  (cart_quantity user pid ks d + qty),
                Sql.upsert_cart user pid (cart_quantity user pid ks d + qty) ks
                  (now e) d)).
  { intros e user req item pid qty size p ks d Hup Hfault Hbody Hf Hp Hs Hle.
    rewrite (add_to_cart_single rt e user req item pid qty size p ks d
               Hup Hfault Hbody Hf Hp Hs).
    assert (Hgt : (cart_quantity user pid ks d + qty >? p_quantity p) = false).
    { rewrite Z.gtb_ltb. apply Z.ltb_ge. exact Hle. }
    rewrite Hgt. reflexivity. }
  split; [| split; [| split]].
  - intros e user req item pid qty size p ks d Hup Hfault Hbody Hf Hp Hs Hle.
    rewrite (Hone e user req item pid qty size p ks d) by assumption.
    split; [reflexivity |]. simpl. apply upsert_cart_quantity.
  - exists 7, (Demo.cart_post [cart_line 5 (-5) JNull]), Demo.calm,
      Demo.store_with_cart.
    split.
    { repeat constructor. }
    rewrite (Hone Demo.calm 7 (Demo.cart_post [cart_line 5 (-5) JNull])
               (cart_line 5 (-5) JNull) 5 (-5) JNull Demo.rose (Some "50ml")
               Demo.store_with_cart)
      by (reflexivity || (vm_compute; discriminate)).
    split; [reflexivity |].
    eexists. split; [left; reflexivity |]. vm_compute. discriminate.
  - intros user req e d items it pid q size price Hitems Hin Hf Hq.
    assert (Hno : status (fst (checkout rt user req e d)) <> 201).
    { intros Hok. apply checkout_success in Hok.
      destruct Hok as (ck & header & w2 & w3 & Hv & _ & _ & _ & _ & _ & Hall & _).
      apply validate_checkout_val in Hv.
      destruct Hv as (s & _ & _ & _ & Hi & _).
      rewrite Hitems in Hi. injection Hi as ->.
      rewrite Forall_forall in Hall. specialize (Hall it Hin).
      destruct Hall as (pid' & q' & size' & price' & p & Hf' & Hpos & _).
      rewrite Hf in Hf'. injection Hf' as <- <- <- <-. lia. }
    split; [exact Hno |].
    apply checkout_persists_only_on_success. exact Hno.
  - intros oid it next c pid q size price.
    apply checkout_item_not_positive.
Qed.


End Checkout.

(** ** Order administration and the recent orders *)

Section Orders.

Variable rt : runtime.

Lemma in_strings_In s l : in_strings s l = true <-> In s l.
Proof.
  unfold in_strings. rewrite existsb_exists. split.
  - intros (x & Hin & Heq). apply String.eqb_eq in Heq. subst x. exact Hin.
  - intros Hin. exists s. split; [exact Hin | apply String.eqb_refl].
Qed.

(** After [UPDATE orders SET status = st WHERE id = id] every order with
    that id has the status, whatever it had, and the others are as they
    were. *)
Lemma update_order_status_rows st id d :
  (forall row, In row (orders (Sql.update_order_status st id d)) ->
               o_id row = id -> o_status row = st)
  /\ (forall row, o_id row <> id ->
                  (In row (orders (Sql.update_order_status st id d))
                   <-> In row (orders d))).
Proof.
  unfold Sql.update_order_status. simpl. split.
  - intros row Hin Hid. apply in_map_iff in Hin.
    destruct Hin as (o & Ho & _).
    destruct (o_id o =? id) eqn:E.
    + subst row. reflexivity.
    + subst row. apply Z.eqb_neq in E. contradiction.
  - intros row Hne. rewrite in_map_iff. split.
    + intros (o & Ho & Hin). destruct (o_id o =? id) eqn:E.
      * subst row. simpl in Hne. apply Z.eqb_eq in E. contradiction.
      * subst row. exact Hin.
    + intros Hin. exists row. split; [| exact Hin].
      apply Z.eqb_neq in Hne. rewrite Hne. reflexivity.
Qed.

(** C7.  PATCH /admin/orders/<order_id>/status.  The requested status is
    read from the body, the form or the query string and normalized
    (stripped, lower case).
    - Without a status, or with a normalized status outside {pending, paid,
      cod_pending, shipped, delivered, cancelled}, the call is answered 400
      and the store is untouched.
    - With an allowed status, on a connection that opens and does not
      raise: 404 "Order not found" and an untouched store when no order
      has the id; otherwise 200, and the update is applied without looking
      at the current status: every order with the id has the new status,
      whatever status it had. *)
Theorem status_update_policy :
  forall (order_id : Z) (req : request) (e : env) (d : db),
    let new_status := Py.lower (Py.strip (py_str rt (requested_status req))) in
    let out := admin_update_order_status rt order_id req e d in
    (requested_status req = JNull -> status (fst out) = 400 /\ snd out = d)
    /\
    (requested_status req <> JNull ->
     ~ In new_status allowed_statuses ->
     status (fst out) = 400 /\ snd out = d)
    /\
    (requested_status req <> JNull ->
     In new_status allowed_statuses ->
     db_up e = true -> fault_at e = None ->
     Sql.select_order order_id d = None ->
     fst out = error_response 404 "Order not found" /\ snd out = d)
    /\
    (requested_status req <> JNull ->
     In new_status allowed_statuses ->
     db_up e = true -> fault_at e = None ->
     forall current, Sql.select_order order_id d = Some current ->
       fst out = mkResponse 200 (JObj [("message", JStr "Status updated");
                                       ("new_status", JStr new_status)])
       /\ snd out = Sql.update_order_status new_status order_id d
       /\ (forall row, In row (orders (snd out)) -> o_id row = order_id ->
                       o_status row = new_status)).
Proof.
  intros order_id req e d. cbv zeta.
  unfold admin_update_order_status.
  destruct (requested_status req) as [| b | n | q | s | l | o] eqn:Hreq;
    (split; [| split; [| split]]);
    try (intros Hv; contradiction);
    try (intros Hv; discriminate Hv);
    try (intros _; split; reflexivity).
  all: try (intros _ Hbad;
            match goal with
            | |- context [in_strings ?st allowed_statuses] =>
                assert (Hin : in_strings st allowed_statuses = false)
                  by (destruct (in_strings st allowed_statuses) eqn:E;
                      [apply in_strings_In in E; contradiction | reflexivity]);
                rewrite Hin
            end;
            split; reflexivity).
  all: try (intros _ Hok Hup Hfault Hnone;
            apply in_strings_In in Hok; rewrite Hok;
            unfold with_connection; rewrite Hup, Hfault;
            unfold try_except, bind; rewrite query_calm by reflexivity;
            simpl; rewrite Hnone; split; reflexivity).
  all: intros _ Hok Hup Hfault current Hsome;
       apply in_strings_In in Hok; rewrite Hok;
       unfold with_connection; rewrite Hup, Hfault;
       unfold try_except, bind; rewrite query_calm by reflexivity;
       simpl; rewrite Hsome;
       rewrite execute_calm by reflexivity;
       rewrite commit_calm by reflexivity; simpl;
       split; [reflexivity |]; split; [reflexivity |];
       apply update_order_status_rows.
Qed.

(** *** GET /recent-orders *)

Lemma recent_limit_clamped req :
  recent_limit rt req = Z.max 1 (Z.min 20 (requested_limit rt req)).
Proof.
  unfold recent_limit, requested_limit.
  set (n := match arg "limit" (args req) with
            | Some s => match int_of_str rt s with Some n => n | None => 5 end
            | None => 5
            end).
  destruct (n <? 1) eqn:E1.
  - apply Z.ltb_lt in E1. simpl. lia.
  - apply Z.ltb_ge in E1. destruct (n >? 20) eqn:E2.
    + rewrite Z.gtb_ltb in E2. apply Z.ltb_lt in E2. lia.
    + rewrite Z.gtb_ltb in E2. apply Z.ltb_ge in E2. lia.
Qed.

Lemma recent_order_loop_nil req result :
  recent_order_loop rt req [] result = ret result.
Proof. reflexivity. Qed.

Lemma recent_order_loop_cons req order rest result :
  recent_order_loop rt req (order :: rest) result =
    bind (query (select_order_lines (o_id order)))
      (fun items =>
         recent_order_loop rt req rest
           (result ++ [recent_order_data rt req order items])).
Proof. reflexivity. Qed.

Lemma keeps_recent_order_loop req orders :
  forall result, keeps (recent_order_loop rt req orders result).
Proof.
  induction orders as [| order rest IH]; intro result.
  - rewrite recent_order_loop_nil. auto with keeps.
  - rewrite recent_order_loop_cons. apply keeps_bind; [auto with keeps |].
    intro. apply IH.
Qed.

Lemma for_recent_order_loop req orders :
  forall result, falls_or_raises (recent_order_loop rt req orders result).
Proof.
  induction orders as [| order rest IH]; intro result.
  - rewrite recent_order_loop_nil. auto with keeps.
  - rewrite recent_order_loop_cons. apply for_bind; [auto with keeps |].
    intro. apply IH.
Qed.

Lemma recent_order_loop_val req orders :
  forall result c listing c',
    recent_order_loop rt req orders result c = (Val listing, c') ->
    List.length listing = (List.length result + List.length orders)%nat.
Proof.
  induction orders as [| order rest IH]; intros result c listing c' H.
  - rewrite recent_order_loop_nil in H. injection H as <- _. simpl. lia.
  - rewrite recent_order_loop_cons in H. inv_bind H.
    apply IH in H. rewrite length_app in H. simpl in *. lia.
Qed.

(** A statement raises before the loop is through. *)
Lemma recent_order_loop_fault req orders :
  forall result cm w k,
    (k < List.length orders)%nat ->
    exists c',
      recent_order_loop rt req orders result (mkConn cm w (Some k))
      = (Exc DBError, c').
Proof.
  induction orders as [| order rest IH]; intros result cm w k Hk;
    simpl in Hk; [lia |].
  rewrite recent_order_loop_cons. unfold bind, query, tick. simpl.
  destruct k as [| k].
  - eexists. reflexivity.
  - simpl. apply IH. lia.
Qed.


End Orders.

(* ================================================================== *)
(** * The statements at work on the example store *)
(* ================================================================== *)

(** A Customer token on an Admin-only endpoint, an Admin token on a
    Customer-only endpoint, and a prefixed value on both and on the
    dashboard. *)
Lemma token_role_enforcement_witness :
  admin_required Demo.rt (fun _ => admin_update_order_status Demo.rt 1)
    (Demo.with_token "alice-token") Demo.calm Demo.store_with_order
  = (error_response 403 "Access denied — Admin only", Demo.store_with_order)
  /\ jwt_required Demo.rt (checkout Demo.rt)
       (Demo.with_token "admin-token") Demo.calm Demo.store_with_cart
     = (error_response 403 "Access denied — Customer only", Demo.store_with_cart)
  /\ Py.startswith "bearer " (Py.lower "BeArEr alice-token") = true
  /\ jwt_required Demo.rt (checkout Demo.rt)
       (Demo.with_token "BeArEr alice-token") Demo.calm Demo.store_with_cart
     = (error_response 401 "Use raw token, not Bearer", Demo.store_with_cart)
  /\ status (dashboard Demo.rt (Demo.with_token "BeArEr alice-token")) = 401.
Proof.
  split; [| split; [| split; [| split]]].
  - destruct (token_role_enforcement Demo.rt
                (Demo.with_token "alice-token") "alice-token"
                (fun _ => admin_update_order_status Demo.rt 1)
                Demo.calm Demo.store_with_order eq_refl) as (H & _ & _).
    apply (H (mkClaims 7 "alice" 2)); reflexivity.
  - destruct (token_role_enforcement Demo.rt
                (Demo.with_token "admin-token") "admin-token"
                (checkout Demo.rt) Demo.calm Demo.store_with_cart eq_refl)
      as (H & _ & _).
    apply (H (mkClaims 1 "root" 1)); reflexivity.
  - reflexivity.
  - destruct (token_role_enforcement Demo.rt
                (Demo.with_token "BeArEr alice-token") "BeArEr alice-token"
                (checkout Demo.rt) Demo.calm Demo.store_with_cart eq_refl)
      as (_ & H & _).
    apply H. reflexivity.
  - destruct (token_role_enforcement Demo.rt
                (Demo.with_token "BeArEr alice-token") "BeArEr alice-token"
                (checkout Demo.rt) Demo.calm Demo.store_with_cart eq_refl)
      as (_ & _ & H).
    apply H. intros data. vm_compute. discriminate.
Defined.

(** The scenario of the spec: user 7 adds 2, then 3, then 10 bottles of
    perfume 5 (stock 10) to an empty cart. *)
Lemma cart_additions_accumulate_witness :
  Sql.select_available_perfume 5 Demo.store = Some Demo.rose
  /\ (cart_rows 7 5 (Some "50ml") Demo.store <= 1)%nat
  /\ (let run := add_calls Demo.rt 7
                   [Demo.cart_post [Demo.buy 5 2];
                    Demo.cart_post [Demo.buy 5 3];
                    Demo.cart_post [Demo.buy 5 10]]
                   Demo.calm Demo.store in
      fst run = [accepted_answer 5 (JStr "50ml") 2;
                 accepted_answer 5 (JStr "50ml") 5;
                 rejected_answer 5 10 5]
      /\ cart_quantity 7 5 (Some "50ml") (snd run) = 5
      /\ (cart_rows 7 5 (Some "50ml") (snd run) <= 1)%nat
      /\ (cart_rows 7 5 (Some "50ml") Demo.store = 1%nat
          \/ (exists a, In a (fst run) /\ status a = 201) ->
          cart_rows 7 5 (Some "50ml") (snd run) = 1%nat))
  /\ body (rejected_answer 5 10 5)
     = JObj [("errors",
              JList [JObj [("perfume_id", JInt 5);
                           ("error", JStr "Only 10 in stock (you have 5)")]])].
Proof.
  split; [reflexivity |]. split; [vm_compute; lia |]. split; [| reflexivity].
  apply (cart_additions_accumulate Demo.rt Demo.calm 7 5 JNull Demo.rose
           (Some "50ml") [2; 3; 10]
           [Demo.cart_post [Demo.buy 5 2];
            Demo.cart_post [Demo.buy 5 3];
            Demo.cart_post [Demo.buy 5 10]]
           Demo.store);
    try reflexivity.
  - vm_compute. lia.
  - repeat constructor;
      eexists; (split; [reflexivity | reflexivity]).
Defined.


(** An order of two bottles of perfume 5 and three of perfume 6, of which
    two are in stock: nothing is kept, and the answer names the second
    line. *)
Lemma checkout_all_or_nothing_witness :
  lacking Demo.rt Demo.store_with_cart (Demo.order_line 6 3)
  /\ (let out := checkout Demo.rt 7
                   (Demo.cod_order [Demo.order_line 5 2; Demo.order_line 6 3])
                   Demo.calm Demo.store_with_cart in
      (status (fst out) <> 201 /\ snd out = Demo.store_with_cart)
      /\ (exists x,
             In x ([Demo.order_line 5 2] ++ [Demo.order_line 6 3])
             /\ names_line Demo.rt Demo.store_with_cart x (fst out)
             /\ snd out = Demo.store_with_cart)
      /\ fst out = error_response 400 "Only 2 left of Musk").
Proof.
  assert (Hlack : lacking Demo.rt Demo.store_with_cart (Demo.order_line 6 3)).
  { exists 6, 3, JNull, (inject_Z 49). split; [reflexivity |].
    right. exists Demo.musk. split; [reflexivity | simpl; lia]. }
  split; [exact Hlack |]. cbv zeta.
  destruct (checkout_all_or_nothing Demo.rt 7
              (Demo.cod_order [Demo.order_line 5 2; Demo.order_line 6 3])
              Demo.calm Demo.store_with_cart) as (H1 & H2).
  split; [| split; [| reflexivity]].
  - apply (H1 [Demo.order_line 5 2; Demo.order_line 6 3] (Demo.order_line 6 3)).
    + reflexivity.
    + right. left. reflexivity.
    + exact Hlack.
  - eapply (H2 _ _ [Demo.order_line 5 2] (Demo.order_line 6 3) []
              6 3 JNull (inject_Z 49)).
    + reflexivity.
    + reflexivity.
    + vm_compute. reflexivity.
    + vm_compute. reflexivity.
    + reflexivity.
    + constructor; [| constructor].
      exists 5, 2, JNull, (inject_Z 49), None.
      split; [reflexivity |]. split; [lia | reflexivity].
    + reflexivity.
    + lia.
    + right. exists Demo.musk. split; [reflexivity | simpl; lia].
Defined.

(** A card order with the number "4111 1111 1111 12 34", whose last four
    characters as typed are "2 34": the row kept is "1234", the last four
    characters other than spaces, and another number that ends alike with
    another CVV leaves the same store.  The number "4111 1111 1111 1111"
    is kept as "1111". *)
Lemma checkout_final_status_and_masked_card_witness :
  status (fst (checkout Demo.rt 7
                 (Demo.card_order [Demo.order_line 5 2]
                    "4111 1111 1111 12 34" "123")
                 Demo.calm Demo.store_with_cart)) = 201
  /\ (exists order shown,
         orders (snd (checkout Demo.rt 7
                        (Demo.card_order [Demo.order_line 5 2]
                           "4111 1111 1111 12 34" "123")
                        Demo.calm Demo.store_with_cart)) = [] ++ [order]
         /\ o_status order = "paid"
         /\ masks shown "4111 1111 1111 12 34"
         /\ payment_details
              (snd (checkout Demo.rt 7
                      (Demo.card_order [Demo.order_line 5 2]
                         "4111 1111 1111 12 34" "123")
                      Demo.calm Demo.store_with_cart))
            = [] ++ [mkPayment 1 "card" shown (Some "Alice Rao")
                       (Some "12/30") 1000])
  /\ payment_details
       (snd (checkout Demo.rt 7
               (Demo.card_order [Demo.order_line 5 2]
                  "4111 1111 1111 12 34" "123")
               Demo.calm Demo.store_with_cart))
     = [mkPayment 1 "card" "1234" (Some "Alice Rao") (Some "12/30") 1000]
  /\ payment_details
       (snd (checkout Demo.rt 7
               (Demo.card_order [Demo.order_line 5 2]
                  "4111 1111 1111 1111" "123")
               Demo.calm Demo.store_with_cart))
     = [mkPayment 1 "card" "1111" (Some "Alice Rao") (Some "12/30") 1000]
  /\ masks "1234" "4111 1111 1111 12 34"
  /\ masks "1234" "5500 0000 00001 2 3 4"
  /\ checkout Demo.rt 7
       (Demo.card_order [Demo.order_line 5 2] "4111 1111 1111 12 34" "123")
       Demo.calm Demo.store_with_cart
     = checkout Demo.rt 7
         (Demo.card_order [Demo.order_line 5 2] "5500 0000 00001 2 3 4" "9876")
         Demo.calm Demo.store_with_cart.
Proof.
  destruct (checkout_final_status_and_masked_card Demo.rt) as (H1 & H2).
  assert (Hm1 : masks "1234" "4111 1111 1111 12 34").
  { split; [reflexivity |].
    exists (list_ascii_of_string "411111111111"). reflexivity. }
  assert (Hm2 : masks "1234" "5500 0000 00001 2 3 4").
  { split; [reflexivity |].
    exists (list_ascii_of_string "550000000000"). reflexivity. }
  split; [vm_compute; reflexivity |].
  split; [| split; [vm_compute; reflexivity |
                    split; [vm_compute; reflexivity |
                            split; [exact Hm1 | split; [exact Hm2 |]]]]].
  - destruct (H1 7 (Demo.card_order [Demo.order_line 5 2]
                      "4111 1111 1111 12 34" "123")
                Demo.calm Demo.store_with_cart)
      as (ck & header & order & _ & _ & _ & Horders & _ & _ & Hpm & Hcases).
    + vm_compute. reflexivity.
    + assert (Hm : o_payment_method order = "card").
      { vm_compute in Horders. injection Horders as <-. reflexivity. }
      destruct Hcases as [(Hcod & _) | (_ & Hpaid & card & number & nt & et
                                         & shown & Hcd & Hnum & Hnt & Het
                                         & Hmasks & _ & _ & Hrows)].
      { exfalso. rewrite Hpm, Hcod in Hm. discriminate Hm. }
      exists order, shown. split; [exact Horders |]. split; [exact Hpaid |].
      vm_compute in Hcd. injection Hcd as <-.
      vm_compute in Hnum. injection Hnum as <-.
      vm_compute in Hnt. injection Hnt as <-.
      vm_compute in Het. injection Het as <-.
      split; [exact Hmasks |]. exact Hrows.
  - apply (H2 7 Demo.calm Demo.store_with_cart _ _
             (Demo.order_base "card" [Demo.order_line 5 2])
             (JStr "Alice Rao") (JStr "12/30")
             "4111 1111 1111 12 34" "5500 0000 00001 2 3 4" "123" "9876"
             "1234");
      try reflexivity; try assumption; vm_compute; reflexivity.
Defined.

(** C3 with "the last 4 digits" fails here.  A card order whose number
    is fourteen letters is answered 201, and the payment row keeps "klmn":
    the last four characters of the number, none of them a digit. *)
Lemma stored_card_tail_need_not_be_digits :
  status (fst (checkout Demo.rt 7
                 (Demo.card_order [Demo.order_line 5 2]
                    "abcdefghijklmn" "123")
                 Demo.calm Demo.store_with_cart)) = 201
  /\ payment_details
       (snd (checkout Demo.rt 7
               (Demo.card_order [Demo.order_line 5 2]
                  "abcdefghijklmn" "123")
               Demo.calm Demo.store_with_cart))
     = [mkPayment 1 "card" "klmn" (Some "Alice Rao") (Some "12/30") 1000]
  /\ masks "klmn" "abcdefghijklmn"
  /\ existsb decimal_digit (list_ascii_of_string "klmn") = false.
Proof.
  split; [vm_compute; reflexivity |].
  split; [vm_compute; reflexivity |].
  split; [| reflexivity].
  split; [reflexivity |].
  exists (list_ascii_of_string "abcdefghij"). reflexivity.
Qed.



(** After the order of user 7 the cart of user 7 is empty, also of the
    perfume that was not ordered; the row of user 9 is still there. *)
Lemma checkout_clears_cart_witness :
  status (fst (checkout Demo.rt 7 (Demo.cod_order [Demo.order_line 6 1])
                 Demo.calm Demo.store_with_cart)) = 201
  /\ carts (snd (checkout Demo.rt 7 (Demo.cod_order [Demo.order_line 6 1])
                   Demo.calm Demo.store_with_cart))
     = filter (fun r => negb (c_user_id r =? 7)) (carts Demo.store_with_cart)
  /\ select_cart_view 7
       (snd (checkout Demo.rt 7 (Demo.cod_order [Demo.order_line 6 1])
               Demo.calm Demo.store_with_cart)) = []
  /\ carts (snd (checkout Demo.rt 7 (Demo.cod_order [Demo.order_line 6 1])
                   Demo.calm Demo.store_with_cart))
     = [mkCart 2 9 6 1 None 950].
Proof.
  assert (Hok : status (fst (checkout Demo.rt 7
                               (Demo.cod_order [Demo.order_line 6 1])
                               Demo.calm Demo.store_with_cart)) = 201)
    by (vm_compute; reflexivity).
  destruct (checkout_clears_cart Demo.rt 7
              (Demo.cod_order [Demo.order_line 6 1])
              Demo.calm Demo.store_with_cart Hok) as (H1 & _ & H3 & _).
  split; [exact Hok |]. split; [exact H1 |]. split; [exact H3 |].
  vm_compute. reflexivity.
Defined.

(** An addition of -5 to an entry of 2 is accepted and leaves -3; an
    order with a quantity of 0 is not. *)
Lemma cart_quantity_sign_unchecked_witness :
  cart_quantity 7 5 (Some "50ml") Demo.store_with_cart + -5
  <= p_quantity Demo.rose
  /\ (status (fst (add_to_cart Demo.rt 7 (Demo.cart_post [Demo.buy 5 (-5)])
                     Demo.calm Demo.store_with_cart)) = 201
      /\ Sql.select_cart_quantity 7 5 (Some "50ml")
           (snd (add_to_cart Demo.rt 7 (Demo.cart_post [Demo.buy 5 (-5)])
                   Demo.calm Demo.store_with_cart))
         = Some (cart_quantity 7 5 (Some "50ml") Demo.store_with_cart + -5))
  /\ cart_quantity 7 5 (Some "50ml") Demo.store_with_cart + -5 = -3
  /\ (status (fst (checkout Demo.rt 7 (Demo.cod_order [Demo.order_line 5 0])
                     Demo.calm Demo.store_with_cart)) <> 201
      /\ snd (checkout Demo.rt 7 (Demo.cod_order [Demo.order_line 5 0])
                Demo.calm Demo.store_with_cart) = Demo.store_with_cart).
Proof.
  destruct (cart_quantity_sign_unchecked Demo.rt) as (H1 & _ & H3 & _).
  assert (Hle : cart_quantity 7 5 (Some "50ml") Demo.store_with_cart + -5
                <= p_quantity Demo.rose) by (vm_compute; discriminate).
  split; [exact Hle |]. split; [| split; [reflexivity |]].
  - apply (H1 Demo.calm 7 (Demo.cart_post [Demo.buy 5 (-5)])
             (Demo.buy 5 (-5)) 5 (-5) JNull Demo.rose (Some "50ml")
             Demo.store_with_cart); try reflexivity. exact Hle.
  - apply (H3 7 (Demo.cod_order [Demo.order_line 5 0]) Demo.calm
             Demo.store_with_cart [Demo.order_line 5 0] (Demo.order_line 5 0)
             5 0 JNull (inject_Z 49)).
    + reflexivity.
    + left. reflexivity.
    + reflexivity.
    + lia.
Defined.

(** The scenario of the spec: order 999 does not exist; and order 1, which
    is "cod_pending", is set back to "pending" by a request for
    " Pending ". *)
Lemma status_update_policy_witness :
  Sql.select_order 999 Demo.store_with_order = None
  /\ admin_update_order_status Demo.rt 999
       (Demo.post [("status", JStr "shipped")]) Demo.calm Demo.store_with_order
     = (error_response 404 "Order not found", Demo.store_with_order)
  /\ map o_status (orders Demo.store_with_order) = ["cod_pending"]
  /\ fst (admin_update_order_status Demo.rt 1
            (Demo.post [("status", JStr " Pending ")]) Demo.calm
            Demo.store_with_order)
     = mkResponse 200 (JObj [("message", JStr "Status updated");
                             ("new_status", JStr "pending")])
  /\ map o_status
       (orders (snd (admin_update_order_status Demo.rt 1
                       (Demo.post [("status", JStr " Pending ")]) Demo.calm
                       Demo.store_with_order)))
     = ["pending"]
  /\ status (fst (admin_update_order_status Demo.rt 1
                    (Demo.post [("status", JStr "refunded")]) Demo.calm
                    Demo.store_with_order)) = 400.
Proof.
  split; [reflexivity |]. split; [| split; [reflexivity |]].
  - destruct (status_update_policy Demo.rt 999
                (Demo.post [("status", JStr "shipped")]) Demo.calm
                Demo.store_with_order) as (_ & _ & H & _).
    cbv zeta in H.
    destruct (H ltac:(discriminate) ltac:(vm_compute; auto 10)
                eq_refl eq_refl eq_refl) as (Hr & Hd).
    rewrite <- Hr. rewrite <- Hd at 3. apply surjective_pairing.
  - destruct (status_update_policy Demo.rt 1
                (Demo.post [("status", JStr " Pending ")]) Demo.calm
                Demo.store_with_order) as (_ & _ & _ & H).
    cbv zeta in H.
    destruct (H ltac:(discriminate) ltac:(vm_compute; auto 10)
                eq_refl eq_refl
                (Sql.with_status "cod_pending"
                   (mkOrder 1 7 (inject_Z 98) (inject_Z 10) (inject_Z 5)
                      "Alice" "Rao" "alice@example.com" "555" "1 Main St"
                      "Hyderabad" "TS" "500001" "cod" "pending" 1000))
                eq_refl) as (Hr & Hd & _).
    split; [exact Hr |]. split; [rewrite Hd; reflexivity |].
    destruct (status_update_policy Demo.rt 1
                (Demo.post [("status", JStr "refunded")]) Demo.calm
                Demo.store_with_order) as (_ & H2 & _).
    cbv zeta in H2. apply H2; [discriminate |].
    vm_compute. intros Hin.
    repeat (destruct Hin as [Hin | Hin]; [discriminate Hin |]).
    exact Hin.
Defined.


(* ================================================================== *)
(** * Further properties: cart and orders *)
(* ================================================================== *)

(** ** Rows in descending order *)

Section Ordering.

Context {A : Type} (key : A -> Z).

Lemma insert_desc_perm x l : Permutation (insert_desc key x l) (x :: l).
Proof.
  induction l as [| y l IH]; simpl.
  - apply Permutation_refl.
  - destruct (key y <? key x).
    + apply Permutation_refl.
    + eapply Permutation_trans; [apply perm_skip; exact IH | apply perm_swap].
Qed.

Lemma order_by_desc_perm l : Permutation (order_by_desc key l) l.
Proof.
  induction l as [| x l IH]; simpl.
  - apply perm_nil.
  - eapply Permutation_trans; [apply insert_desc_perm |].
    apply perm_skip. exact IH.
Qed.

Lemma order_by_desc_In x l : In x (order_by_desc key l) <-> In x l.
Proof.
  split; apply Permutation_in.
  - apply order_by_desc_perm.
  - apply Permutation_sym, order_by_desc_perm.
Qed.

Lemma order_by_desc_length l :
  List.length (order_by_desc key l) = List.length l.
Proof. apply Permutation_length, order_by_desc_perm. Qed.

Lemma insert_desc_sorted x l :
  StronglySorted (fun a b => key b <= key a) l ->
  StronglySorted (fun a b => key b <= key a) (insert_desc key x l).
Proof.
  induction l as [| y l IH]; intros Hs; simpl.
  - constructor; constructor.
  - inversion Hs as [| y' l' Hl Hy]; subst.
    destruct (key y <? key x) eqn:E.
    + apply Z.ltb_lt in E. constructor; [exact Hs |].
      constructor; [lia |].
      eapply Forall_impl; [| exact Hy]. simpl. intros z Hz. lia.
    + apply Z.ltb_ge in E. constructor; [apply IH; exact Hl |].
      rewrite Forall_forall. intros z Hz.
      apply (Permutation_in _ (insert_desc_perm x l)) in Hz.
      destruct Hz as [<- | Hz]; [exact E |].
      rewrite Forall_forall in Hy. apply Hy. exact Hz.
Qed.

Lemma order_by_desc_sorted l :
  StronglySorted (fun a b => key b <= key a) (order_by_desc key l).
Proof.
  induction l as [| x l IH]; simpl.
  - constructor.
  - apply insert_desc_sorted. exact IH.
Qed.

(** With distinct keys there is one descending arrangement only. *)
Lemma descending_unique l1 :
  forall l2,
    NoDup (map key l2) -> Permutation l1 l2 ->
    StronglySorted (fun a b => key b <= key a) l1 ->
    StronglySorted (fun a b => key b <= key a) l2 ->
    l1 = l2.
Proof.
  induction l1 as [| x l1 IH]; intros l2 Hnd Hp Hs1 Hs2.
  - apply Permutation_nil in Hp. symmetry. exact Hp.
  - destruct l2 as [| y l2].
    { apply Permutation_sym, Permutation_nil in Hp. discriminate Hp. }
    inversion Hs1 as [| x' l1' Hs1' Hx]; subst.
    inversion Hs2 as [| y' l2' Hs2' Hy]; subst.
    inversion Hnd as [| k ks Hk Hnd']; subst.
    rewrite Forall_forall in Hx, Hy.
    assert (Hxy : x = y).
    { assert (Hin_x : In x (y :: l2))
        by (apply (Permutation_in _ Hp); left; reflexivity).
      assert (Hin_y : In y (x :: l1))
        by (apply (Permutation_in _ (Permutation_sym Hp)); left; reflexivity).
      destruct Hin_x as [-> | Hin_x]; [reflexivity |].
      destruct Hin_y as [<- | Hin_y]; [reflexivity |].
      exfalso. apply Hk.
      replace (key y) with (key x)
        by (specialize (Hx y Hin_y); specialize (Hy x Hin_x); lia).
      apply in_map. exact Hin_x. }
    subst y. f_equal.
    apply IH; [exact Hnd' | | exact Hs1' | exact Hs2'].
    apply (Permutation_cons_inv Hp).
Qed.

Lemma order_by_desc_unique l rows :
  NoDup (map key l) -> Permutation rows l ->
  StronglySorted (fun a b => key b <= key a) rows ->
  rows = order_by_desc key l.
Proof.
  intros Hnd Hp Hs. apply descending_unique.
  - apply (Permutation_NoDup (l := map key l)); [| exact Hnd].
    apply Permutation_map, Permutation_sym, order_by_desc_perm.
  - eapply Permutation_trans; [exact Hp |].
    apply Permutation_sym, order_by_desc_perm.
  - exact Hs.
  - apply order_by_desc_sorted.
Qed.

End Ordering.

(** ** What a connection leaves behind *)

Lemma with_connection_keeps e unavailable block d :
  keeps block -> snd (with_connection e unavailable block d) = d.
Proof.
  intros K. unfold with_connection. destruct (db_up e); [| reflexivity].
  specialize (K (mkConn d d (fault_at e))).
  destruct (block (mkConn d d (fault_at e))) as [[r | r | ex] c]; exact K.
Qed.

Lemma set_carts_same d : set_carts (carts d) d = d.
Proof. destruct d. reflexivity. Qed.

(** ** DELETE /cart/<perfume_id> *)

Lemma cart_line_of_true user pid r :
  cart_line_of user pid r = true <-> c_user_id r = user /\ c_perfume_id r = pid.
Proof.
  unfold cart_line_of. rewrite andb_true_iff, !Z.eqb_eq. reflexivity.
Qed.

Lemma filter_none {A} (f : A -> bool) l :
  (forall x, In x l -> f x = false) -> filter f l = [].
Proof.
  induction l as [| x l IH]; intros H; simpl; [reflexivity |].
  rewrite (H x (or_introl eq_refl)). apply IH.
  intros y Hy. apply H. right. exact Hy.
Qed.

Lemma filter_all {A} (f : A -> bool) l :
  (forall x, In x l -> f x = true) -> filter f l = l.
Proof.
  induction l as [| x l IH]; intros H; simpl; [reflexivity |].
  rewrite (H x (or_introl eq_refl)). f_equal. apply IH.
  intros y Hy. apply H. right. exact Hy.
Qed.

(** The number of rows the DELETE removes is zero exactly when the user
    has no row for the perfume. *)
Lemma delete_cart_lines_none user pid d :
  fst (delete_cart_lines user pid d) = 0%nat
  <-> (forall r, In r (carts d) -> c_user_id r = user -> c_perfume_id r <> pid).
Proof.
  unfold delete_cart_lines. simpl. split.
  - intros H r Hin Hu Hp.
    assert (Hf : In r (filter (cart_line_of user pid) (carts d))).
    { apply filter_In. split; [exact Hin |].
      apply cart_line_of_true. split; assumption. }
    destruct (filter (cart_line_of user pid) (carts d));
      [contradiction | discriminate H].
  - intros H. rewrite filter_none; [reflexivity |].
    intros r Hin. destruct (cart_line_of user pid r) eqn:E; [| reflexivity].
    apply cart_line_of_true in E. destruct E as [Hu Hp].
    exfalso. exact (H r Hin Hu Hp).
Qed.

Lemma remove_from_cart_calm pid user req e d :
  db_up e = true -> fault_at e = None ->
  remove_from_cart pid user req e d =
    if (fst (delete_cart_lines user pid d) =? 0)%nat
    then (error_response 404 "Item not in your cart", d)
    else (mkResponse 200 (JObj [("message", JStr "Item removed")]),
          snd (delete_cart_lines user pid d)).
Proof.
  intros Hup Hf. unfold remove_from_cart, with_connection. rewrite Hup, Hf.
  unfold try_except, bind, execute_rowcount.
  rewrite insert_returning_calm by reflexivity.
  unfold delete_cart_lines. simpl.
  destruct (List.length (filter (cart_line_of user pid) (carts d)) =? 0)%nat;
    reflexivity.
Qed.

(** Whatever the connection does, the call either changes nothing or
    answers 200 after the DELETE was committed. *)
Lemma remove_from_cart_cases pid user req e d :
  (status (fst (remove_from_cart pid user req e d)) <> 200
   /\ snd (remove_from_cart pid user req e d) = d)
  \/ (fst (remove_from_cart pid user req e d)
      = mkResponse 200 (JObj [("message", JStr "Item removed")])
      /\ snd (remove_from_cart pid user req e d)
         = snd (delete_cart_lines user pid d)
      /\ fst (delete_cart_lines user pid d) <> 0%nat).
Proof.
  unfold remove_from_cart, with_connection.
  destruct (db_up e); [| left; split; [discriminate | reflexivity]].
  unfold try_except, bind, execute_rowcount, insert_returning, commit, tick.
  destruct (fault_at e) as [[| [| n]] |]; simpl.
  - left. split; [discriminate | reflexivity].
  - destruct (List.length (filter (cart_line_of user pid) (carts d)) =? 0)%nat;
      simpl; left; split; try discriminate; reflexivity.
  - destruct (List.length (filter (cart_line_of user pid) (carts d)) =? 0)%nat
      eqn:E; simpl.
    + left. split; [discriminate | reflexivity].
    + right. apply Nat.eqb_neq in E. repeat split. exact E.
  - destruct (List.length (filter (cart_line_of user pid) (carts d)) =? 0)%nat
      eqn:E; simpl.
    + left. split; [discriminate | reflexivity].
    + right. apply Nat.eqb_neq in E. repeat split. exact E.
Qed.

(** X1.  DELETE /cart/<perfume_id> on a connection that works.  When the
    user has no cart row for the perfume the answer is 404 "Item not in
    your cart" and the store is as before.  Otherwise the answer is 200
    and every cart row of that user for that perfume is gone, whatever its
    size; every other cart row, and every other table, is as before. *)
Theorem remove_from_cart_effect :
  forall (pid user : Z) (req : request) (e : env) (d : db),
    db_up e = true -> fault_at e = None ->
    ((forall r, In r (carts d) -> c_user_id r = user -> c_perfume_id r <> pid) ->
     remove_from_cart pid user req e d
     = (error_response 404 "Item not in your cart", d))
    /\
    ((exists r, In r (carts d) /\ c_user_id r = user /\ c_perfume_id r = pid) ->
     fst (remove_from_cart pid user req e d)
     = mkResponse 200 (JObj [("message", JStr "Item removed")])
     /\ (forall r,
            In r (carts (snd (remove_from_cart pid user req e d)))
            <-> In r (carts d)
                /\ ~ (c_user_id r = user /\ c_perfume_id r = pid))
     /\ perfumes (snd (remove_from_cart pid user req e d)) = perfumes d
     /\ orders (snd (remove_from_cart pid user req e d)) = orders d
     /\ order_items (snd (remove_from_cart pid user req e d)) = order_items d
     /\ payment_details (snd (remove_from_cart pid user req e d))
        = payment_details d).
Proof.
  intros pid user req e d Hup Hf.
  rewrite (remove_from_cart_calm pid user req e d Hup Hf). split.
  - intros Hnone. apply delete_cart_lines_none in Hnone.
    rewrite Hnone. reflexivity.
  - intros (r0 & Hin & Hu & Hp).
    destruct (fst (delete_cart_lines user pid d) =? 0)%nat eqn:E.
    + apply Nat.eqb_eq in E.
      exfalso. exact (proj1 (delete_cart_lines_none user pid d) E r0 Hin Hu Hp).
    + simpl. split; [reflexivity |]. split; [| repeat split].
      intros r. rewrite filter_In. split.
      * intros [Hr Hn]. split; [exact Hr |]. intros Hm.
        apply cart_line_of_true in Hm. rewrite Hm in Hn. discriminate Hn.
      * intros [Hr Hn]. split; [exact Hr |].
        destruct (cart_line_of user pid r) eqn:Em; [| reflexivity].
        apply cart_line_of_true in Em. contradiction.
Qed.

(** User 7 removes perfume 5 from the cart: the row of user 9 stays; and
    perfume 6, which user 7 does not hold, is answered 404. *)
Lemma remove_from_cart_effect_witness :
  remove_from_cart 6 7 (Demo.with_token "alice-token") Demo.calm
    Demo.store_with_cart
  = (error_response 404 "Item not in your cart", Demo.store_with_cart)
  /\ fst (remove_from_cart 5 7 (Demo.with_token "alice-token") Demo.calm
            Demo.store_with_cart)
     = mkResponse 200 (JObj [("message", JStr "Item removed")])
  /\ carts (snd (remove_from_cart 5 7 (Demo.with_token "alice-token")
                   Demo.calm Demo.store_with_cart))
     = [mkCart 2 9 6 1 None 950].
Proof.
  split; [| split].
  - apply (remove_from_cart_effect 6 7 (Demo.with_token "alice-token")
             Demo.calm Demo.store_with_cart eq_refl eq_refl).
    intros r [<- | [<- | []]]; simpl; intros H; [discriminate | discriminate H].
  - apply (remove_from_cart_effect 5 7 (Demo.with_token "alice-token")
             Demo.calm Demo.store_with_cart eq_refl eq_refl).
    exists (mkCart 1 7 5 2 (Some "50ml") 900).
    split; [left; reflexivity | split; reflexivity].
  - vm_compute. reflexivity.
Defined.

(** X2.  DELETE /cart/<perfume_id>, whatever the connection does.  The
    store changes only when the answer is 200.  Without a connection the
    answer is 500 "Server error"; when the DELETE raises, or when the
    commit raises after rows were deleted, the answer is 500 "Database
    error" and the rows are still in the cart. *)
Theorem remove_from_cart_failures :
  forall (pid user : Z) (req : request) (e : env) (d : db),
    (status (fst (remove_from_cart pid user req e d)) <> 200 ->
     snd (remove_from_cart pid user req e d) = d)
    /\ (db_up e = false ->
        remove_from_cart pid user req e d
        = (error_response 500 "Server error", d))
    /\ (db_up e = true -> fault_at e = Some 0%nat ->
        remove_from_cart pid user req e d
        = (error_response 500 "Database error", d))
    /\ (db_up e = true -> fault_at e = Some 1%nat ->
        (exists r, In r (carts d) /\ c_user_id r = user /\ c_perfume_id r = pid) ->
        remove_from_cart pid user req e d
        = (error_response 500 "Database error", d)).
Proof.
  intros pid user req e d. split; [| split; [| split]].
  - intros Hno.
    destruct (remove_from_cart_cases pid user req e d) as [[_ H] | [H _]].
    + exact H.
    + rewrite H in Hno. exfalso. apply Hno. reflexivity.
  - intros Hdown. unfold remove_from_cart, with_connection.
    rewrite Hdown. reflexivity.
  - intros Hup Hf. unfold remove_from_cart, with_connection.
    rewrite Hup, Hf. reflexivity.
  - intros Hup Hf (r & Hin & Hu & Hp).
    unfold remove_from_cart, with_connection. rewrite Hup, Hf.
    unfold try_except, bind, execute_rowcount, insert_returning, commit, tick.
    simpl.
    destruct (List.length (filter (cart_line_of user pid) (carts d)) =? 0)%nat
      eqn:E; [| reflexivity].
    apply Nat.eqb_eq in E. exfalso.
    exact (proj1 (delete_cart_lines_none user pid d) E r Hin Hu Hp).
Qed.

(** The commit fails after the row of user 7 was deleted: the row is
    still there. *)
Lemma remove_from_cart_failures_witness :
  remove_from_cart 5 7 (Demo.with_token "alice-token")
    (mkEnv true (Some 1%nat) 1000) Demo.store_with_cart
  = (error_response 500 "Database error", Demo.store_with_cart)
  /\ remove_from_cart 5 7 (Demo.with_token "alice-token")
       (mkEnv false None 1000) Demo.store_with_cart
     = (error_response 500 "Server error", Demo.store_with_cart).
Proof.
  destruct (remove_from_cart_failures 5 7 (Demo.with_token "alice-token")
              (mkEnv true (Some 1%nat) 1000) Demo.store_with_cart)
    as (_ & _ & _ & Hcommit).
  destruct (remove_from_cart_failures 5 7 (Demo.with_token "alice-token")
              (mkEnv false None 1000) Demo.store_with_cart)
    as (_ & Hdown & _).
  split.
  - apply Hcommit; try reflexivity.
    exists (mkCart 1 7 5 2 (Some "50ml") 900).
    split; [left; reflexivity | split; reflexivity].
  - apply Hdown. reflexivity.
Defined.

(** ** GET /cart *)

Lemma view_cart_cases user req e d :
  view_cart user req e d =
    if db_up e then
      match fault_at e with
      | Some O => (error_response 500 "Failed to load cart", d)
      | _ =>
          (mkResponse 200
             (JObj [("cart_items",
                     JList (map (cart_view_item req) (select_cart_view user d)))]),
           d)
      end
    else (error_response 500 "Server error", d).
Proof.
  unfold view_cart, with_connection.
  destruct (db_up e); [| reflexivity].
  destruct (fault_at e) as [[| n] |]; reflexivity.
Qed.

(** The join of the listing: a cart row of the user with a perfume row
    of the same id. *)
Lemma select_cart_view_In user d c p :
  In (c, p) (select_cart_view user d)
  <-> In c (carts d) /\ c_user_id c = user
      /\ In p (perfumes d) /\ p_id p = c_perfume_id c.
Proof.
  unfold select_cart_view. rewrite order_by_desc_In, in_flat_map. split.
  - intros (c' & Hc & Hin). apply filter_In in Hc. destruct Hc as [Hc Hu].
    apply in_map_iff in Hin. destruct Hin as (p' & Heq & Hp).
    injection Heq as -> ->. apply filter_In in Hp. destruct Hp as [Hp Hid].
    apply Z.eqb_eq in Hu. apply Z.eqb_eq in Hid. auto.
  - intros (Hc & Hu & Hp & Hid). exists c. split.
    + apply filter_In. split; [exact Hc | apply Z.eqb_eq; exact Hu].
    + apply in_map_iff. exists p. split; [reflexivity |].
      apply filter_In. split; [exact Hp | apply Z.eqb_eq; exact Hid].
Qed.

(** An item of the answer of GET /cart comes from a row of the join. *)
Lemma view_cart_items user req e d item :
  In item (json_elements
             (json_field "cart_items" (body (fst (view_cart user req e d))))) ->
  exists c p, item = cart_view_item req (c, p)
              /\ In (c, p) (select_cart_view user d).
Proof.
  rewrite view_cart_cases.
  destruct (db_up e); [| intros []].
  destruct (fault_at e) as [[| n] |]; simpl; try (intros []; fail);
    intros Hin; apply in_map_iff in Hin;
    destruct Hin as ([c p] & Heq & Hin); exists c, p; auto.
Qed.

Lemma view_cart_calm_items user req e d :
  db_up e = true -> fault_at e = None ->
  json_elements (json_field "cart_items" (body (fst (view_cart user req e d))))
  = map (cart_view_item req) (select_cart_view user d).
Proof. intros Hup Hf. rewrite view_cart_cases, Hup, Hf. reflexivity. Qed.

(** X3.  A second removal finds nothing.  After a removal answered 200 the
    user has no cart row for the perfume: the same call on a connection
    that works is answered 404 and changes nothing, and no item of the
    user's cart view names the perfume. *)
Theorem remove_from_cart_twice :
  forall (pid user : Z) (req req' : request) (e e' : env) (d : db),
    status (fst (remove_from_cart pid user req e d)) = 200 ->
    (forall r, In r (carts (snd (remove_from_cart pid user req e d))) ->
               c_user_id r = user -> c_perfume_id r <> pid)
    /\ (db_up e' = true -> fault_at e' = None ->
        remove_from_cart pid user req' e'
          (snd (remove_from_cart pid user req e d))
        = (error_response 404 "Item not in your cart",
           snd (remove_from_cart pid user req e d)))
    /\ (forall item,
           In item (json_elements
                      (json_field "cart_items"
                         (body (fst (view_cart user req' e'
                                       (snd (remove_from_cart pid user req e d)))))))
           -> json_field "perfume_id" item <> JInt pid).
Proof.
  intros pid user req req' e e' d Hok.
  destruct (remove_from_cart_cases pid user req e d) as [[Hno _] | (_ & Hd & _)];
    [contradiction |].
  rewrite Hd.
  assert (Hgone : forall r,
             In r (carts (snd (delete_cart_lines user pid d))) ->
             c_user_id r = user -> c_perfume_id r <> pid).
  { intros r Hin Hu Hp. simpl in Hin. apply filter_In in Hin.
    destruct Hin as [_ Hn].
    assert (Hm : cart_line_of user pid r = true)
      by (apply cart_line_of_true; split; assumption).
    rewrite Hm in Hn. discriminate Hn. }
  split; [exact Hgone |]. split.
  - intros Hup Hf. rewrite (remove_from_cart_calm _ _ _ _ _ Hup Hf).
    apply delete_cart_lines_none in Hgone. rewrite Hgone. reflexivity.
  - intros item Hin. apply view_cart_items in Hin.
    destruct Hin as (c & p & -> & Hin).
    apply select_cart_view_In in Hin. destruct Hin as (Hc & Hu & _).
    simpl. intros Heq. injection Heq as Heq.
    exact (Hgone c Hc Hu Heq).
Qed.

Lemma remove_from_cart_twice_witness :
  remove_from_cart 5 7 (Demo.with_token "alice-token") Demo.calm
    (snd (remove_from_cart 5 7 (Demo.with_token "alice-token") Demo.calm
            Demo.store_with_cart))
  = (error_response 404 "Item not in your cart",
     snd (remove_from_cart 5 7 (Demo.with_token "alice-token") Demo.calm
            Demo.store_with_cart)).
Proof.
  apply (remove_from_cart_twice 5 7 (Demo.with_token "alice-token")
           (Demo.with_token "alice-token") Demo.calm Demo.calm
           Demo.store_with_cart);
    reflexivity.
Defined.

(** X4.  GET /cart never writes.  Without a connection it answers 500
    "Server error", when the SELECT raises 500 "Failed to load cart".
    Otherwise it answers 200 with one item for each pair of a cart row of
    the user and a perfume row of the same id (a cart row whose perfume row
    is gone is not shown, a row of another user never is), the newest
    addition first, and each item says [in_stock] exactly when its quantity
    does not exceed its stock. *)
Theorem view_cart_lists_own_rows :
  forall (user : Z) (req : request) (e : env) (d : db),
    snd (view_cart user req e d) = d
    /\ (db_up e = false ->
        fst (view_cart user req e d) = error_response 500 "Server error")
    /\ (db_up e = true -> fault_at e = Some 0%nat ->
        fst (view_cart user req e d) = error_response 500 "Failed to load cart")
    /\ (db_up e = true -> fault_at e <> Some 0%nat ->
        exists rows,
          fst (view_cart user req e d)
          = mkResponse 200
              (JObj [("cart_items", JList (map (cart_view_item req) rows))])
          /\ (forall c p,
                 In (c, p) rows
                 <-> In c (carts d) /\ c_user_id c = user
                     /\ In p (perfumes d) /\ p_id p = c_perfume_id c)
          /\ StronglySorted
               (fun a b => c_added_at (fst b) <= c_added_at (fst a)) rows)
    /\ (forall item,
           In item (json_elements
                      (json_field "cart_items"
                         (body (fst (view_cart user req e d))))) ->
           exists q s,
             json_field "quantity" item = JInt q
             /\ json_field "stock" item = JInt s
             /\ json_field "in_stock" item = JBool (q <=? s)).
Proof.
  intros user req e d. split; [| split; [| split; [| split]]].
  - rewrite view_cart_cases. destruct (db_up e); [| reflexivity].
    destruct (fault_at e) as [[| n] |]; reflexivity.
  - intros H. rewrite view_cart_cases, H. reflexivity.
  - intros Hup Hf. rewrite view_cart_cases, Hup, Hf. reflexivity.
  - intros Hup Hf. exists (select_cart_view user d).
    split; [| split].
    + rewrite view_cart_cases, Hup.
      destruct (fault_at e) as [[| n] |]; try reflexivity.
      exfalso. apply Hf. reflexivity.
    + intros c p. apply select_cart_view_In.
    + unfold select_cart_view.
      apply (order_by_desc_sorted
               (fun cp : cart_row * perfume => c_added_at (fst cp))).
  - intros item Hin. apply view_cart_items in Hin.
    destruct Hin as (c & p & -> & _).
    exists (c_quantity c), (p_quantity p). repeat split.
Qed.

(** The cart of user 7 holds one line; the SELECT that raises is answered
    500. *)
Lemma view_cart_lists_own_rows_witness :
  fst (view_cart 7 (Demo.with_token "alice-token")
         (mkEnv true (Some 0%nat) 1000) Demo.store_with_cart)
  = error_response 500 "Failed to load cart"
  /\ listed "cart_items" "perfume_id"
       (fst (view_cart 7 (Demo.with_token "alice-token") Demo.calm
               Demo.store_with_cart))
     = [JInt 5].
Proof.
  split.
  - apply (view_cart_lists_own_rows 7 (Demo.with_token "alice-token")
             (mkEnv true (Some 0%nat) 1000) Demo.store_with_cart);
      reflexivity.
  - vm_compute. reflexivity.
Defined.

(** ** The cart across calls *)

Lemma upsert_rows_fresh fresh rows :
  (forall r, In r rows ->
             Sql.cart_key_match (c_user_id fresh) (c_perfume_id fresh)
               (c_size fresh) r = false) ->
  Sql.upsert_rows fresh rows = rows ++ [fresh].
Proof.
  induction rows as [| r rows IH]; intros H; simpl; [reflexivity |].
  rewrite (H r (or_introl eq_refl)). f_equal. apply IH.
  intros r' Hr'. apply H. right. exact Hr'.
Qed.

Lemma cart_key_match_line user pid size r :
  Sql.cart_key_match user pid size r = true -> cart_line_of user pid r = true.
Proof.
  unfold Sql.cart_key_match, cart_line_of. intros H.
  apply andb_prop in H. destruct H as [H _]. exact H.
Qed.

(** A user without a row for the perfume has none under any size. *)
Lemma no_line_no_key user pid size rows :
  (forall r, In r rows -> c_user_id r = user -> c_perfume_id r <> pid) ->
  forall r, In r rows -> Sql.cart_key_match user pid size r = false.
Proof.
  intros H r Hin. destruct (Sql.cart_key_match user pid size r) eqn:E;
    [| reflexivity].
  apply cart_key_match_line, cart_line_of_true in E. destruct E as [Hu Hp].
  exfalso. exact (H r Hin Hu Hp).
Qed.

Lemma find_none_all {A} (f : A -> bool) l :
  (forall x, In x l -> f x = false) -> find f l = None.
Proof.
  induction l as [| x l IH]; intros H; simpl; [reflexivity |].
  rewrite (H x (or_introl eq_refl)). apply IH.
  intros y Hy. apply H. right. exact Hy.
Qed.

Section CartAcrossCalls.

Variable rt : runtime.

(** X5.  Adding and removing is a round trip.  When the user holds no row
    for a perfume, an addition of an available perfume within the stock
    is answered 201, and the removal of that perfume that follows is
    answered 200 and leaves the store exactly as it was before the
    addition. *)
Theorem add_then_remove_restores :
  forall (e e' : env) (user : Z) (req req' : request) (item : json)
         (pid qty : Z) (size : json) (p : perfume) (ks : option string)
         (d : db),
    db_up e = true -> fault_at e = None ->
    db_up e' = true -> fault_at e' = None ->
    posted_items req = JList [item] ->
    cart_item_fields rt item = Val (pid, qty, size) ->
    Sql.select_available_perfume pid d = Some p ->
    sql_text rt (effective_size size p) = Some ks ->
    (forall r, In r (carts d) -> c_user_id r = user -> c_perfume_id r <> pid) ->
    qty <= p_quantity p ->
    status (fst (add_to_cart rt user req e d)) = 201
    /\ remove_from_cart pid user req' e' (snd (add_to_cart rt user req e d))
       = (mkResponse 200 (JObj [("message", JStr "Item removed")]), d).
Proof.
  intros e e' user req req' item pid qty size p ks d
         Hup Hf Hup' Hf' Hreq Hfields Hp Hs Hnone Hq.
  rewrite (add_to_cart_single rt e user req item pid qty size p ks d
             Hup Hf Hreq Hfields Hp Hs).
  assert (Hzero : cart_quantity user pid ks d = 0).
  { unfold cart_quantity, Sql.select_cart_quantity.
    rewrite (find_none_all _ _ (no_line_no_key user pid ks (carts d) Hnone)).
    reflexivity. }
  rewrite Hzero.
  assert (Hle : (0 + qty >? p_quantity p) = false).
  { rewrite Z.gtb_ltb. apply Z.ltb_ge. lia. }
  rewrite Hle. simpl fst. simpl snd. split; [reflexivity |].
  rewrite (remove_from_cart_calm _ _ _ _ _ Hup' Hf').
  unfold delete_cart_lines, Sql.upsert_cart. simpl.
  rewrite upsert_rows_fresh
    by (simpl; apply no_line_no_key; exact Hnone).
  rewrite !filter_app. simpl.
  unfold cart_line_of at 2 4. simpl. rewrite !Z.eqb_refl. simpl.
  rewrite (filter_none (cart_line_of user pid)).
  2: { intros r Hin. destruct (cart_line_of user pid r) eqn:E; [| reflexivity].
       apply cart_line_of_true in E. destruct E as [Hu Hpid].
       exfalso. exact (Hnone r Hin Hu Hpid). }
  rewrite (filter_all (fun r => negb (cart_line_of user pid r))).
  2: { intros r Hin. destruct (cart_line_of user pid r) eqn:E; [| reflexivity].
       apply cart_line_of_true in E. destruct E as [Hu Hpid].
       exfalso. exact (Hnone r Hin Hu Hpid). }
  simpl. rewrite app_nil_r. destruct d. reflexivity.
Qed.

(** X6.  An accepted addition shows in the cart.  After a POST /cart with
    one item that was answered 201, GET /cart on a connection that works
    lists an item with that perfume id whose quantity is the new total,
    whose stock is the stock of the perfume, and which is in stock. *)
Theorem added_item_is_viewed :
  forall (e e' : env) (user : Z) (req req' : request) (item : json)
         (pid qty : Z) (size : json) (p : perfume) (ks : option string)
         (d : db),
    db_up e = true -> fault_at e = None ->
    db_up e' = true -> fault_at e' = None ->
    posted_items req = JList [item] ->
    cart_item_fields rt item = Val (pid, qty, size) ->
    Sql.select_available_perfume pid d = Some p ->
    sql_text rt (effective_size size p) = Some ks ->
    status (fst (add_to_cart rt user req e d)) = 201 ->
    exists shown,
      In shown (json_elements
                  (json_field "cart_items"
                     (body (fst (view_cart user req' e'
                                   (snd (add_to_cart rt user req e d)))))))
      /\ json_field "perfume_id" shown = JInt pid
      /\ json_field "quantity" shown = JInt (cart_quantity user pid ks d + qty)
      /\ json_field "stock" shown = JInt (p_quantity p)
      /\ json_field "in_stock" shown = JBool true.
Proof.
  intros e e' user req req' item pid qty size p ks d
         Hup Hf Hup' Hf' Hreq Hfields Hp Hs Hok.
  rewrite (add_to_cart_single rt e user req item pid qty size p ks d
             Hup Hf Hreq Hfields Hp Hs) in *.
  destruct (cart_quantity user pid ks d + qty >? p_quantity p) eqn:Hover;
    [discriminate Hok |].
  simpl snd.
  set (total := cart_quantity user pid ks d + qty) in *.
  set (d1 := Sql.upsert_cart user pid total ks (now e) d).
  pose proof (upsert_cart_quantity user pid total ks (now e) d) as Hq.
  fold d1 in Hq. unfold Sql.select_cart_quantity in Hq.
  destruct (find (Sql.cart_key_match user pid ks) (carts d1)) as [c |] eqn:Hfind;
    [| discriminate Hq].
  injection Hq as Hq.
  apply find_some in Hfind. destruct Hfind as [Hin Hkey].
  apply cart_key_match_line, cart_line_of_true in Hkey.
  destruct Hkey as [Hu Hpid].
  unfold Sql.select_available_perfume in Hp. apply find_some in Hp.
  destruct Hp as [Hpin Hpid'].
  apply andb_prop in Hpid'. destruct Hpid' as [Hpid' _].
  apply Z.eqb_eq in Hpid'.
  exists (cart_view_item req' (c, p)). split.
  - rewrite (view_cart_calm_items user req' e' d1 Hup' Hf').
    apply in_map. apply select_cart_view_In.
    split; [exact Hin |]. split; [exact Hu |]. split; [exact Hpin |].
    rewrite Hpid. exact Hpid'.
  - rewrite Z.gtb_ltb in Hover. apply Z.ltb_ge in Hover.
    apply Z.leb_le in Hover.
    split; [| split; [| split]].
    + change (JInt (c_perfume_id c) = JInt pid). rewrite Hpid. reflexivity.
    + change (JInt (c_quantity c) = JInt total). rewrite Hq. reflexivity.
    + reflexivity.
    + change (JBool (c_quantity c <=? p_quantity p) = JBool true).
      rewrite Hq, Hover. reflexivity.
Qed.

End CartAcrossCalls.

(** User 9 adds two bottles of perfume 5 and removes them again. *)
Lemma add_then_remove_restores_witness :
  status (fst (add_to_cart Demo.rt 9 (Demo.cart_post [Demo.buy 5 2]) Demo.calm
                 Demo.store_with_cart)) = 201
  /\ remove_from_cart 5 9 (Demo.with_token "bob-token") Demo.calm
       (snd (add_to_cart Demo.rt 9 (Demo.cart_post [Demo.buy 5 2]) Demo.calm
               Demo.store_with_cart))
     = (mkResponse 200 (JObj [("message", JStr "Item removed")]),
        Demo.store_with_cart).
Proof.
  apply (add_then_remove_restores Demo.rt Demo.calm Demo.calm 9
           (Demo.cart_post [Demo.buy 5 2]) (Demo.with_token "bob-token")
           (Demo.buy 5 2) 5 2 JNull Demo.rose (Some "50ml")
           Demo.store_with_cart);
    try reflexivity.
  - intros r [<- | [<- | []]]; simpl; intros H; [discriminate H | discriminate].
  - simpl. lia.
Defined.

(** User 7 adds three bottles to the two in the cart and sees five. *)
Lemma added_item_is_viewed_witness :
  exists shown,
    In shown (json_elements
                (json_field "cart_items"
                   (body (fst (view_cart 7 (Demo.with_token "alice-token")
                                 Demo.calm
                                 (snd (add_to_cart Demo.rt 7
                                         (Demo.cart_post [Demo.buy 5 3])
                                         Demo.calm Demo.store_with_cart)))))))
    /\ json_field "perfume_id" shown = JInt 5
    /\ json_field "quantity" shown = JInt 5
    /\ json_field "stock" shown = JInt 10
    /\ json_field "in_stock" shown = JBool true.
Proof.
  apply (added_item_is_viewed Demo.rt Demo.calm Demo.calm 7
           (Demo.cart_post [Demo.buy 5 3]) (Demo.with_token "alice-token")
           (Demo.buy 5 3) 5 3 JNull Demo.rose (Some "50ml")
           Demo.store_with_cart);
    reflexivity.
Defined.

(** ** GET /orders *)

Section OrderListing.

Variable sv : server.

Lemma get_orders_loop_cons order rest :
  get_orders_loop sv (order :: rest) =
    bind (query (select_order_lines (o_id order)))
      (fun items =>
         bind (get_orders_loop sv rest)
           (fun listing => ret (user_order_json sv order items :: listing))).
Proof. reflexivity. Qed.

Lemma keeps_get_orders_loop orders : keeps (get_orders_loop sv orders).
Proof.
  induction orders as [| order rest IH].
  - simpl. auto with keeps.
  - rewrite get_orders_loop_cons. apply keeps_bind; [auto with keeps |].
    intro. apply keeps_bind; [exact IH | intro; auto with keeps].
Qed.

Lemma get_orders_loop_calm orders c :
  countdown c = None ->
  get_orders_loop sv orders c
  = (Val (map (fun o => user_order_json sv o
                          (select_order_lines (o_id o) (working c))) orders),
     c).
Proof.
  intros Hc. induction orders as [| order rest IH]; [reflexivity |].
  rewrite get_orders_loop_cons. unfold bind.
  rewrite (query_calm _ c Hc), IH. reflexivity.
Qed.

(** A statement raises before the loop is through. *)
Lemma get_orders_loop_fault orders :
  forall cm w k,
    (k < List.length orders)%nat ->
    exists c', get_orders_loop sv orders (mkConn cm w (Some k)) = (Exc DBError, c').
Proof.
  induction orders as [| order rest IH]; intros cm w k Hk; simpl in Hk; [lia |].
  rewrite get_orders_loop_cons. unfold bind at 1. unfold query, tick. simpl.
  destruct k as [| k].
  - eexists. reflexivity.
  - simpl. unfold bind. destruct (IH cm w k ltac:(lia)) as (c' & ->).
    eexists. reflexivity.
Qed.

Lemma get_orders_calm user req e d :
  db_up e = true -> fault_at e = None ->
  get_orders sv user req e d
  = (mkResponse 200
       (JObj [("orders",
               JList (map (fun o => user_order_json sv o
                                      (select_order_lines (o_id o) d))
                          (select_user_orders user d)))]),
     d).
Proof.
  intros Hup Hf. unfold get_orders, with_connection. rewrite Hup, Hf.
  unfold try_except, bind.
  rewrite query_calm by reflexivity.
  rewrite get_orders_loop_calm by reflexivity. reflexivity.
Qed.

(** X7.  GET /orders never writes.  Without a connection it answers 500
    "Server error"; when one of its statements raises (the listing of the
    orders or the listing of the items of one of them) it answers 500
    "Failed to load orders".  Otherwise it answers 200 with exactly the
    orders of the user, each once, the newest first, each with its
    lines. *)
Theorem get_orders_lists_own_orders :
  forall (user : Z) (req : request) (e : env) (d : db),
    snd (get_orders sv user req e d) = d
    /\ (db_up e = false ->
        fst (get_orders sv user req e d) = error_response 500 "Server error")
    /\ (forall k,
           db_up e = true -> fault_at e = Some k ->
           (k <= List.length (select_user_orders user d))%nat ->
           fst (get_orders sv user req e d)
           = error_response 500 "Failed to load orders")
    /\ (db_up e = true -> fault_at e = None ->
        exists rows,
          fst (get_orders sv user req e d)
          = mkResponse 200
              (JObj [("orders",
                      JList (map (fun o => user_order_json sv o
                                             (select_order_lines (o_id o) d))
                                 rows))])
          /\ Permutation rows
               (filter (fun o => o_user_id o =? user) (orders d))
          /\ (forall o, In o rows <-> In o (orders d) /\ o_user_id o = user)
          /\ StronglySorted (fun a b => o_created_at b <= o_created_at a) rows).
Proof.
  intros user req e d. split; [| split; [| split]].
  - unfold get_orders. apply with_connection_keeps.
    apply keeps_try_except; [| intro; auto with keeps].
    apply keeps_bind; [auto with keeps | intro].
    apply keeps_bind; [apply keeps_get_orders_loop | intro; auto with keeps].
  - intros Hdown. unfold get_orders, with_connection. rewrite Hdown. reflexivity.
  - intros k Hup Hf Hk. unfold get_orders, with_connection. rewrite Hup, Hf.
    unfold try_except. unfold bind at 1. unfold query, tick. simpl.
    destruct k as [| k]; [reflexivity |]. simpl.
    destruct (get_orders_loop_fault (select_user_orders user d) d d k
                ltac:(lia)) as (c' & Hloop).
    unfold bind. rewrite Hloop. reflexivity.
  - intros Hup Hf. exists (select_user_orders user d).
    split; [| split; [| split]].
    + rewrite (get_orders_calm user req e d Hup Hf). reflexivity.
    + apply order_by_desc_perm.
    + intros o. unfold select_user_orders.
      rewrite order_by_desc_In, filter_In, Z.eqb_eq. reflexivity.
    + apply order_by_desc_sorted.
Qed.

End OrderListing.

(** The order of user 7 is listed; when the listing of its items raises
    the answer is 500. *)
Lemma get_orders_lists_own_orders_witness :
  fst (get_orders Sample.sv 7 (Demo.with_token "alice-token")
         (mkEnv true (Some 1%nat) 1000) Demo.store_with_order)
  = error_response 500 "Failed to load orders"
  /\ listed "orders" "id"
       (fst (get_orders Sample.sv 7 (Demo.with_token "alice-token") Demo.calm
               Demo.store_with_order))
     = [JInt 1].
Proof.
  split.
  - destruct (get_orders_lists_own_orders Sample.sv 7 (Demo.with_token "alice-token")
                (mkEnv true (Some 1%nat) 1000) Demo.store_with_order)
      as (_ & _ & H & _).
    apply (H 1%nat); reflexivity.
  - vm_compute. reflexivity.
Defined.

Section OrdersAcrossCalls.

Variable rt : runtime.
Variable sv : server.

Lemma recent_order_loop_calm req orders :
  forall result c,
    countdown c = None ->
    recent_order_loop rt req orders result c
    = (Val (result
            ++ map (fun o => recent_order_data rt req o
                               (select_order_lines (o_id o) (working c)))
                   orders),
       c).
Proof.
  induction orders as [| order rest IH]; intros result c Hc.
  - rewrite recent_order_loop_nil. simpl. rewrite app_nil_r. reflexivity.
  - rewrite recent_order_loop_cons. unfold bind.
    rewrite (query_calm _ c Hc), (IH _ c Hc), <- app_assoc. reflexivity.
Qed.

Lemma recent_orders_calm_ids user req e d :
  db_up e = true -> fault_at e = None ->
  listed "recent_orders" "order_id" (fst (recent_orders rt user req e d))
  = map (fun o => JInt (o_id o))
      (select_recent_orders user (recent_limit rt req) d).
Proof.
  intros Hup Hf. unfold recent_orders, with_connection. rewrite Hup, Hf.
  unfold try_except. unfold bind at 1.
  rewrite query_calm by reflexivity.
  change (working (mkConn d d None)) with d.
  destruct (select_recent_orders user (recent_limit rt req) d)
    as [| o rows]; [reflexivity |].
  unfold bind. rewrite recent_order_loop_calm by reflexivity.
  unfold listed. simpl. f_equal. rewrite map_map. apply map_ext.
  intro. reflexivity.
Qed.

Lemma get_orders_calm_ids user req e d :
  db_up e = true -> fault_at e = None ->
  listed "orders" "id" (fst (get_orders sv user req e d))
  = map (fun o => JInt (o_id o)) (select_user_orders user d).
Proof.
  intros Hup Hf. rewrite (get_orders_calm sv user req e d Hup Hf).
  unfold listed. simpl. rewrite map_map. apply map_ext. intro. reflexivity.
Qed.

(** X8.  GET /recent-orders shows the head of GET /orders.  For a user
    whose orders carry pairwise distinct [created_at] values (the server
    is free in the order of rows with equal ones, and the two handlers run
    two statements), on connections that work: the order ids of the recent
    orders are the first [limit] order ids of the full listing of the same
    user, in the same order, where [limit] is the clamped limit of the
    request.  The listing is the one descending arrangement of the user's
    orders there is, so this does not depend on how rows are arranged
    beyond [ORDER BY created_at DESC]. *)
Theorem recent_orders_head_of_orders :
  forall (user : Z) (req req' : request) (e e' : env) (d : db),
    db_up e = true -> fault_at e = None ->
    db_up e' = true -> fault_at e' = None ->
    NoDup (map o_created_at
             (filter (fun o => o_user_id o =? user) (orders d))) ->
    listed "recent_orders" "order_id" (fst (recent_orders rt user req e d))
    = firstn (Z.to_nat (recent_limit rt req))
        (listed "orders" "id" (fst (get_orders sv user req' e' d)))
    /\ forall rows,
         Permutation rows (filter (fun o => o_user_id o =? user) (orders d)) ->
         StronglySorted (fun a b => o_created_at b <= o_created_at a) rows ->
         listed "orders" "id" (fst (get_orders sv user req' e' d))
         = map (fun o => JInt (o_id o)) rows
         /\ listed "recent_orders" "order_id"
              (fst (recent_orders rt user req e d))
            = map (fun o => JInt (o_id o))
                (firstn (Z.to_nat (recent_limit rt req)) rows).
Proof.
  intros user req req' e e' d Hup Hf Hup' Hf' Hdistinct.
  rewrite (recent_orders_calm_ids user req e d Hup Hf).
  rewrite (get_orders_calm_ids user req' e' d Hup' Hf').
  unfold select_recent_orders, select_user_orders. split.
  - symmetry. apply firstn_map.
  - intros rows Hperm Hsorted.
    rewrite (order_by_desc_unique o_created_at _ rows Hdistinct Hperm Hsorted).
    split; reflexivity.
Qed.

(** The rows a checkout that went through leaves in [orders] and in
    [payment_details]. *)
Lemma placed_order_rows user req e d :
  status (fst (checkout rt user req e d)) = 201 ->
  exists ck total row,
    validate_checkout (body_of req) = Val ck
    /\ fst (checkout rt user req e d)
       = order_placed (Sql.next_order_id d) (ck_payment_method ck) total
    /\ orders (snd (checkout rt user req e d)) = orders d ++ [row]
    /\ o_id row = Sql.next_order_id d
    /\ o_user_id row = user
    /\ o_payment_method row = ck_payment_method ck
    /\ o_status row = final_status (ck_payment_method ck)
    /\ ((ck_payment_method ck = "card"
         /\ exists card number name expiry name_text expiry_text,
              ck_card_details ck = JObj card
              /\ Py.get "cardNumber" card = Some number
              /\ Py.get "cardName" card = Some name
              /\ Py.get "expiry" card = Some expiry
              /\ sql_text rt name = Some name_text
              /\ sql_text rt expiry = Some expiry_text
              /\ payment_details (snd (checkout rt user req e d))
                 = payment_details d
                   ++ [mkPayment (Sql.next_order_id d) "card"
                         (card_last4 (py_str rt number)) name_text expiry_text
                         (now e)])
        \/ (ck_payment_method ck = "cod"
            /\ payment_details (snd (checkout rt user req e d))
               = payment_details d)).
Proof.
  intros Hok.
  destruct (checkout_success rt user req e d Hok)
    as (ck & header & w2 & w3 & Hv & Hh & Ho2 & _ & Hp2 & _ & _ & Hsaved & Hout).
  destruct (order_header_val rt e user (body_of req) ck header Hh
              (Sql.next_order_id d)) as (Hid & Huser & Hpm & _).
  destruct (validate_checkout_val _ _ Hv) as (s & _ & Hlow & Hcases & _).
  assert (Ho3 : orders w3 = orders w2).
  { destruct Hsaved as [(_ & card & number & name & expiry & nt & et
                          & _ & _ & _ & _ & _ & _ & ->) | [_ ->]];
      reflexivity. }
  exists ck, (fst header),
    (Sql.with_status (final_status (ck_payment_method ck))
       (snd header (Sql.next_order_id d))).
  rewrite Hout. simpl fst. simpl snd.
  split; [exact Hv |]. split; [reflexivity |]. split.
  { apply update_new_order_status; [exact Hid |].
    simpl. rewrite Ho3. exact Ho2. }
  split; [exact Hid |]. split; [exact Huser |]. split; [exact Hpm |].
  split; [reflexivity |].
  destruct Hsaved as [(Hcard & card & number & name & expiry & nt & et
                         & H1 & H2 & H3 & H4 & H5 & H6 & ->) | [Hcod ->]].
  - left. split; [exact Hcard |].
    exists card, number, name, expiry, nt, et.
    repeat (split; [assumption |]). simpl. rewrite Hp2. reflexivity.
  - right. split.
    + rewrite Hlow in *. destruct Hcases as [Hc | Hc]; [contradiction | exact Hc].
    + simpl. exact Hp2.
Qed.

(** X9.  A placed order shows in the customer's listing.  After a
    checkout answered 201, GET /orders of the same user on a connection
    that works lists an order whose id, status and payment method are
    those of the checkout answer; the status is the final one, never
    "pending". *)
Theorem placed_order_is_listed :
  forall (user : Z) (req req' : request) (e e' : env) (d : db),
    status (fst (checkout rt user req e d)) = 201 ->
    db_up e' = true -> fault_at e' = None ->
    exists entry,
      In entry (json_elements
                  (json_field "orders"
                     (body (fst (get_orders sv user req' e'
                                   (snd (checkout rt user req e d)))))))
      /\ json_field "id" entry
         = json_field "order_id" (body (fst (checkout rt user req e d)))
      /\ json_field "status" entry
         = json_field "status" (body (fst (checkout rt user req e d)))
      /\ json_field "payment_method" entry
         = json_field "payment_method" (body (fst (checkout rt user req e d)))
      /\ json_field "status" entry <> JStr "pending".
Proof.
  intros user req req' e e' d Hok Hup Hf.
  destruct (placed_order_rows user req e d Hok)
    as (ck & total & row & _ & Hans & Horders & Hid & Huser & Hpm & Hst & _).
  set (d1 := snd (checkout rt user req e d)) in *.
  exists (user_order_json sv row (select_order_lines (o_id row) d1)).
  split; [| split; [| split; [| split]]].
  - rewrite (get_orders_calm sv user req' e' d1 Hup Hf). simpl.
    apply (in_map (fun o => user_order_json sv o (select_order_lines (o_id o) d1))).
    unfold select_user_orders. apply order_by_desc_In, filter_In. split.
    + rewrite Horders. apply in_or_app. right. left. reflexivity.
    + apply Z.eqb_eq. exact Huser.
  - rewrite Hans. change (JInt (o_id row) = JInt (Sql.next_order_id d)).
    rewrite Hid. reflexivity.
  - rewrite Hans.
    change (JStr (o_status row) = JStr (final_status (ck_payment_method ck))).
    rewrite Hst. reflexivity.
  - rewrite Hans.
    change (JStr (o_payment_method row) = JStr (ck_payment_method ck)).
    rewrite Hpm. reflexivity.
  - change (JStr (o_status row) <> JStr "pending"). rewrite Hst.
    unfold final_status.
    destruct (ck_payment_method ck =? "card")%string; discriminate.
Qed.

End OrdersAcrossCalls.

(** User 7 has three orders, filed at three different times: the two
    most recent ones are the first two of the full listing. *)
Lemma recent_orders_head_of_orders_witness :
  NoDup (map o_created_at
           (filter (fun o => o_user_id o =? 7) (orders Sample.store_with_orders)))
  /\ listed "recent_orders" "order_id"
       (fst (recent_orders Demo.rt 7
               (mkRequest (Some "alice-token") None [("limit", "2")] []
                  "http://shop.test/")
               Demo.calm Sample.store_with_orders))
     = firstn 2
         (listed "orders" "id"
            (fst (get_orders Sample.sv 7 (Demo.with_token "alice-token")
                    Demo.calm Sample.store_with_orders)))
  /\ listed "recent_orders" "order_id"
       (fst (recent_orders Demo.rt 7
               (mkRequest (Some "alice-token") None [("limit", "2")] []
                  "http://shop.test/")
               Demo.calm Sample.store_with_orders))
     = [JInt 3; JInt 2].
Proof.
  assert (Hdistinct :
            NoDup (map o_created_at
                     (filter (fun o => o_user_id o =? 7)
                        (orders Sample.store_with_orders)))).
  { vm_compute.
    repeat (constructor; [simpl; intuition discriminate |]). constructor. }
  split; [exact Hdistinct |].
  destruct (recent_orders_head_of_orders Demo.rt Sample.sv 7
              (mkRequest (Some "alice-token") None [("limit", "2")] []
                 "http://shop.test/")
              (Demo.with_token "alice-token") Demo.calm Demo.calm
              Sample.store_with_orders eq_refl eq_refl eq_refl eq_refl
              Hdistinct) as (Hhead & _).
  split; [exact Hhead |]. vm_compute. reflexivity.
Defined.

(** The order user 7 places cash on delivery is listed as "cod_pending". *)
Lemma placed_order_is_listed_witness :
  exists entry,
    In entry
      (json_elements
         (json_field "orders"
            (body (fst (get_orders Sample.sv 7 (Demo.with_token "alice-token") Demo.calm
                          (snd (checkout Demo.rt 7
                                  (Demo.cod_order [Demo.order_line 5 2])
                                  Demo.calm Demo.store_with_cart)))))))
    /\ json_field "id" entry = JInt 1
    /\ json_field "status" entry = JStr "cod_pending"
    /\ json_field "payment_method" entry = JStr "cod"
    /\ json_field "status" entry <> JStr "pending".
Proof.
  apply (placed_order_is_listed Demo.rt Sample.sv 7
           (Demo.cod_order [Demo.order_line 5 2])
           (Demo.with_token "alice-token") Demo.calm Demo.calm
           Demo.store_with_cart);
    reflexivity.
Defined.

(** ** GET /admin/orders *)

Lemma firstn_add {A} (a b : nat) (l : list A) :
  firstn (a + b) l = firstn a l ++ firstn b (skipn a l).
Proof.
  revert l. induction a as [| a IH]; intros l; [reflexivity |].
  destruct l as [| x l]; simpl.
  - rewrite firstn_nil. reflexivity.
  - rewrite IH. reflexivity.
Qed.

(** Slices of [n] elements, one after the other, make up the list. *)
Lemma slices_cover {A} (n m : nat) (l : list A) :
  flat_map (fun k => firstn n (skipn (k * n) l)) (seq 0 m) = firstn (m * n) l.
Proof.
  induction m as [| m IH]; [reflexivity |].
  rewrite seq_S, flat_map_app, IH. simpl flat_map. rewrite app_nil_r.
  replace (S m * n)%nat with (m * n + n)%nat by lia.
  symmetry. apply firstn_add.
Qed.

Lemma ceil_div_bounds (total per_page : Z) :
  1 <= per_page ->
  (((total + per_page - 1) / per_page) - 1) * per_page < total
  /\ total <= ((total + per_page - 1) / per_page) * per_page.
Proof.
  intros Hp.
  pose proof (Z.mul_div_le (total + per_page - 1) per_page ltac:(lia)) as H1.
  pose proof (Z.mul_succ_div_gt (total + per_page - 1) per_page ltac:(lia)) as H2.
  nia.
Qed.

Section AdminListings.

Variable rt : runtime.
Variable sv : server.

Lemma admin_list_orders_calm users admin req e d :
  db_up e = true -> fault_at e = None ->
  1 <= list_per_page rt req ->
  admin_list_orders rt sv users admin req e d
  = (mkResponse 200
       (JObj [("orders",
               JList (map (admin_order_json sv users)
                        (firstn (Z.to_nat (list_per_page rt req))
                           (skipn (Z.to_nat ((list_page rt req - 1)
                                             * list_per_page rt req))
                              (listing_orders rt sv req d)))));
              ("pagination",
               JObj [("page", JInt (list_page rt req));
                     ("per_page", JInt (list_per_page rt req));
                     ("total", JInt (Z.of_nat (List.length (listing_orders rt sv req d))));
                     ("pages",
                      JInt ((Z.of_nat (List.length (listing_orders rt sv req d))
                             + list_per_page rt req - 1)
                            / list_per_page rt req))])]),
     d).
Proof.
  intros Hup Hf Hp. unfold admin_list_orders, with_connection.
  rewrite Hup, Hf. unfold try_except. cbv zeta.
  assert (Hneg : (list_per_page rt req <? 0) = false) by (apply Z.ltb_ge; lia).
  assert (Hnz : (list_per_page rt req =? 0) = false) by (apply Z.eqb_neq; lia).
  rewrite Hneg. unfold bind, lift, floor_div.
  rewrite !query_calm by reflexivity.
  unfold count_orders, select_orders_page, listing_orders. simpl working.
  rewrite order_by_desc_length, Hnz. reflexivity.
Qed.

Lemma admin_list_orders_calm_ids users admin req e d :
  db_up e = true -> fault_at e = None ->
  1 <= list_per_page rt req ->
  listed "orders" "id" (fst (admin_list_orders rt sv users admin req e d))
  = map (fun o => JInt (o_id o))
      (firstn (Z.to_nat (list_per_page rt req))
         (skipn (Z.to_nat ((list_page rt req - 1) * list_per_page rt req))
            (listing_orders rt sv req d))).
Proof.
  intros Hup Hf Hp.
  rewrite (admin_list_orders_calm users admin req e d Hup Hf Hp).
  unfold listed. simpl. rewrite map_map. apply map_ext. intro. reflexivity.
Qed.

(** X10.  GET /admin/orders never writes, and its paging parameters are
    bounded on one side only.  The page is at least 1 (1 when absent or
    not an integer) and the page size at most 50 (20 when absent or not an
    integer); a page size of zero or less is not corrected: whenever a
    connection opens, the answer is then 500 "Failed to fetch orders". *)
Theorem admin_list_orders_bounds :
  forall (users : list user_row) (admin : Z) (req : request) (e : env) (d : db),
    snd (admin_list_orders rt sv users admin req e d) = d
    /\ 1 <= list_page rt req
    /\ list_per_page rt req <= 50
    /\ (int_arg rt "page" req = None -> list_page rt req = 1)
    /\ (int_arg rt "per_page" req = None -> list_per_page rt req = 20)
    /\ (db_up e = false ->
        fst (admin_list_orders rt sv users admin req e d)
        = error_response 500 "DB unavailable")
    /\ (db_up e = true -> list_per_page rt req <= 0 ->
        fst (admin_list_orders rt sv users admin req e d)
        = error_response 500 "Failed to fetch orders").
Proof.
  intros users admin req e d.
  split; [| split; [| split; [| split; [| split; [| split]]]]].
  - unfold admin_list_orders. apply with_connection_keeps.
    apply keeps_try_except; [| intro; auto with keeps]. cbv zeta.
    apply keeps_bind.
    { destruct (list_per_page rt req <? 0); auto with keeps. }
    intro. apply keeps_bind; [auto with keeps | intro].
    apply keeps_bind; [auto with keeps | intro; auto with keeps].
  - unfold list_page. lia.
  - unfold list_per_page. lia.
  - intros H. unfold list_page. rewrite H. reflexivity.
  - intros H. unfold list_per_page. rewrite H. reflexivity.
  - intros Hdown. unfold admin_list_orders, with_connection.
    rewrite Hdown. reflexivity.
  - intros Hup Hp. unfold admin_list_orders, with_connection. rewrite Hup.
    unfold try_except. cbv zeta.
    destruct (list_per_page rt req <? 0) eqn:Hneg; [reflexivity |].
    assert (Hz : list_per_page rt req = 0) by (apply Z.ltb_ge in Hneg; lia).
    unfold bind, lift, floor_div, query, tick. rewrite Hz. simpl.
    destruct (fault_at e) as [[| [| n]] |]; reflexivity.
Qed.

(** X11.  A page of GET /admin/orders.  On a connection that works and
    with a page size of at least 1, the answer is 200; [total] counts the
    orders that pass the filters, whatever the page; [pages] is the least
    number of pages of that size that hold them; the page lists at most
    [per_page] orders, those from position (page - 1) * per_page of the
    filtered orders taken newest first, and a page after the last one is
    empty. *)
Theorem admin_list_orders_page :
  forall (users : list user_row) (admin : Z) (req : request) (e : env) (d : db),
    db_up e = true -> fault_at e = None ->
    1 <= list_per_page rt req ->
    let out := fst (admin_list_orders rt sv users admin req e d) in
    let pagination := json_field "pagination" (body out) in
    let rows :=
      order_by_desc o_created_at
        (filter (order_filter sv (arg "status" (args req))
                   (int_arg rt "user_id" req)) (orders d)) in
    exists pages,
      status out = 200
      /\ json_field "page" pagination = JInt (list_page rt req)
      /\ json_field "per_page" pagination = JInt (list_per_page rt req)
      /\ json_field "total" pagination = JInt (Z.of_nat (List.length rows))
      /\ json_field "pages" pagination = JInt pages
      /\ (pages - 1) * list_per_page rt req < Z.of_nat (List.length rows)
         <= pages * list_per_page rt req
      /\ listed "orders" "id" out
         = map (fun o => JInt (o_id o))
             (firstn (Z.to_nat (list_per_page rt req))
                (skipn (Z.to_nat ((list_page rt req - 1) * list_per_page rt req))
                   rows))
      /\ (List.length (listed "orders" "id" out)
          <= Z.to_nat (list_per_page rt req))%nat
      /\ (pages < list_page rt req -> listed "orders" "id" out = []).
Proof.
  intros users admin req e d Hup Hf Hp. cbv zeta.
  rewrite (admin_list_orders_calm users admin req e d Hup Hf Hp).
  fold (listing_orders rt sv req d).
  set (per_page := list_per_page rt req) in *.
  set (page := list_page rt req).
  set (total := Z.of_nat (List.length (listing_orders rt sv req d))).
  exists ((total + per_page - 1) / per_page).
  assert (Hids :
    listed "orders" "id"
      (fst (mkResponse 200
              (JObj [("orders",
                      JList (map (admin_order_json sv users)
                               (firstn (Z.to_nat per_page)
                                  (skipn (Z.to_nat ((page - 1) * per_page))
                                     (listing_orders rt sv req d)))));
                     ("pagination",
                      JObj [("page", JInt page); ("per_page", JInt per_page);
                            ("total", JInt total);
                            ("pages",
                             JInt ((total + per_page - 1) / per_page))])]),
            d))
    = map (fun o => JInt (o_id o))
        (firstn (Z.to_nat per_page)
           (skipn (Z.to_nat ((page - 1) * per_page)) (listing_orders rt sv req d)))).
  { unfold listed. simpl. rewrite map_map. apply map_ext. intro. reflexivity. }
  split; [reflexivity |]. split; [reflexivity |]. split; [reflexivity |].
  split; [reflexivity |]. split; [reflexivity |].
  split; [apply ceil_div_bounds; exact Hp |].
  split; [exact Hids |]. split.
  - rewrite Hids, length_map. apply firstn_le_length.
  - intros Hlast. rewrite Hids.
    destruct (ceil_div_bounds total per_page Hp) as [_ Hle].
    rewrite skipn_all2; [rewrite firstn_nil; reflexivity |].
    unfold total in *. nia.
Qed.

(** X12.  The pages of GET /admin/orders cover the filtered orders.  When
    the orders that pass the filters carry pairwise distinct [created_at]
    values (the server is free in the order of rows with equal ones, and
    every page is a statement of its own), for requests that differ only
    in the page, numbered from 1 to [pages], on a connection that works
    and with a page size of at least 1: the order ids of the pages, one
    page after the other, are the ids of all the orders that pass the
    filters, each once, the newest first, that is in the one descending
    arrangement there is. *)
Theorem admin_list_orders_pages_cover :
  forall (users : list user_row) (admin : Z) (req_of : nat -> request)
         (e : env) (d : db) (status : option string) (uid : option Z)
         (per_page : Z),
    db_up e = true -> fault_at e = None ->
    1 <= per_page ->
    NoDup (map o_created_at (filter (order_filter sv status uid) (orders d))) ->
    let total := count_orders sv status uid d in
    let pages := (total + per_page - 1) / per_page in
    (forall k, (k < Z.to_nat pages)%nat ->
               list_page rt (req_of k) = Z.of_nat k + 1
               /\ list_per_page rt (req_of k) = per_page
               /\ arg "status" (args (req_of k)) = status
               /\ int_arg rt "user_id" (req_of k) = uid) ->
    flat_map
      (fun k => listed "orders" "id"
                  (fst (admin_list_orders rt sv users admin (req_of k) e d)))
      (seq 0 (Z.to_nat pages))
    = map (fun o => JInt (o_id o))
        (order_by_desc o_created_at
           (filter (order_filter sv status uid) (orders d)))
    /\ forall rows,
         Permutation rows (filter (order_filter sv status uid) (orders d)) ->
         StronglySorted (fun a b => o_created_at b <= o_created_at a) rows ->
         flat_map
           (fun k => listed "orders" "id"
                       (fst (admin_list_orders rt sv users admin (req_of k)
                               e d)))
           (seq 0 (Z.to_nat pages))
         = map (fun o => JInt (o_id o)) rows.
Proof.
  intros users admin req_of e d status uid per_page Hup Hf Hp Hdistinct
         total pages Hreqs.
  set (rows := order_by_desc o_created_at
                 (filter (order_filter sv status uid) (orders d))).
  assert (Htotal : total = Z.of_nat (List.length rows)).
  { unfold total, count_orders, rows. rewrite order_by_desc_length. reflexivity. }
  assert (Hpage : forall k, In k (seq 0 (Z.to_nat pages)) ->
            listed "orders" "id"
              (fst (admin_list_orders rt sv users admin (req_of k) e d))
            = map (fun o => JInt (o_id o))
                (firstn (Z.to_nat per_page)
                   (skipn (k * Z.to_nat per_page) rows))).
  { intros k Hk. apply in_seq in Hk.
    destruct (Hreqs k ltac:(lia)) as (Hpg & Hpp & Hst & Hu).
    rewrite (admin_list_orders_calm_ids users admin (req_of k) e d Hup Hf
               ltac:(lia)).
    unfold listing_orders. rewrite Hpg, Hpp, Hst, Hu. fold rows.
    replace (Z.to_nat ((Z.of_nat k + 1 - 1) * per_page))
      with (k * Z.to_nat per_page)%nat by nia.
    reflexivity. }
  assert (Hcover :
            flat_map
              (fun k => listed "orders" "id"
                          (fst (admin_list_orders rt sv users admin (req_of k)
                                  e d)))
              (seq 0 (Z.to_nat pages))
            = map (fun o => JInt (o_id o)) rows).
  { rewrite flat_map_concat_map, (map_ext_in _ _ _ Hpage).
    rewrite <- flat_map_concat_map.
    assert (Hall : firstn (Z.to_nat pages * Z.to_nat per_page) rows = rows).
    { apply firstn_all2.
      destruct (ceil_div_bounds total per_page Hp) as [_ Hle].
      fold pages in Hle. rewrite Htotal in Hle. nia. }
    transitivity (map (fun o => JInt (o_id o))
                    (firstn (Z.to_nat pages * Z.to_nat per_page) rows));
      [| rewrite Hall; reflexivity].
    rewrite <- (slices_cover (Z.to_nat per_page) (Z.to_nat pages) rows).
    generalize (seq 0 (Z.to_nat pages)). intros ks.
    induction ks as [| k ks IH]; simpl; [reflexivity |].
    rewrite map_app, IH. reflexivity. }
  split; [exact Hcover |].
  intros rows' Hperm Hsorted. rewrite Hcover. unfold rows.
  rewrite (order_by_desc_unique o_created_at _ rows' Hdistinct Hperm Hsorted).
  reflexivity.
Qed.

End AdminListings.

(** Page size zero is answered 500; the page number -3 is read as 1. *)
Lemma admin_list_orders_bounds_witness :
  fst (admin_list_orders Demo.rt Sample.sv Sample.users_with_alice 1
         (Sample.admin_query [("per_page", "0")]) Demo.calm
         Sample.store_with_orders)
  = error_response 500 "Failed to fetch orders"
  /\ list_page Demo.rt (Sample.admin_query [("page", "-3")]) = 1
  /\ list_per_page Demo.rt (Sample.admin_query [("per_page", "many")]) = 20.
Proof.
  destruct (admin_list_orders_bounds Demo.rt Sample.sv Sample.users_with_alice 1
              (Sample.admin_query [("per_page", "0")]) Demo.calm
              Sample.store_with_orders)
    as (_ & _ & _ & _ & _ & _ & Hzero).
  destruct (admin_list_orders_bounds Demo.rt Sample.sv Sample.users_with_alice 1
              (Sample.admin_query [("per_page", "many")]) Demo.calm
              Sample.store_with_orders)
    as (_ & _ & _ & _ & Hdefault & _).
  split; [| split].
  - apply Hzero; [reflexivity | vm_compute; discriminate].
  - reflexivity.
  - apply Hdefault. reflexivity.
Defined.

(** The second page of two orders out of three holds the oldest order. *)
Lemma admin_list_orders_page_witness :
  exists pages,
    status (fst (admin_list_orders Demo.rt Sample.sv Sample.users_with_alice 1
                   (Sample.admin_query [("per_page", "2"); ("page", "2")])
                   Demo.calm Sample.store_with_orders)) = 200
    /\ pages = 2
    /\ listed "orders" "id"
         (fst (admin_list_orders Demo.rt Sample.sv Sample.users_with_alice 1
                 (Sample.admin_query [("per_page", "2"); ("page", "2")])
                 Demo.calm Sample.store_with_orders))
       = [JInt 1].
Proof.
  destruct (admin_list_orders_page Demo.rt Sample.sv Sample.users_with_alice 1
              (Sample.admin_query [("per_page", "2"); ("page", "2")])
              Demo.calm Sample.store_with_orders eq_refl eq_refl
              ltac:(vm_compute; discriminate))
    as (pages & Hst & _ & _ & _ & Hpages & _ & Hids & _).
  exists pages. split; [exact Hst |]. split.
  - vm_compute in Hpages. injection Hpages as <-. reflexivity.
  - rewrite Hids. vm_compute. reflexivity.
Defined.

(** Three orders, filed at three different times, in pages of two: the
    two pages list 3, 2 and 1. *)
Lemma admin_list_orders_pages_cover_witness :
  NoDup (map o_created_at
           (filter (order_filter Sample.sv None None)
              (orders Sample.store_with_orders)))
  /\ flat_map
       (fun k =>
          listed "orders" "id"
            (fst (admin_list_orders Demo.rt Sample.sv Sample.users_with_alice 1
                    (Sample.admin_query
                       [("per_page", "2");
                        ("page", Py.str_of_int (Z.of_nat k + 1))])
                    Demo.calm Sample.store_with_orders)))
       (seq 0 2)
     = [JInt 3; JInt 2; JInt 1].
Proof.
  assert (Hdistinct :
            NoDup (map o_created_at
                     (filter (order_filter Sample.sv None None)
                        (orders Sample.store_with_orders)))).
  { vm_compute.
    repeat (constructor; [simpl; intuition discriminate |]). constructor. }
  split; [exact Hdistinct |].
  destruct (admin_list_orders_pages_cover Demo.rt Sample.sv
              Sample.users_with_alice 1
              (fun k => Sample.admin_query
                          [("per_page", "2");
                           ("page", Py.str_of_int (Z.of_nat k + 1))])
              Demo.calm Sample.store_with_orders None None 2
              eq_refl eq_refl ltac:(lia) Hdistinct) as (Hcover & _).
  - intros k Hk. change (k < 2)%nat in Hk.
    destruct k as [| [| k]]; [| | lia]; vm_compute; repeat split; reflexivity.
  - exact Hcover.
Defined.

(** ** GET /admin/orders/<order_id> *)

Section AdminOrder.

Variable sv : server.

Lemma admin_get_order_calm users oid admin req e d :
  db_up e = true -> fault_at e = None ->
  admin_get_order sv users oid admin req e d
  = match Sql.select_order oid d with
    | None => (error_response 404 "Order not found", d)
    | Some o =>
        (mkResponse 200
           (JObj [("order",
                   full_order_json sv users o (select_order_lines oid d)
                     (select_payment oid d))]),
         d)
    end.
Proof.
  intros Hup Hf. unfold admin_get_order, with_connection. rewrite Hup, Hf.
  unfold try_except. unfold bind at 1. rewrite query_calm by reflexivity.
  change (working (mkConn d d None)) with d.
  destruct (Sql.select_order oid d); [| reflexivity].
  unfold bind. rewrite !query_calm by reflexivity. reflexivity.
Qed.

Lemma select_payment_none oid d :
  select_payment oid d = None
  <-> (forall pd, In pd (payment_details d) -> pd_order_id pd <> oid).
Proof.
  unfold select_payment. split.
  - intros H pd Hin Heq.
    apply (find_none _ _ H) in Hin. apply Z.eqb_neq in Hin. contradiction.
  - intros H. apply find_none_all. intros pd Hin.
    apply Z.eqb_neq. apply H. exact Hin.
Qed.

(** X13.  GET /admin/orders/<order_id> never writes.  Without a
    connection it answers 500 "DB unavailable"; when its first statement
    raises, or a later one for an order on file, 500 "Failed to load
    order".  On a connection that works it answers 404 "Order not found"
    when no order has the id, and otherwise 200 with that order: its id,
    owner and status as stored, one item for each line of the order whose
    perfume row exists, and the payment, which is null exactly when the
    order has no payment row. *)
Theorem admin_get_order_answers :
  forall (users : list user_row) (oid admin : Z) (req : request) (e : env)
         (d : db),
    snd (admin_get_order sv users oid admin req e d) = d
    /\ (db_up e = false ->
        fst (admin_get_order sv users oid admin req e d)
        = error_response 500 "DB unavailable")
    /\ (forall k,
           db_up e = true -> fault_at e = Some k ->
           k = 0%nat \/ ((k <= 2)%nat /\ Sql.select_order oid d <> None) ->
           fst (admin_get_order sv users oid admin req e d)
           = error_response 500 "Failed to load order")
    /\ (db_up e = true -> fault_at e = None ->
        Sql.select_order oid d = None ->
        fst (admin_get_order sv users oid admin req e d)
        = error_response 404 "Order not found")
    /\ (db_up e = true -> fault_at e = None ->
        forall o, Sql.select_order oid d = Some o ->
          let out := fst (admin_get_order sv users oid admin req e d) in
          let shown := json_field "order" (body out) in
          status out = 200
          /\ In o (orders d)
          /\ json_field "id" shown = JInt oid
          /\ json_field "user_id" shown = JInt (o_user_id o)
          /\ json_field "status" shown = JStr (o_status o)
          /\ json_field "items" shown
             = JList (map (order_line_json sv) (select_order_lines oid d))
          /\ (json_field "payment" shown = JNull
              <-> forall pd, In pd (payment_details d) -> pd_order_id pd <> oid)).
Proof.
  intros users oid admin req e d.
  split; [| split; [| split; [| split]]].
  - unfold admin_get_order. apply with_connection_keeps.
    apply keeps_try_except; [| intro; auto with keeps].
    apply keeps_bind; [auto with keeps | intros [o |]]; [| auto with keeps].
    apply keeps_bind; [auto with keeps | intro].
    apply keeps_bind; [auto with keeps | intro; auto with keeps].
  - intros Hdown. unfold admin_get_order, with_connection.
    rewrite Hdown. reflexivity.
  - intros k Hup Hf Hk. unfold admin_get_order, with_connection.
    rewrite Hup, Hf. unfold try_except, bind, query, tick. simpl.
    destruct Hk as [-> | [Hk Hsome]]; [reflexivity |].
    destruct k as [| [| [| k]]]; [reflexivity | | | lia]; simpl;
      destruct (Sql.select_order oid d); try reflexivity;
      exfalso; apply Hsome; reflexivity.
  - intros Hup Hf Hnone. rewrite (admin_get_order_calm _ _ _ _ _ _ Hup Hf), Hnone.
    reflexivity.
  - intros Hup Hf o Ho. cbv zeta.
    rewrite (admin_get_order_calm _ _ _ _ _ _ Hup Hf), Ho.
    unfold Sql.select_order in Ho. apply find_some in Ho.
    destruct Ho as [Hin Hid]. apply Z.eqb_eq in Hid.
    split; [reflexivity |]. split; [exact Hin |].
    split; [change (JInt (o_id o) = JInt oid); rewrite Hid; reflexivity |].
    split; [reflexivity |]. split; [reflexivity |]. split; [reflexivity |].
    change (payment_json (select_payment oid d) = JNull
            <-> (forall pd, In pd (payment_details d) -> pd_order_id pd <> oid)).
    rewrite <- select_payment_none.
    destruct (select_payment oid d); simpl; split; intros H;
      try discriminate H; reflexivity.
Qed.

End AdminOrder.

(** Order 2 was paid by card and order 9 does not exist. *)
Lemma admin_get_order_answers_witness :
  fst (admin_get_order Sample.sv Sample.users_with_alice 9 1 (Sample.admin_query [])
         Demo.calm Sample.store_with_orders)
  = error_response 404 "Order not found"
  /\ fst (admin_get_order Sample.sv Sample.users_with_alice 2 1 (Sample.admin_query [])
            (mkEnv true (Some 2%nat) 1000) Sample.store_with_orders)
     = error_response 500 "Failed to load order"
  /\ json_field "status"
       (json_field "order"
          (body (fst (admin_get_order Sample.sv Sample.users_with_alice 2 1
                        (Sample.admin_query []) Demo.calm
                        Sample.store_with_orders))))
     = JStr "paid".
Proof.
  split; [| split].
  - destruct (admin_get_order_answers Sample.sv Sample.users_with_alice 9 1
                (Sample.admin_query []) Demo.calm Sample.store_with_orders)
      as (_ & _ & _ & H & _).
    exact (H eq_refl eq_refl ltac:(vm_compute; reflexivity)).
  - destruct (admin_get_order_answers Sample.sv Sample.users_with_alice 2 1
                (Sample.admin_query []) (mkEnv true (Some 2%nat) 1000)
                Sample.store_with_orders) as (_ & _ & H & _).
    apply (H 2%nat); [reflexivity | reflexivity |].
    right. split; [lia | vm_compute; discriminate].
  - vm_compute. reflexivity.
Defined.

Lemma find_app_fresh {A} (f : A -> bool) l x :
  (forall y, In y l -> f y = false) -> f x = true -> find f (l ++ [x]) = Some x.
Proof.
  intros Hl Hx. induction l as [| y l IH]; simpl.
  - rewrite Hx. reflexivity.
  - rewrite (Hl y (or_introl eq_refl)). apply IH.
    intros z Hz. apply Hl. right. exact Hz.
Qed.

Lemma find_app_none {A} (f : A -> bool) l l' :
  (forall y, In y l -> f y = false) -> find f (l ++ l') = find f l'.
Proof.
  intros Hl. induction l as [| y l IH]; simpl; [reflexivity |].
  rewrite (Hl y (or_introl eq_refl)). apply IH.
  intros z Hz. apply Hl. right. exact Hz.
Qed.

Section OrderAsAdminSeesIt.

Variable rt : runtime.
Variable sv : server.

(** X14.  A placed order as the administrator sees it.  After a checkout
    answered 201, in a store whose payment rows all belong to orders on
    file, GET /admin/orders/<id> for the id of the answer, on a connection
    that works, shows the order of that customer with the status of the
    answer; for cash on delivery its payment is null, and for a card the
    payment holds the method "card" and, of the card number, a text of
    exactly four characters: the last four of the characters of the
    number that are not spaces. *)
Theorem placed_order_as_admin_sees_it :
  forall (users : list user_row) (admin user : Z) (req req' : request)
         (e e' : env) (d : db),
    status (fst (checkout rt user req e d)) = 201 ->
    db_up e' = true -> fault_at e' = None ->
    (forall pd, In pd (payment_details d) ->
                exists o, In o (orders d) /\ o_id o = pd_order_id pd) ->
    let placed := body (fst (checkout rt user req e d)) in
    let shown :=
      json_field "order"
        (body (fst (admin_get_order sv users (Sql.next_order_id d) admin req' e'
                      (snd (checkout rt user req e d))))) in
    json_field "order_id" placed = JInt (Sql.next_order_id d)
    /\ json_field "id" shown = JInt (Sql.next_order_id d)
    /\ json_field "user_id" shown = JInt user
    /\ json_field "status" shown = json_field "status" placed
    /\ json_field "payment_method" shown = json_field "payment_method" placed
    /\ (json_field "payment_method" placed = JStr "cod" ->
        json_field "payment" shown = JNull)
    /\ (json_field "payment_method" placed = JStr "card" ->
        exists card number last4,
          card_details_of req = JObj card
          /\ Py.get "cardNumber" card = Some (JStr number)
          /\ json_field "payment_method" (json_field "payment" shown)
             = JStr "card"
          /\ json_field "card_last4" (json_field "payment" shown)
             = JStr last4
          /\ masks last4 number).
Proof.
  intros users admin user req req' e e' d Hok Hup Hf Hrefs. cbv zeta.
  destruct (placed_order_rows rt user req e d Hok)
    as (ck & total & row & Hv & Hans & Horders & Hid & Huser & Hpm & Hst & Hpay).
  set (oid := Sql.next_order_id d) in *.
  set (d1 := snd (checkout rt user req e d)) in *.
  assert (Hfresh : forall pd, In pd (payment_details d) ->
                              (pd_order_id pd =? oid) = false).
  { intros pd Hin. destruct (Hrefs pd Hin) as (o & Ho & Heq).
    rewrite <- Heq. apply next_order_id_fresh. exact Ho. }
  assert (Hsel : Sql.select_order oid d1 = Some row).
  { unfold Sql.select_order. rewrite Horders. apply find_app_fresh.
    - intros o Ho. apply next_order_id_fresh. exact Ho.
    - apply Z.eqb_eq. exact Hid. }
  rewrite (admin_get_order_calm sv users oid admin req' e' d1 Hup Hf), Hsel.
  rewrite Hans.
  split; [reflexivity |].
  split; [change (JInt (o_id row) = JInt oid); rewrite Hid; reflexivity |].
  split; [change (JInt (o_user_id row) = JInt user); rewrite Huser; reflexivity |].
  split.
  { change (JStr (o_status row) = JStr (final_status (ck_payment_method ck))).
    rewrite Hst. reflexivity. }
  split.
  { change (JStr (o_payment_method row) = JStr (ck_payment_method ck)).
    rewrite Hpm. reflexivity. }
  change (json_field "payment_method"
            (body (order_placed oid (ck_payment_method ck) total)))
    with (JStr (ck_payment_method ck)).
  change (json_field "payment"
            (json_field "order"
               (body (fst (mkResponse 200
                             (JObj [("order",
                                     full_order_json sv users row
                                       (select_order_lines oid d1)
                                       (select_payment oid d1))]),
                           d1)))))
    with (payment_json (select_payment oid d1)).
  destruct Hpay as [(Hcard & card & number & name & expiry & nt & et
                       & Hcd & Hnum & _ & _ & _ & _ & Hrows)
                   | (Hcod & Hrows)].
  - split.
    + intros Heq. injection Heq as Heq. rewrite Hcard in Heq. discriminate Heq.
    + intros _.
      destruct (validate_checkout_val _ _ Hv)
        as (s & _ & Hlow & _ & _ & _ & _ & Hc & Hcheck).
      assert (Hcd' : card_details_of req = JObj card).
      { unfold card_details_of. rewrite <- Hc. exact Hcd. }
      assert (Hok' : card_ok (JObj card) = true).
      { apply check_card_ok. rewrite <- Hcd. apply Hcheck.
        rewrite <- Hlow. exact Hcard. }
      destruct (card_ok_number card Hok') as (digits & Hdigits & Hlen).
      unfold Py.get_or_none in Hdigits. rewrite Hnum in Hdigits.
      subst number.
      exists card, digits, (card_last4 digits).
      split; [exact Hcd' |]. split; [exact Hnum |].
      unfold select_payment. rewrite Hrows.
      rewrite (find_app_fresh (fun pd => pd_order_id pd =? oid) _ _ Hfresh)
        by (simpl; apply Z.eqb_refl).
      split; [reflexivity |]. split; [reflexivity |].
      apply card_last4_masks. rewrite <- length_remove_spaces. lia.
  - split.
    + intros _. unfold select_payment. rewrite Hrows.
      rewrite (find_none_all _ _ Hfresh). reflexivity.
    + intros Heq. injection Heq as Heq. rewrite Hcod in Heq. discriminate Heq.
Qed.

End OrderAsAdminSeesIt.

(** User 7 pays by card with the number "4111 1111 1111 12 34", typed
    with "2 34" at its end: the administrator sees "paid" and "1234". *)
Lemma placed_order_as_admin_sees_it_witness :
  json_field "status"
    (json_field "order"
       (body (fst (admin_get_order Sample.sv Sample.users_with_alice 2 1
                     (Sample.admin_query []) Demo.calm
                     (snd (checkout Demo.rt 7
                             (Demo.card_order [Demo.order_line 5 1]
                                "4111 1111 1111 12 34" "123")
                             Demo.calm Demo.store_with_order))))))
  = JStr "paid"
  /\ (exists card number last4,
         card_details_of (Demo.card_order [Demo.order_line 5 1]
                            "4111 1111 1111 12 34" "123") = JObj card
         /\ Py.get "cardNumber" card = Some (JStr number)
         /\ json_field "payment_method"
              (json_field "payment"
                 (json_field "order"
                    (body (fst (admin_get_order Sample.sv
                                  Sample.users_with_alice 2 1
                                  (Sample.admin_query []) Demo.calm
                                  (snd (checkout Demo.rt 7
                                          (Demo.card_order [Demo.order_line 5 1]
                                             "4111 1111 1111 12 34" "123")
                                          Demo.calm Demo.store_with_order)))))))
            = JStr "card"
         /\ json_field "card_last4"
              (json_field "payment"
                 (json_field "order"
                    (body (fst (admin_get_order Sample.sv
                                  Sample.users_with_alice 2 1
                                  (Sample.admin_query []) Demo.calm
                                  (snd (checkout Demo.rt 7
                                          (Demo.card_order [Demo.order_line 5 1]
                                             "4111 1111 1111 12 34" "123")
                                          Demo.calm Demo.store_with_order)))))))
            = JStr last4
         /\ masks last4 number)
  /\ json_field "card_last4"
       (json_field "payment"
          (json_field "order"
             (body (fst (admin_get_order Sample.sv Sample.users_with_alice 2 1
                           (Sample.admin_query []) Demo.calm
                           (snd (checkout Demo.rt 7
                                   (Demo.card_order [Demo.order_line 5 1]
                                      "4111 1111 1111 12 34" "123")
                                   Demo.calm Demo.store_with_order)))))))
     = JStr "1234".
Proof.
  destruct (placed_order_as_admin_sees_it Demo.rt Sample.sv Sample.users_with_alice 1 7
              (Demo.card_order [Demo.order_line 5 1] "4111 1111 1111 12 34" "123")
              (Sample.admin_query []) Demo.calm Demo.calm Demo.store_with_order
              ltac:(vm_compute; reflexivity) eq_refl eq_refl
              ltac:(intros pd []))
    as (_ & _ & _ & Hst & _ & _ & Hcard).
  split; [exact Hst |]. split.
  - apply Hcard. reflexivity.
  - vm_compute. reflexivity.
Defined.

(** ** A status update and the listings *)

Lemma select_order_updated st id d o :
  Sql.select_order id d = Some o ->
  Sql.select_order id (Sql.update_order_status st id d)
  = Some (Sql.with_status st o).
Proof.
  unfold Sql.select_order, Sql.update_order_status. simpl.
  induction (orders d) as [| x l IH]; simpl; [discriminate |].
  destruct (o_id x =? id) eqn:E.
  - intros H. injection H as <-. simpl. rewrite E. reflexivity.
  - intros H. rewrite E. apply IH. exact H.
Qed.

Section StatusAcrossCalls.

Variable rt : runtime.
Variable sv : server.

(** What a status update answered 200 has done. *)
Lemma admin_update_order_status_200 oid req e d :
  status (fst (admin_update_order_status rt oid req e d)) = 200 ->
  exists new_status o,
    In new_status allowed_statuses
    /\ Sql.select_order oid d = Some o
    /\ admin_update_order_status rt oid req e d
       = (mkResponse 200 (JObj [("message", JStr "Status updated");
                                ("new_status", JStr new_status)]),
          Sql.update_order_status new_status oid d).
Proof.
  unfold admin_update_order_status.
  destruct (requested_status req) as [| b | n | q | s | l | o] eqn:Hreq;
    [discriminate | | | | | |];
    match goal with
    | |- context [in_strings ?ns allowed_statuses] =>
        destruct (in_strings ns allowed_statuses) eqn:Hin;
          [| discriminate];
        apply in_strings_In in Hin;
        unfold with_connection;
        destruct (db_up e); [| discriminate];
        unfold try_except, bind, query, execute, commit, tick;
        destruct (fault_at e) as [[| [| [| k]]] |]; simpl;
          try discriminate;
          (destruct (Sql.select_order oid d) as [o' |] eqn:Hsel; simpl;
             try discriminate);
          intros _; exists ns, o'; (split; [exact Hin |]);
          (split; [reflexivity | reflexivity])
    end.
Qed.

(** X15.  A status the administrator sets is the status everyone sees.
    After a status update answered 200, on connections that work:
    GET /admin/orders/<id> for the same id answers 200 and shows the new
    status; every entry of a customer's GET /orders with that id shows it;
    and every order with another id is as before. *)
Theorem updated_status_is_shown :
  forall (users : list user_row) (oid admin user : Z)
         (req req' req'' : request) (e e' : env) (d : db),
    status (fst (admin_update_order_status rt oid req e d)) = 200 ->
    db_up e' = true -> fault_at e' = None ->
    let new_status :=
      json_field "new_status"
        (body (fst (admin_update_order_status rt oid req e d))) in
    let d1 := snd (admin_update_order_status rt oid req e d) in
    status (fst (admin_get_order sv users oid admin req' e' d1)) = 200
    /\ json_field "status"
         (json_field "order"
            (body (fst (admin_get_order sv users oid admin req' e' d1))))
       = new_status
    /\ (forall entry,
           In entry (json_elements
                       (json_field "orders"
                          (body (fst (get_orders sv user req'' e' d1))))) ->
           json_field "id" entry = JInt oid ->
           json_field "status" entry = new_status)
    /\ (forall o, o_id o <> oid -> (In o (orders d1) <-> In o (orders d))).
Proof.
  intros users oid admin user req req' req'' e e' d Hok Hup Hf. cbv zeta.
  destruct (admin_update_order_status_200 oid req e d Hok)
    as (ns & o & _ & Hsel & ->).
  simpl fst. simpl snd.
  change (json_field "new_status"
            (body (mkResponse 200 (JObj [("message", JStr "Status updated");
                                         ("new_status", JStr ns)]))))
    with (JStr ns).
  rewrite (admin_get_order_calm sv users oid admin req' e' _ Hup Hf).
  rewrite (select_order_updated ns oid d o Hsel).
  split; [reflexivity |]. split; [reflexivity |]. split.
  - rewrite (get_orders_calm sv user req'' e' _ Hup Hf). simpl.
    intros entry Hin Hid. apply in_map_iff in Hin.
    destruct Hin as (row & <- & Hrow).
    unfold select_user_orders in Hrow.
    apply order_by_desc_In, filter_In in Hrow. destruct Hrow as [Hrow _].
    change (JInt (o_id row) = JInt oid) in Hid. injection Hid as Hid.
    change (JStr (o_status row) = JStr ns). f_equal.
    exact (proj1 (update_order_status_rows ns oid d) row Hrow Hid).
  - intros o' Hne. exact (proj2 (update_order_status_rows ns oid d) o' Hne).
Qed.

End StatusAcrossCalls.

(** The administrator ships order 2 of user 7. *)
Lemma updated_status_is_shown_witness :
  json_field "status"
    (json_field "order"
       (body (fst (admin_get_order Sample.sv Sample.users_with_alice 2 1
                     (Sample.admin_query []) Demo.calm
                     (snd (admin_update_order_status Demo.rt 2
                             (Sample.admin_query [("status", " Shipped ")])
                             Demo.calm Sample.store_with_orders))))))
  = JStr "shipped".
Proof.
  destruct (updated_status_is_shown Demo.rt Sample.sv Sample.users_with_alice 2 1 7
              (Sample.admin_query [("status", " Shipped ")])
              (Sample.admin_query []) (Demo.with_token "alice-token")
              Demo.calm Demo.calm Sample.store_with_orders
              ltac:(vm_compute; reflexivity) eq_refl eq_refl)
    as (_ & H & _).
  rewrite H. vm_compute. reflexivity.
Defined.

(* ================================================================== *)
(** * Further properties: accounts *)
(* ================================================================== *)

(** ** Python comparisons *)

Lemma py_equal_str s b : py_equal (JStr s) b = true -> b = JStr s.
Proof.
  destruct b as [| b | n | q | t | l | o]; simpl; intros H;
    try discriminate H.
  apply String.eqb_eq in H. subst t. reflexivity.
Qed.

Lemma prefix_app n a b :
  String.prefix n a = true -> String.prefix n (a ++ b) = true.
Proof.
  revert a. induction n as [| c n IH]; intros a H;
    [destruct (a ++ b)%string; reflexivity |].
  destruct a as [| c' a]; simpl in *; [discriminate H |].
  destruct (ascii_dec c c'); [apply IH; exact H | discriminate H].
Qed.

Lemma prefix_self n b : String.prefix n (n ++ b) = true.
Proof.
  induction n as [| c n IH]; [destruct b; reflexivity |]. simpl.
  destruct (ascii_dec c c); [exact IH | contradiction].
Qed.

Lemma str_contains_app_l n a b :
  str_contains n a = true -> str_contains n (a ++ b) = true.
Proof.
  induction a as [| c a IH]; simpl; intros H.
  - rewrite orb_false_r in H. destruct n; [| discriminate H].
    destruct b; reflexivity.
  - apply orb_true_iff in H. apply orb_true_iff. destruct H as [H | H].
    + left. exact (prefix_app n (String c a) b H).
    + right. apply IH. exact H.
Qed.

Lemma str_contains_app_r n a b :
  str_contains n b = true -> str_contains n (a ++ b) = true.
Proof.
  intros H. induction a as [| c a IH]; simpl; [exact H |].
  rewrite IH. apply orb_true_r.
Qed.

(** ** Signup *)

Lemma integrity_answer_status error_msg :
  status (integrity_answer error_msg) = 400.
Proof.
  unfold integrity_answer.
  repeat match goal with
         | |- context [if ?b then _ else _] => destruct b
         end; reflexivity.
Qed.

Lemma py_len_converts v : converts (py_len v).
Proof. intro r. destruct v; discriminate. Qed.

Lemma py_in_converts needle v : converts (py_in needle v).
Proof. intro r. destruct v; discriminate. Qed.

Lemma signup_checks_ret username email phone_number password confirm r :
  signup_checks username email phone_number password confirm = Ret r ->
  status r = 400.
Proof.
  unfold signup_checks.
  destruct (negb (forallb Py.truthy _)); [intros H; injection H as <-; reflexivity |].
  destruct (negb (py_equal password confirm));
    [intros H; injection H as <-; reflexivity |].
  destruct (py_len password) as [n | r' | ex] eqn:Hlen; simpl;
    [| exfalso; exact (py_len_converts _ _ Hlen) | discriminate].
  destruct (n <? 6)%nat; [intros H; injection H as <-; reflexivity |].
  destruct (py_in "@" email) as [b | r' | ex] eqn:Hin; simpl;
    [| exfalso; exact (py_in_converts _ _ _ Hin) | discriminate].
  destruct (negb b); [intros H; injection H as <-; reflexivity | discriminate].
Qed.

Lemma signup_checks_val username email phone_number password confirm x :
  signup_checks username email phone_number password confirm = Val x ->
  forallb Py.truthy [username; email; phone_number; password; confirm] = true
  /\ py_equal password confirm = true
  /\ (exists n, py_len password = Val n /\ (6 <= n)%nat)
  /\ py_in "@" email = Val true.
Proof.
  unfold signup_checks.
  destruct (forallb Py.truthy _) eqn:Hall; simpl; [| discriminate].
  destruct (py_equal password confirm) eqn:Heq; simpl; [| discriminate].
  destruct (py_len password) as [n | r' | ex]; simpl; try discriminate.
  destruct (n <? 6)%nat eqn:Hn; [discriminate |].
  destruct (py_in "@" email) as [b | r' | ex]; simpl; try discriminate.
  destruct b; simpl; [| discriminate].
  intros _. apply Nat.ltb_ge in Hn. repeat split.
  exists n. split; [reflexivity | exact Hn].
Qed.

Section AccountsProperties.

Variable rt : runtime.
Variable sv : server.
Variable cr : crypto.

(** A signup either leaves the table alone or appends the row it
    describes. *)
Lemma signup_cases role message salt req e users :
  (status (fst (signup rt sv cr role message salt req e users)) <> 201
   /\ snd (signup rt sv cr role message salt req e users) = users)
  \/ exists data name email phone pw,
       json_body req = Some data
       /\ sql_text rt (Py.get_or_none "username" data) = Some (Some name)
       /\ sql_text rt (Py.get_or_none "email" data) = Some (Some email)
       /\ sql_text rt (Py.get_or_none "phone_number" data) = Some (Some phone)
       /\ Py.get_or_none "password" data = JStr pw
       /\ Py.get_or_none "confirm_password" data = JStr pw
       /\ (6 <= String.length pw)%nat
       /\ py_in "@" (Py.get_or_none "email" data) = Val true
       /\ integrity sv
            (mkUser (next_user_id users) name email phone
               (generate_password_hash cr salt pw) role) users = None
       /\ signup rt sv cr role message salt req e users
          = (mkResponse 201 (JObj [("message", JStr message)]),
             users ++ [mkUser (next_user_id users) name email phone
                         (generate_password_hash cr salt pw) role]).
Proof.
  unfold signup.
  destruct (json_body req) as [data |] eqn:Hbody;
    [| left; split; [discriminate | reflexivity]].
  destruct (signup_checks _ _ _ _ _) as [[] | r | ex] eqn:Hchk.
  2: { left. split; [| reflexivity]. simpl.
       rewrite (signup_checks_ret _ _ _ _ _ _ Hchk). discriminate. }
  2: { left. split; [discriminate | reflexivity]. }
  apply signup_checks_val in Hchk.
  destruct Hchk as (_ & Heq & (n & Hlen & Hn) & Hat).
  destruct (db_up e); simpl; [| left; split; [discriminate | reflexivity]].
  destruct (Py.get_or_none "password" data) as [| b | z | q | pw | l | o]
    eqn:Hpw;
    try (left; split; [discriminate | reflexivity]).
  apply py_equal_str in Heq. simpl in Hlen. injection Hlen as <-.
  unfold signup_insert.
  destruct (sql_text rt (Py.get_or_none "username" data)) as [[name |] |]
    eqn:Hname;
    try (left; split; [discriminate | reflexivity]).
  destruct (sql_text rt (Py.get_or_none "email" data)) as [[email |] |]
    eqn:Hemail;
    try (left; split; [discriminate | reflexivity]).
  destruct (sql_text rt (Py.get_or_none "phone_number" data)) as [[phone |] |]
    eqn:Hphone;
    try (left; split; [discriminate | reflexivity]).
  destruct (raises_at e 0); [left; split; [discriminate | reflexivity] |].
  destruct (integrity sv _ users) as [msg |] eqn:Hint.
  { left. split; [| reflexivity]. simpl.
    rewrite integrity_answer_status. discriminate. }
  destruct (raises_at e 1); [left; split; [discriminate | reflexivity] |].
  right. exists data, name, email, phone, pw.
  split; [reflexivity |]. split; [exact Hname |]. split; [exact Hemail |].
  split; [exact Hphone |]. split; [exact Hpw |]. split; [exact Heq |].
  split; [exact Hn |]. split; [exact Hat |]. split; [exact Hint |].
  reflexivity.
Qed.

(** X16.  A signup stores one account or nothing.  Whatever the request
    and the connection, the table of users is unchanged unless the answer
    is 201.  An answer 201 means: the two passwords are the same string of
    at least 6 characters, the email contains "@", the server accepted
    the row, and exactly one row was appended, holding the given user
    name, email and phone number, the hash of the password (not the
    password) and the role of the endpoint: 1 for /admin/signup, 2 for
    /customer/signup. *)
Theorem signup_stores_one_account_or_nothing :
  forall (salt : string) (req : request) (e : env) (users : list user_row),
    (forall role message,
        status (fst (signup rt sv cr role message salt req e users)) <> 201 ->
        snd (signup rt sv cr role message salt req e users) = users)
    /\
    (forall role message,
        status (fst (signup rt sv cr role message salt req e users)) = 201 ->
        exists data name email phone pw,
          json_body req = Some data
          /\ sql_text rt (Py.get_or_none "username" data) = Some (Some name)
          /\ sql_text rt (Py.get_or_none "email" data) = Some (Some email)
          /\ sql_text rt (Py.get_or_none "phone_number" data) = Some (Some phone)
          /\ Py.get_or_none "password" data = JStr pw
          /\ Py.get_or_none "confirm_password" data = JStr pw
          /\ (6 <= String.length pw)%nat
          /\ py_in "@" (Py.get_or_none "email" data) = Val true
          /\ integrity sv
               (mkUser (next_user_id users) name email phone
                  (generate_password_hash cr salt pw) role) users = None
          /\ snd (signup rt sv cr role message salt req e users)
             = users ++ [mkUser (next_user_id users) name email phone
                           (generate_password_hash cr salt pw) role])
    /\
    (status (fst (admin_signup rt sv cr salt req e users)) = 201 ->
     exists row, snd (admin_signup rt sv cr salt req e users) = users ++ [row]
                 /\ u_role_id row = 1)
    /\
    (status (fst (customer_signup rt sv cr salt req e users)) = 201 ->
     exists row, snd (customer_signup rt sv cr salt req e users) = users ++ [row]
                 /\ u_role_id row = 2).
Proof.
  intros salt req e users. split; [| split; [| split]].
  - intros role message Hno.
    destruct (signup_cases role message salt req e users)
      as [[_ H] | (data & name & email & phone & pw & H)]; [exact H |].
    destruct H as (_ & _ & _ & _ & _ & _ & _ & _ & _ & H).
    rewrite H in Hno. exfalso. apply Hno. reflexivity.
  - intros role message Hok.
    destruct (signup_cases role message salt req e users)
      as [[H _] | (data & name & email & phone & pw & H)]; [contradiction |].
    destruct H as (H1 & H2 & H3 & H4 & H5 & H6 & H7 & H8 & H9 & H).
    exists data, name, email, phone, pw. rewrite H.
    repeat (split; [assumption |]). reflexivity.
  - unfold admin_signup. intros Hok.
    destruct (signup_cases 1 "Admin registered successfully!" salt req e users)
      as [[H _] | (data & name & email & phone & pw & H)]; [contradiction |].
    destruct H as (_ & _ & _ & _ & _ & _ & _ & _ & _ & ->).
    eexists. split; reflexivity.
  - unfold customer_signup. intros Hok.
    destruct (signup_cases 2 "Customer registered successfully!" salt req e users)
      as [[H _] | (data & name & email & phone & pw & H)]; [contradiction |].
    destruct H as (_ & _ & _ & _ & _ & _ & _ & _ & _ & ->).
    eexists. split; reflexivity.
Qed.

(** X17.  The signup answer names the missing fields.  When the body
    lacks one of username, email, phone_number, password and
    confirm_password, or holds an empty value for it, the answer is 400
    "Missing required fields: ..." with exactly those fields, in that
    order, whatever the other fields hold and whatever the connection
    does; nothing is stored. *)
Theorem signup_names_missing_fields :
  forall (role : Z) (message salt : string) (req : request) (e : env)
         (users : list user_row) (data : dict),
    json_body req = Some data ->
    filter (fun k => negb (Py.truthy (Py.get_or_none k data)))
      ["username"; "email"; "phone_number"; "password"; "confirm_password"]
    <> [] ->
    signup rt sv cr role message salt req e users
    = (error_response 400
         ("Missing required fields: "
          ++ String.concat ", "
               (filter (fun k => negb (Py.truthy (Py.get_or_none k data)))
                  ["username"; "email"; "phone_number"; "password";
                   "confirm_password"])),
       users).
Proof.
  intros role message salt req e users data Hbody Hmissing.
  unfold signup. rewrite Hbody. unfold signup_checks, missing_fields.
  simpl filter in *. simpl forallb.
  destruct (Py.truthy (Py.get_or_none "username" data));
    destruct (Py.truthy (Py.get_or_none "email" data));
    destruct (Py.truthy (Py.get_or_none "phone_number" data));
    destruct (Py.truthy (Py.get_or_none "password" data));
    destruct (Py.truthy (Py.get_or_none "confirm_password" data));
    simpl in *; try reflexivity.
  exfalso. apply Hmissing. reflexivity.
Qed.

(** X18.  The order of the signup checks, for a body whose five fields
    are non-empty strings.  Passwords that differ are answered 400
    "Passwords do not match", even when they are also too short; equal
    passwords of fewer than 6 characters 400 "Password must be at least 6
    characters long"; and then an email without "@" 400 "Invalid email
    format".  Nothing is stored in any of these cases, and no connection
    is needed to get the answer. *)
Theorem signup_validation_order :
  forall (role : Z) (message salt : string) (req : request) (e : env)
         (users : list user_row) (data : dict)
         (username email phone pw confirm : string),
    json_body req = Some data ->
    Py.get_or_none "username" data = JStr username ->
    Py.get_or_none "email" data = JStr email ->
    Py.get_or_none "phone_number" data = JStr phone ->
    Py.get_or_none "password" data = JStr pw ->
    Py.get_or_none "confirm_password" data = JStr confirm ->
    username <> "" -> email <> "" -> phone <> "" -> pw <> "" -> confirm <> "" ->
    (pw <> confirm ->
     signup rt sv cr role message salt req e users
     = (error_response 400 "Passwords do not match", users))
    /\ (pw = confirm -> (String.length pw < 6)%nat ->
        signup rt sv cr role message salt req e users
        = (error_response 400 "Password must be at least 6 characters long",
           users))
    /\ (pw = confirm -> (6 <= String.length pw)%nat ->
        str_contains "@" email = false ->
        signup rt sv cr role message salt req e users
        = (error_response 400 "Invalid email format", users)).
Proof.
  intros role message salt req e users data username email phone pw confirm
         Hbody Hu He Hp Hpw Hc Hun Hen Hpn Hpwn Hcn.
  apply String.eqb_neq in Hun, Hen, Hpn, Hpwn, Hcn.
  unfold signup. rewrite Hbody, Hu, He, Hp, Hpw, Hc.
  unfold signup_checks. simpl.
  rewrite Hun, Hen, Hpn, Hpwn, Hcn. simpl. split; [| split].
  - intros Hne. apply String.eqb_neq in Hne. rewrite Hne. reflexivity.
  - intros <- Hshort. rewrite String.eqb_refl. simpl.
    apply Nat.ltb_lt in Hshort. rewrite Hshort. reflexivity.
  - intros <- Hlong Hat. rewrite String.eqb_refl. simpl.
    apply Nat.ltb_ge in Hlong. rewrite Hlong, Hat. reflexivity.
Qed.

End AccountsProperties.

(** Alice signs up as a customer; a second signup under her name changes
    nothing. *)
Lemma signup_stores_one_account_or_nothing_witness :
  (exists row,
      snd (customer_signup Demo.rt Sample.sv Sample.cr "s9" Sample.alice_signup
             Demo.calm Sample.users)
      = Sample.users ++ [row]
      /\ u_role_id row = 2)
  /\ snd (customer_signup Demo.rt Sample.sv Sample.cr "s9" Sample.alice_signup
            Demo.calm Sample.users_with_alice)
     = Sample.users_with_alice.
Proof.
  destruct (signup_stores_one_account_or_nothing Demo.rt Sample.sv Sample.cr
              "s9" Sample.alice_signup Demo.calm Sample.users)
    as (_ & _ & _ & Hnew).
  destruct (signup_stores_one_account_or_nothing Demo.rt Sample.sv Sample.cr
              "s9" Sample.alice_signup Demo.calm Sample.users_with_alice)
    as (Hsame & _).
  split.
  - apply Hnew. vm_compute. reflexivity.
  - apply (Hsame 2 "Customer registered successfully!").
    vm_compute. discriminate.
Defined.

Lemma signup_names_missing_fields_witness :
  signup Demo.rt Sample.sv Sample.cr 2 "Customer registered successfully!" "s9"
    (Sample.anonymous [("username", JStr "bob"); ("email", JStr "");
                       ("password", JStr "secret1")])
    Demo.calm Sample.users
  = (error_response 400
       "Missing required fields: email, phone_number, confirm_password",
     Sample.users).
Proof.
  apply (signup_names_missing_fields Demo.rt Sample.sv Sample.cr 2
           "Customer registered successfully!" "s9"
           (Sample.anonymous [("username", JStr "bob"); ("email", JStr "");
                              ("password", JStr "secret1")])
           Demo.calm Sample.users
           [("username", JStr "bob"); ("email", JStr "");
            ("password", JStr "secret1")]
           eq_refl).
  vm_compute. discriminate.
Defined.

(** Two short passwords that differ: the mismatch is reported. *)
Lemma signup_validation_order_witness :
  signup Demo.rt Sample.sv Sample.cr 2 "Customer registered successfully!" "s9"
    (Sample.anonymous [("username", JStr "bob"); ("email", JStr "bob");
                       ("phone_number", JStr "77"); ("password", JStr "abc");
                       ("confirm_password", JStr "abd")])
    Demo.calm Sample.users
  = (error_response 400 "Passwords do not match", Sample.users).
Proof.
  apply (signup_validation_order Demo.rt Sample.sv Sample.cr 2
           "Customer registered successfully!" "s9"
           (Sample.anonymous [("username", JStr "bob"); ("email", JStr "bob");
                              ("phone_number", JStr "77");
                              ("password", JStr "abc");
                              ("confirm_password", JStr "abd")])
           Demo.calm Sample.users
           [("username", JStr "bob"); ("email", JStr "bob");
            ("phone_number", JStr "77"); ("password", JStr "abc");
            ("confirm_password", JStr "abd")]
           "bob" "bob" "77" "abc" "abd");
    try reflexivity; discriminate.
Defined.

(** ** Occurrences in a text *)

Lemma string_app_assoc (a b c : string) :
  ((a ++ b) ++ c = a ++ b ++ c)%string.
Proof. induction a as [| x a IH]; simpl; [| rewrite IH]; reflexivity. Qed.

Lemma prefix_spec n s :
  String.prefix n s = true <-> exists q, s = (n ++ q)%string.
Proof.
  revert s. induction n as [| c n IH]; intros s.
  - split; [intros _; exists s; reflexivity | intros _; destruct s; reflexivity].
  - destruct s as [| c' s]; simpl.
    + split; [discriminate | intros (q & H); discriminate H].
    + destruct (ascii_dec c c') as [<- | Hne].
      * rewrite IH. split; intros (q & H); exists q.
        -- rewrite H. reflexivity.
        -- injection H as H. exact H.
      * split; [discriminate |].
        intros (q & H). injection H as H _. symmetry in H. contradiction.
Qed.

(** [needle in s]: the text is something, then the needle, then
    something. *)
Lemma str_contains_spec n s :
  str_contains n s = true <-> exists p q, s = (p ++ n ++ q)%string.
Proof.
  induction s as [| c s IH].
  - change (str_contains n "") with (String.prefix n "" || false).
    rewrite orb_false_r, prefix_spec. split.
    + intros (q & H). exists "", q. exact H.
    + intros (p & q & H). destruct p; simpl in H; [| discriminate H].
      exists q. exact H.
  - change (str_contains n (String c s))
      with (String.prefix n (String c s) || str_contains n s).
    rewrite orb_true_iff, prefix_spec, IH. split.
    + intros [(q & H) | (p & q & H)].
      * exists "", q. exact H.
      * exists (String c p), q. simpl. rewrite H. reflexivity.
    + intros (p & q & H). destruct p as [| c' p]; simpl in H.
      * left. exists q. exact H.
      * right. injection H as _ H. exists p, q. exact H.
Qed.

(** A text without a needle has no longer needle that ends with it. *)
Lemma str_contains_longer a b s :
  str_contains b s = false -> str_contains (a ++ b) s = false.
Proof.
  intros H. destruct (str_contains (a ++ b) s) eqn:E; [| reflexivity].
  apply str_contains_spec in E. destruct E as (p & q & ->).
  assert (Hb : str_contains b (p ++ (a ++ b) ++ q) = true).
  { apply str_contains_spec. exists (p ++ a)%string, q.
    rewrite !string_app_assoc. reflexivity. }
  rewrite Hb in H. discriminate H.
Qed.

Section AccountsAcrossCalls.

Variable rt : runtime.
Variable sv : server.
Variable cr : crypto.

(** X19.  How a refused signup is answered.  When the server refuses the
    row with an IntegrityError, the answer is 400, nothing is stored, and
    the message is chosen from the text of the error alone: without
    "Duplicate entry" it is "User already exists"; with it, the first of
    "email", "phone_number" and "username" that occurs anywhere in the
    text decides.  So a duplicate under any key whose value contains
    "email" is answered "Email already exists". *)
Theorem signup_duplicate_answer :
  forall (role : Z) (message salt : string) (req : request) (e : env)
         (users : list user_row) (data : dict) (name email phone pw : string)
         (error_msg : string),
    json_body req = Some data ->
    signup_checks (Py.get_or_none "username" data) (Py.get_or_none "email" data)
      (Py.get_or_none "phone_number" data) (Py.get_or_none "password" data)
      (Py.get_or_none "confirm_password" data) = Val tt ->
    db_up e = true -> fault_at e = None ->
    Py.get_or_none "password" data = JStr pw ->
    sql_text rt (Py.get_or_none "username" data) = Some (Some name) ->
    sql_text rt (Py.get_or_none "email" data) = Some (Some email) ->
    sql_text rt (Py.get_or_none "phone_number" data) = Some (Some phone) ->
    integrity sv
      (mkUser (next_user_id users) name email phone
         (generate_password_hash cr salt pw) role) users = Some error_msg ->
    signup rt sv cr role message salt req e users
    = (integrity_answer error_msg, users)
    /\ status (integrity_answer error_msg) = 400
    /\ (str_contains "Duplicate entry" error_msg = false ->
        integrity_answer error_msg = error_response 400 "User already exists")
    /\ (str_contains "Duplicate entry" error_msg = true ->
        (str_contains "email" error_msg = true ->
         integrity_answer error_msg = error_response 400 "Email already exists")
        /\ (str_contains "email" error_msg = false ->
            str_contains "phone_number" error_msg = true ->
            integrity_answer error_msg
            = error_response 400 "Phone number already exists")
        /\ (str_contains "email" error_msg = false ->
            str_contains "phone_number" error_msg = false ->
            str_contains "username" error_msg = true ->
            integrity_answer error_msg
            = error_response 400 "Username already exists")
        /\ (str_contains "email" error_msg = false ->
            str_contains "phone_number" error_msg = false ->
            str_contains "username" error_msg = false ->
            integrity_answer error_msg
            = error_response 400 "User already exists"))
    /\ (forall key value,
           error_msg
           = ("Duplicate entry '" ++ value ++ "' for key '" ++ key ++ "'")%string ->
           str_contains "email" value = true ->
           integrity_answer error_msg
           = error_response 400 "Email already exists").
Proof.
  intros role message salt req e users data name email phone pw error_msg
         Hbody Hchk Hup Hf Hpw Hname Hemail Hphone Hint.
  assert (He' : str_contains "email" error_msg = false ->
                str_contains "users.email" error_msg = false)
    by exact (str_contains_longer "users." "email" error_msg).
  assert (Hp' : str_contains "phone_number" error_msg = false ->
                str_contains "users.phone_number" error_msg = false)
    by exact (str_contains_longer "users." "phone_number" error_msg).
  assert (Hu' : str_contains "username" error_msg = false ->
                str_contains "users.username" error_msg = false)
    by exact (str_contains_longer "users." "username" error_msg).
  split; [| split; [| split; [| split]]].
  - unfold signup. rewrite Hbody, Hchk, Hup, Hpw. simpl.
    unfold signup_insert, raises_at. rewrite Hname, Hemail, Hphone, Hf, Hint.
    reflexivity.
  - apply integrity_answer_status.
  - intros Hd. unfold integrity_answer. rewrite Hd. reflexivity.
  - intros Hd. unfold integrity_answer. rewrite Hd. simpl.
    split; [| split; [| split]].
    + intros ->. reflexivity.
    + intros He Hp. rewrite He, (He' He), Hp. reflexivity.
    + intros He Hp Hu. rewrite He, (He' He), Hp, (Hp' Hp), Hu. reflexivity.
    + intros He Hp Hu.
      rewrite He, (He' He), Hp, (Hp' Hp), Hu, (Hu' Hu). reflexivity.
  - intros key value -> Hv. unfold integrity_answer.
    assert (Hd : str_contains "Duplicate entry"
                   ("Duplicate entry '" ++ value ++ "' for key '" ++ key ++ "'")
                 = true).
    { apply str_contains_app_l. reflexivity. }
    rewrite Hd.
    assert (Hin : str_contains "email"
                    ("Duplicate entry '" ++ value ++ "' for key '" ++ key ++ "'")
                  = true).
    { apply (str_contains_app_r "email" "Duplicate entry '").
      apply str_contains_app_l. exact Hv. }
    rewrite Hin. reflexivity.
Qed.

End AccountsAcrossCalls.

(** A second "alice" is refused under the key of the user names; a new
    user called "email_fan" twice is told that the email exists. *)
Lemma signup_duplicate_answer_witness :
  signup Demo.rt Sample.sv Sample.cr 2 "Customer registered successfully!" "s9"
    Sample.alice_signup Demo.calm Sample.users_with_alice
  = (error_response 400 "Username already exists", Sample.users_with_alice)
  /\ integrity_answer "Duplicate entry 'email_fan' for key 'users.username'"
     = error_response 400 "Email already exists".
Proof.
  destruct (signup_duplicate_answer Demo.rt Sample.sv Sample.cr 2
              "Customer registered successfully!" "s9" Sample.alice_signup
              Demo.calm Sample.users_with_alice
              [("username", JStr "alice"); ("email", JStr "alice@shop.test");
               ("phone_number", JStr "555"); ("password", JStr "alicepass");
               ("confirm_password", JStr "alicepass")]
              "alice" "alice@shop.test" "555" "alicepass"
              (Sample.duplicate "username" "alice")
              eq_refl eq_refl eq_refl eq_refl eq_refl eq_refl eq_refl eq_refl
              eq_refl)
    as (Hanswer & _).
  split.
  - rewrite Hanswer. vm_compute. reflexivity.
  - vm_compute. reflexivity.
Defined.

(** ** Login *)

Section LoginProperties.

Variable rt : runtime.
Variable sv : server.
Variable cr : crypto.

Lemma select_login_some name role users user :
  select_login sv name role users = Some user ->
  In user users /\ text_eq sv name (u_username user) = true
  /\ u_role_id user = role.
Proof.
  unfold select_login. intros H. apply find_some in H.
  destruct H as [Hin H]. apply andb_prop in H. destruct H as [Hn Hr].
  apply Z.eqb_eq in Hr. auto.
Qed.

(** What a login answered 200 rests on. *)
Lemma login_200 role message utcnow req e users :
  status (login rt sv cr role message utcnow req e users) = 200 ->
  exists data name user,
    json_body req = Some data
    /\ sql_text rt (Py.get_or_none "username" data) = Some (Some name)
    /\ select_login sv name role users = Some user
    /\ check_password_hash cr (u_password_hash user)
         (Py.get_or_none "password" data) = Some true
    /\ login rt sv cr role message utcnow req e users
       = mkResponse 200
           (JObj [("message", JStr message);
                  ("token",
                   JStr (jwt_encode cr
                           (mkClaims (u_id user) (u_username user)
                              (u_role_id user))
                           (utcnow + 3600)))]).
Proof.
  unfold login.
  destruct (json_body req) as [data |] eqn:Hbody; [| discriminate].
  destruct (negb (Py.truthy (Py.get_or_none "username" data))
            || negb (Py.truthy (Py.get_or_none "password" data)));
    [discriminate |].
  destruct (db_up e); simpl; [| discriminate].
  destruct (sql_text rt (Py.get_or_none "username" data)) as [[name |] |]
    eqn:Hname; try discriminate.
  destruct (raises_at e 0); [discriminate |].
  destruct (select_login sv name role users) as [user |] eqn:Hsel;
    [| discriminate].
  destruct (check_password_hash cr (u_password_hash user)
              (Py.get_or_none "password" data)) as [[|] |] eqn:Hcheck;
    simpl; try discriminate.
  intros _. exists data, name, user.
  repeat (split; [first [reflexivity | assumption] |]). reflexivity.
Qed.

(** X20.  A login grants a token only to a stored user of the endpoint's
    role.  An answer 200 of /admin/login (role 1) or /customer/login
    (role 2) means that a stored user has that role, a name the server
    takes for the given one, and a password hash that accepts the given
    password; the token is signed over the id, the name and the role of
    that stored user and expires 3600 seconds after the time of the
    call. *)
Theorem login_grants_token_to_stored_user :
  forall (role : Z) (message : string) (utcnow : Z) (req : request) (e : env)
         (users : list user_row),
    status (login rt sv cr role message utcnow req e users) = 200 ->
    exists data name user,
      json_body req = Some data
      /\ sql_text rt (Py.get_or_none "username" data) = Some (Some name)
      /\ In user users
      /\ u_role_id user = role
      /\ text_eq sv name (u_username user) = true
      /\ check_password_hash cr (u_password_hash user)
           (Py.get_or_none "password" data) = Some true
      /\ body (login rt sv cr role message utcnow req e users)
         = JObj [("message", JStr message);
                 ("token",
                  JStr (jwt_encode cr
                          (mkClaims (u_id user) (u_username user) role)
                          (utcnow + 3600)))].
Proof.
  intros role message utcnow req e users Hok.
  destruct (login_200 role message utcnow req e users Hok)
    as (data & name & user & Hbody & Hname & Hsel & Hcheck & Hans).
  destruct (select_login_some _ _ _ _ Hsel) as (Hin & Hmatch & Hrole).
  exists data, name, user.
  repeat (split; [assumption |]). rewrite Hans, Hrole. reflexivity.
Qed.

(** X21.  What a login refuses, and how.  Without a user name or a
    password in the body the answer is 400.  Otherwise, on a connection
    that works and for a name that is a string: when no
    stored user of the endpoint's role has the name (the name is unknown,
    or it belongs to a user of the other role), and when the stored hash
    refuses the password, the answer is the same 401 "Invalid username or
    password". *)
Theorem login_refusals :
  forall (role : Z) (message : string) (utcnow : Z) (req : request) (e : env)
         (users : list user_row) (data : dict),
    json_body req = Some data ->
    (Py.truthy (Py.get_or_none "username" data) = false
     \/ Py.truthy (Py.get_or_none "password" data) = false ->
     login rt sv cr role message utcnow req e users
     = error_response 400 "Username and password required")
    /\
    (forall name,
        Py.get_or_none "username" data = JStr name -> name <> "" ->
        Py.truthy (Py.get_or_none "password" data) = true ->
        db_up e = true -> fault_at e = None ->
        ((forall u, In u users -> text_eq sv name (u_username u) = true ->
                    u_role_id u <> role) ->
         login rt sv cr role message utcnow req e users
         = error_response 401 "Invalid username or password")
        /\
        (forall user,
            select_login sv name role users = Some user ->
            check_password_hash cr (u_password_hash user)
              (Py.get_or_none "password" data) = Some false ->
            login rt sv cr role message utcnow req e users
            = error_response 401 "Invalid username or password")).
Proof.
  intros role message utcnow req e users data Hbody. split.
  - intros Hmissing. unfold login. rewrite Hbody.
    destruct Hmissing as [H | H]; rewrite H; simpl;
      [| rewrite orb_true_r]; reflexivity.
  - intros name Hname Hn Hp Hup Hf.
    apply String.eqb_neq in Hn.
    assert (Hhead :
      login rt sv cr role message utcnow req e users
      = match select_login sv name role users with
        | None => error_response 401 "Invalid username or password"
        | Some user =>
            match check_password_hash cr (u_password_hash user)
                    (Py.get_or_none "password" data) with
            | Some accepted =>
                if negb accepted
                then error_response 401 "Invalid username or password"
                else
                  mkResponse 200
                    (JObj [("message", JStr message);
                           ("token",
                            JStr (jwt_encode cr
                                    (mkClaims (u_id user) (u_username user)
                                       (u_role_id user))
                                    (utcnow + 3600)))])
            | None => error_response 500 "Server error"
            end
        end).
    { unfold login, raises_at. rewrite Hbody, Hname, Hp, Hup, Hf. simpl.
      rewrite Hn. reflexivity. }
    rewrite Hhead. split.
    + intros Hnone.
      destruct (select_login sv name role users) as [user |] eqn:Hsel;
        [| reflexivity].
      destruct (select_login_some _ _ _ _ Hsel) as (Hin & Hmatch & Hrole).
      exfalso. exact (Hnone user Hin Hmatch Hrole).
    + intros user Hsel Hcheck. rewrite Hsel, Hcheck. reflexivity.
Qed.

Lemma max_user_id_bound users u :
  In u users -> u_id u < next_user_id users.
Proof.
  intros Hin. unfold next_user_id.
  pose proof (max_id_bound (map u_id users)) as Hb.
  rewrite Forall_forall in Hb.
  specialize (Hb (u_id u) (in_map u_id _ _ Hin)). lia.
Qed.

(** X22.  Signing up and logging in is a round trip.  After a signup
    answered 201, when the password library accepts a password against
    its own hash, the server takes a name for itself, and no earlier user
    of the same role has a name the server takes for the new one: a login
    at the endpoint of that role with the body of the signup, on a
    connection that works, is answered 200, and its token is signed over
    the id and the name of the new row and the role. *)
Theorem signup_then_login :
  forall (role : Z) (message message' salt : string) (utcnow : Z)
         (req : request) (e e' : env) (users : list user_row),
    status (fst (signup rt sv cr role message salt req e users)) = 201 ->
    (forall s p, check_password_hash cr (generate_password_hash cr s p) (JStr p)
                 = Some true) ->
    (forall s, text_eq sv s s = true) ->
    (forall u name,
        In u users -> u_role_id u = role ->
        sql_text rt (Py.get_or_none "username" (body_of req)) = Some (Some name) ->
        text_eq sv name (u_username u) = false) ->
    db_up e' = true -> fault_at e' = None ->
    exists name,
      sql_text rt (Py.get_or_none "username" (body_of req)) = Some (Some name)
      /\ login rt sv cr role message' utcnow req e'
           (snd (signup rt sv cr role message salt req e users))
         = mkResponse 200
             (JObj [("message", JStr message');
                    ("token",
                     JStr (jwt_encode cr
                             (mkClaims (next_user_id users) name role)
                             (utcnow + 3600)))]).
Proof.
  intros role message message' salt utcnow req e e' users
         Hok Hhash Hrefl Hfresh Hup Hf.
  destruct (signup_cases rt sv cr role message salt req e users)
    as [[H _] | (data & name & email & phone & pw & H)]; [contradiction |].
  destruct H as (Hbody & Hname & _ & _ & Hpw & _ & Hlen & _ & _ & Hout).
  exists name. unfold body_of in *. rewrite Hbody in *.
  split; [exact Hname |]. rewrite Hout. simpl snd.
  unfold login, raises_at. rewrite Hbody, Hup, Hf, Hname, Hpw.
  assert (Htu : Py.truthy (Py.get_or_none "username" data) = true).
  { clear Hout. revert Hok. unfold signup. rewrite Hbody.
    destruct (signup_checks _ _ _ _ _) as [[] | r | ex] eqn:Hchk;
      [| intros Hr; simpl in Hr;
         rewrite (signup_checks_ret _ _ _ _ _ _ Hchk) in Hr; discriminate Hr
       | discriminate].
    intros _. apply signup_checks_val in Hchk. destruct Hchk as (Hall & _).
    simpl in Hall. apply andb_prop in Hall. destruct Hall as [Hall _].
    exact Hall. }
  rewrite Htu.
  assert (Htp : Py.truthy (JStr pw) = true).
  { simpl. destruct pw; [simpl in Hlen; lia | reflexivity]. }
  rewrite Htp. simpl.
  unfold select_login.
  rewrite find_app_fresh.
  - simpl. rewrite Hhash. reflexivity.
  - intros u Hin. destruct (u_role_id u =? role) eqn:Hr.
    + apply Z.eqb_eq in Hr. rewrite (Hfresh u name Hin Hr Hname). reflexivity.
    + apply andb_false_r.
  - simpl. rewrite Hrefl, Z.eqb_refl. reflexivity.
Qed.

End LoginProperties.

(** Alice logs in as a customer. *)
Lemma login_grants_token_to_stored_user_witness :
  exists data name user,
    json_body (Sample.credentials "alice" "alicepass") = Some data
    /\ sql_text Demo.rt (Py.get_or_none "username" data) = Some (Some name)
    /\ In user Sample.users_with_alice
    /\ u_role_id user = 2
    /\ text_eq Sample.sv name (u_username user) = true
    /\ check_password_hash Sample.cr (u_password_hash user)
         (Py.get_or_none "password" data) = Some true
    /\ body (login Demo.rt Sample.sv Sample.cr 2 "Customer login successful"
               5000 (Sample.credentials "alice" "alicepass") Demo.calm
               Sample.users_with_alice)
       = JObj [("message", JStr "Customer login successful");
               ("token",
                JStr (jwt_encode Sample.cr
                        (mkClaims (u_id user) (u_username user) 2)
                        (5000 + 3600)))].
Proof.
  apply (login_grants_token_to_stored_user Demo.rt Sample.sv Sample.cr 2
           "Customer login successful" 5000
           (Sample.credentials "alice" "alicepass") Demo.calm
           Sample.users_with_alice).
  vm_compute. reflexivity.
Defined.

(** Alice is a customer: the login of the administrators does not know
    her, and a wrong password is answered in the same words. *)
Lemma login_refusals_witness :
  admin_login Demo.rt Sample.sv Sample.cr 5000
    (Sample.credentials "alice" "alicepass") Demo.calm Sample.users_with_alice
  = error_response 401 "Invalid username or password"
  /\ customer_login Demo.rt Sample.sv Sample.cr 5000
       (Sample.credentials "alice" "wrong") Demo.calm Sample.users_with_alice
     = error_response 401 "Invalid username or password".
Proof.
  split.
  - destruct (login_refusals Demo.rt Sample.sv Sample.cr 1
                "Admin login successful" 5000
                (Sample.credentials "alice" "alicepass") Demo.calm
                Sample.users_with_alice
                [("username", JStr "alice"); ("password", JStr "alicepass")]
                eq_refl) as (_ & H).
    destruct (H "alice" eq_refl ltac:(discriminate) eq_refl eq_refl eq_refl)
      as (Hunknown & _).
    apply Hunknown.
    intros u Hin Hname.
    repeat (destruct Hin as [<- | Hin]; [vm_compute in Hname |- *;
                                         try discriminate Hname;
                                         try discriminate |]).
    destruct Hin.
  - destruct (login_refusals Demo.rt Sample.sv Sample.cr 2
                "Customer login successful" 5000
                (Sample.credentials "alice" "wrong") Demo.calm
                Sample.users_with_alice
                [("username", JStr "alice"); ("password", JStr "wrong")]
                eq_refl) as (_ & H).
    destruct (H "alice" eq_refl ltac:(discriminate) eq_refl eq_refl eq_refl)
      as (_ & Hwrong).
    apply (Hwrong (mkUser 7 "alice" "alice@shop.test" "555"
                     (Sample.hash "s7" "alicepass") 2));
      vm_compute; reflexivity.
Defined.

(** Alice signs up and logs in with the same body. *)
Lemma signup_then_login_witness :
  exists name,
    sql_text Demo.rt (Py.get_or_none "username" (body_of Sample.alice_signup))
    = Some (Some name)
    /\ login Demo.rt Sample.sv Sample.cr 2 "Customer login successful" 5000
         Sample.alice_signup Demo.calm
         (snd (signup Demo.rt Sample.sv Sample.cr 2
                 "Customer registered successfully!" "s9" Sample.alice_signup
                 Demo.calm Sample.users))
       = mkResponse 200
           (JObj [("message", JStr "Customer login successful");
                  ("token",
                   JStr (jwt_encode Sample.cr
                           (mkClaims (next_user_id Sample.users) name 2)
                           (5000 + 3600)))]).
Proof.
  apply (signup_then_login Demo.rt Sample.sv Sample.cr 2
           "Customer registered successfully!" "Customer login successful"
           "s9" 5000 Sample.alice_signup Demo.calm Demo.calm Sample.users).
  - vm_compute. reflexivity.
  - intros s p. unfold Sample.cr, Sample.hash, Sample.check. simpl.
    f_equal. unfold Py.startswith, Py.reverse.
    change (String "$" p) with ("$" ++ p)%string.
    generalize ("$" ++ p)%string. intros t.
    assert (Hrev : forall a acc, Py.rev_onto a acc
                                 = (Py.rev_onto a "" ++ acc)%string).
    { induction a as [| c a IH]; intros acc; simpl; [reflexivity |].
      rewrite (IH (String c acc)), (IH (String c "")).
      rewrite string_app_assoc. reflexivity. }
    assert (Happ : forall a b, Py.rev_onto (a ++ b) ""
                               = (Py.rev_onto b "" ++ Py.rev_onto a "")%string).
    { induction a as [| c a IH]; intros b; simpl.
      - induction (Py.rev_onto b "") as [| x r IHr]; simpl;
          [reflexivity | rewrite <- IHr; reflexivity].
      - rewrite (Hrev (a ++ b)%string), IH, (Hrev a (String c "")).
        rewrite string_app_assoc. reflexivity. }
    rewrite Happ. apply prefix_self.
  - intros s. apply String.eqb_refl.
  - intros u name [<- | []] Hrole. discriminate Hrole.
  - reflexivity.
  - reflexivity.
Defined.

(** ** Tokens at the guards *)

Section TokensAtTheGuards.

Variable rt : runtime.
Variable sv : server.
Variable cr : crypto.

(** X23.  The token of a login and the guards of [cart.py].  Take the
    token of a login answered 200, a token that is not empty, does not
    start with "bearer " and that the decoder, with or without
    surrounding blanks stripped, reads back as the payload it was signed
    over.  Sent as the Authorization header, the token of /customer/login
    runs every Customer-only handler under the id of a stored customer and
    is answered 403 by every Admin-only endpoint; the token of
    /admin/login runs every Admin-only handler under the id of a stored
    administrator and is answered 403 by every Customer-only endpoint;
    and [dashboard] greets each under its role and name. *)
Theorem login_token_at_the_guards :
  forall (role : Z) (message : string) (utcnow : Z) (req : request) (e : env)
         (users : list user_row) (token : string)
         (f : Z -> request -> env -> db -> response * db)
         (req' : request) (e' : env) (d : db),
    login rt sv cr role message utcnow req e users
    = mkResponse 200 (JObj [("message", JStr message); ("token", JStr token)]) ->
    authorization req' = Some token ->
    token <> "" ->
    Py.startswith "bearer " (Py.lower token) = false ->
    (forall payload,
        token = jwt_encode cr payload (utcnow + 3600) ->
        jwt_decode rt (Py.strip token) = JwtOk payload
        /\ jwt_decode rt token = JwtOk payload) ->
    exists user,
      In user users /\ u_role_id user = role
      /\ (role = 2 ->
          jwt_required rt f req' e' d = f (u_id user) req' e' d
          /\ admin_required rt f req' e' d
             = (error_response 403 "Access denied — Admin only", d)
          /\ dashboard rt req'
             = mkResponse 200
                 (JObj [("message",
                         JStr ("Welcome Customer " ++ u_username user ++ "!"))]))
      /\ (role = 1 ->
          admin_required rt f req' e' d = f (u_id user) req' e' d
          /\ jwt_required rt f req' e' d
             = (error_response 403 "Access denied — Customer only", d)
          /\ dashboard rt req'
             = mkResponse 200
                 (JObj [("message",
                         JStr ("Welcome Admin " ++ u_username user ++ "!"))])).
Proof.
  intros role message utcnow req e users token f req' e' d
         Hlogin Hauth Hne Hraw Hdecode.
  assert (Hok : status (login rt sv cr role message utcnow req e users) = 200)
    by (rewrite Hlogin; reflexivity).
  destruct (login_200 rt sv cr role message utcnow req e users Hok)
    as (data & name & user & _ & _ & Hsel & _ & Hans).
  destruct (select_login_some _ _ _ _ _ Hsel) as (Hin & _ & Hrole).
  rewrite Hans in Hlogin. injection Hlogin as Htoken.
  destruct (Hdecode _ (eq_sym Htoken)) as [Hstrip Hplain].
  apply String.eqb_neq in Hne.
  exists user. split; [exact Hin |]. split; [exact Hrole |]. split.
  - intros ->. split; [| split].
    + unfold jwt_required.
      rewrite (customer_guard_decoded rt req' token _ Hauth Hne Hraw Hstrip).
      simpl. rewrite Hrole. reflexivity.
    + unfold admin_required.
      rewrite (admin_guard_decoded rt req' token _ Hauth Hne Hraw Hstrip).
      simpl. rewrite Hrole. reflexivity.
    + unfold dashboard. rewrite Hauth, Hne, Hplain. simpl. rewrite Hrole.
      reflexivity.
  - intros ->. split; [| split].
    + unfold admin_required.
      rewrite (admin_guard_decoded rt req' token _ Hauth Hne Hraw Hstrip).
      simpl. rewrite Hrole. reflexivity.
    + unfold jwt_required.
      rewrite (customer_guard_decoded rt req' token _ Hauth Hne Hraw Hstrip).
      simpl. rewrite Hrole. reflexivity.
    + unfold dashboard. rewrite Hauth, Hne, Hplain. simpl. rewrite Hrole.
      reflexivity.
Qed.

Lemma next_user_id_fresh users u :
  In u users -> (u_id u =? next_user_id users) = false.
Proof.
  intros Hin. apply Z.eqb_neq.
  pose proof (max_user_id_bound users u Hin). lia.
Qed.

(** X24.  A new account and GET /user/details.  A token whose payload
    names the id the next row of [users] will get is answered 404 "User
    not found" before the signup; after a signup answered 201 it is
    answered 200 with the user name, email and phone number that were
    signed up, and the role is named after the role the row was stored
    with, "Admin" for /admin/signup and "Customer" for /customer/signup,
    whatever the role in the token. *)
Theorem signup_then_user_details :
  forall (role : Z) (message salt : string) (req req' : request) (e e' : env)
         (users : list user_row) (token : string) (decoded : claims),
    status (fst (signup rt sv cr role message salt req e users)) = 201 ->
    authorization req' = Some token -> token <> "" ->
    jwt_decode rt token = JwtOk decoded ->
    cl_user_id decoded = next_user_id users ->
    db_up e' = true -> fault_at e' = None ->
    user_details rt req' e' users = error_response 404 "User not found"
    /\ exists name email phone,
         sql_text rt (Py.get_or_none "username" (body_of req)) = Some (Some name)
         /\ sql_text rt (Py.get_or_none "email" (body_of req)) = Some (Some email)
         /\ sql_text rt (Py.get_or_none "phone_number" (body_of req))
            = Some (Some phone)
         /\ user_details rt req' e'
              (snd (signup rt sv cr role message salt req e users))
            = mkResponse 200
                (JObj [("username", JStr name);
                       ("email", JStr email);
                       ("phone_number", JStr phone);
                       ("role", JStr (role_name role))]).
Proof.
  intros role message salt req req' e e' users token decoded
         Hok Hauth Hne Hdec Hid Hup Hf.
  apply String.eqb_neq in Hne.
  assert (Hhead : forall table,
            user_details rt req' e' table
            = match select_user (next_user_id users) table with
              | None => error_response 404 "User not found"
              | Some user =>
                  mkResponse 200
                    (JObj [("username", JStr (u_username user));
                           ("email", JStr (u_email user));
                           ("phone_number", JStr (u_phone_number user));
                           ("role", JStr (role_name (u_role_id user)))])
              end).
  { intros table. unfold user_details, raises_at.
    rewrite Hauth, Hne, Hdec, Hup, Hf, Hid. reflexivity. }
  split.
  - rewrite Hhead. unfold select_user.
    rewrite (find_none_all _ _ (next_user_id_fresh users)). reflexivity.
  - destruct (signup_cases rt sv cr role message salt req e users)
      as [[H _] | (data & name & email & phone & pw & H)]; [contradiction |].
    destruct H as (Hbody & Hname & Hemail & Hphone & _ & _ & _ & _ & _ & Hout).
    exists name, email, phone. unfold body_of. rewrite Hbody.
    split; [exact Hname |]. split; [exact Hemail |]. split; [exact Hphone |].
    rewrite Hout, Hhead. simpl snd. unfold select_user.
    rewrite find_app_fresh; [reflexivity | apply next_user_id_fresh |].
    simpl. apply Z.eqb_refl.
Qed.

End TokensAtTheGuards.

(** The token of Alice at the guards. *)
Lemma login_token_at_the_guards_witness :
  exists user,
    In user Sample.users_with_alice /\ u_role_id user = 2
    /\ (2 = 2 ->
        jwt_required Demo.rt view_cart (Demo.with_token "alice-token") Demo.calm
          Demo.store_with_cart
        = view_cart (u_id user) (Demo.with_token "alice-token") Demo.calm
            Demo.store_with_cart
        /\ admin_required Demo.rt view_cart (Demo.with_token "alice-token")
             Demo.calm Demo.store_with_cart
           = (error_response 403 "Access denied — Admin only",
              Demo.store_with_cart)
        /\ dashboard Demo.rt (Demo.with_token "alice-token")
           = mkResponse 200
               (JObj [("message",
                       JStr ("Welcome Customer " ++ u_username user ++ "!"))])).
Proof.
  destruct (login_token_at_the_guards Demo.rt Sample.sv Sample.cr 2
              "Customer login successful" 5000
              (Sample.credentials "alice" "alicepass") Demo.calm
              Sample.users_with_alice "alice-token" view_cart
              (Demo.with_token "alice-token") Demo.calm Demo.store_with_cart)
    as (user & Hin & Hrole & Hcustomer & _).
  - vm_compute. reflexivity.
  - reflexivity.
  - discriminate.
  - reflexivity.
  - intros payload Htoken.
    assert (Hp : payload = mkClaims 7 "alice" 2).
    { destruct payload as [uid uname urole].
      unfold jwt_encode, Sample.cr, Sample.encode in Htoken. simpl in Htoken.
      destruct ((uid =? 1) && (uname =? "root")%string && (urole =? 1));
        [discriminate Htoken |].
      destruct ((uid =? 7) && (uname =? "alice")%string && (urole =? 2))
        eqn:E; [| discriminate Htoken].
      apply andb_prop in E. destruct E as [E E3].
      apply andb_prop in E. destruct E as [E1 E2].
      apply Z.eqb_eq in E1, E3. apply String.eqb_eq in E2.
      subst. reflexivity. }
    subst payload. split; reflexivity.
  - exists user. split; [exact Hin |]. split; [exact Hrole |]. exact Hcustomer.
Defined.

(** Alice signs up as the seventh user: her token is answered 404 before
    and with her details after. *)
Lemma signup_then_user_details_witness :
  user_details Demo.rt (Demo.with_token "alice-token") Demo.calm
    (firstn 6 Sample.users_with_alice)
  = error_response 404 "User not found"
  /\ exists name email phone,
       sql_text Demo.rt (Py.get_or_none "username" (body_of Sample.alice_signup))
       = Some (Some name)
       /\ sql_text Demo.rt (Py.get_or_none "email" (body_of Sample.alice_signup))
          = Some (Some email)
       /\ sql_text Demo.rt
            (Py.get_or_none "phone_number" (body_of Sample.alice_signup))
          = Some (Some phone)
       /\ user_details Demo.rt (Demo.with_token "alice-token") Demo.calm
            (snd (signup Demo.rt Sample.sv Sample.cr 2
                    "Customer registered successfully!" "s7"
                    Sample.alice_signup Demo.calm
                    (firstn 6 Sample.users_with_alice)))
          = mkResponse 200
              (JObj [("username", JStr name); ("email", JStr email);
                     ("phone_number", JStr phone);
                     ("role", JStr (role_name 2))]).
Proof.
  apply (signup_then_user_details Demo.rt Sample.sv Sample.cr 2
           "Customer registered successfully!" "s7" Sample.alice_signup
           (Demo.with_token "alice-token") Demo.calm Demo.calm
           (firstn 6 Sample.users_with_alice) "alice-token"
           (mkClaims 7 "alice" 2));
    try reflexivity.
  discriminate.
Defined.
